(** * Fiscal calculation engine of the auto-entrepreneur SaaS

    A shallow embedding of the pure calculators of
    [frontend/src/lib/socialContributions.ts] and
    [frontend/src/lib/taxDeclarations.ts], followed by the properties the
    specification states about them.  The summaries of
    [frontend/src/lib/accounting.ts], the simulator of
    [frontend/src/app/dashboard/taxes/page.tsx] and the functions of the
    first two files that read or write the store are embedded after the
    calculators, with further properties of the code.

    Conventions of the embedding.
    - A JavaScript [number] is modelled by an exact rational ([Q]): the
      rounding of IEEE-754 doubles is abstracted, and a quantity is compared
      with [==] ([Qeq]).  [Infinity] (upper bound of the last tax bracket) is
      [None] in an [option Q].  Division by zero (NaN in JavaScript) is
      outside the model: statements that divide carry the divisor's
      non-nullity as a hypothesis.
    - A [throw] is modelled by the [Err] constructor of [result].
    - A [Date] is its time value (milliseconds since the epoch, a [Z]),
      or [None] for an Invalid Date; the clock ([new Date()]) and the local
      time zone adjustment are read from an explicit environment [Env].
    - The persistence collaborator is a list of rows threaded through the
      call.  The order of the store on a [date] column and the platform's
      reading of a date text are parameters of the functions that depend
      on them; the order in which the store returns rows is not modelled,
      and only sums and counts are stated about them. *)

From Stdlib Require Import ZArith QArith Qround Qminmax Qabs Lqa Lia.
From Stdlib Require Import Bool List Sorted Permutation String Ascii.
From Stdlib Require Import DecimalString.
Import ListNotations.

Open Scope Q_scope.

(** ** Activity types, exceptions and results of fallible calls *)

Inductive ActivityType : Type := services | commerce | liberal.

Definition ActivityType_toString (a : ActivityType) : string :=
  match a with
  | services => "services"
  | commerce => "commerce"
  | liberal => "liberal"
  end.

(** The exceptions of the modelled code.  [FranchiseExceeded] is [new
    Error(`Chiffre d'affaires dépassant le seuil de ${threshold}€ pour
    ${activityType}`)], the only exception the calculators raise themselves;
    it carries the two interpolated values.  [InvalidTimeValue] is the
    [RangeError] of [toISOString] on an Invalid Date. *)
Inductive Error : Type :=
| FranchiseExceeded (threshold : Q) (activityType : ActivityType)
| InvalidTimeValue.

Inductive result (A : Type) : Type :=
| Ok (a : A)
| Err (e : Error).
Arguments Ok {A} a.
Arguments Err {A} e.

Definition bind {A B : Type} (r : result A) (k : A -> result B) : result B :=
  match r with
  | Ok a => k a
  | Err e => Err e
  end.

Notation "x <- r ;; k" := (bind r (fun x => k))
  (at level 61, r at next level, right associativity).

(** Template-literal rendering of an integral number. *)
Definition Z_toString (z : Z) : string := NilZero.string_of_int (Z.to_int z).

Definition Error_message (e : Error) : string :=
  match e with
  | FranchiseExceeded threshold activityType =>
      ("Chiffre d'affaires dépassant le seuil de "
         ++ Z_toString (Qfloor threshold) ++ "€ pour "
         ++ ActivityType_toString activityType)%string
  | InvalidTimeValue => "Invalid time value"
  end.

(** ** ECMAScript dates

    The abstract operations of ECMA-262 (section "Date Objects") that the
    source reaches through [new Date(y, m, d)], [setFullYear], [getFullYear],
    [getMonth], [toISOString] and the comparison of two dates. *)
Module JsDate.
Open Scope Z_scope.

Definition msPerDay : Z := 86400000.

Definition Day (t : Z) : Z := t / msPerDay.
Definition TimeWithinDay (t : Z) : Z := t mod msPerDay.

Definition DaysInYear (y : Z) : Z :=
  if negb (y mod 4 =? 0) then 365
  else if negb (y mod 100 =? 0) then 366
  else if negb (y mod 400 =? 0) then 365
  else 366.

Definition DayFromYear (y : Z) : Z :=
  365 * (y - 1970) + (y - 1969) / 4 - (y - 1901) / 100 + (y - 1601) / 400.

(** Number of days before month [m] (0 = January) in a year of
    [DaysInYear = 365 + leap]. *)
Definition DaysBeforeMonth (leap m : Z) : Z :=
  match m with
  | 0 => 0
  | 1 => 31
  | 2 => 59 + leap
  | 3 => 90 + leap
  | 4 => 120 + leap
  | 5 => 151 + leap
  | 6 => 181 + leap
  | 7 => 212 + leap
  | 8 => 243 + leap
  | 9 => 273 + leap
  | 10 => 304 + leap
  | _ => 334 + leap
  end.

(** [MakeDay(year, month, date)]: months and dates out of range carry
    over, so that date 0 is the last day of the month before. *)
Definition MakeDay (year month date : Z) : Z :=
  let ym := year + month / 12 in
  let mn := month mod 12 in
  DayFromYear ym + DaysBeforeMonth (DaysInYear ym - 365) mn + date - 1.

Definition MakeDate (day time : Z) : Z := day * msPerDay + time.

(** [YearFromTime(t)]: the largest [y] with [DayFromYear y <= Day t], found
    from the estimate [Day t / 365.2425], which is off by at most one. *)
Definition YearFromTime (t : Z) : Z :=
  let d := Day t in
  let y0 := 1970 + (d * 10000) / 3652425 in
  if DayFromYear (y0 + 1) <=? d then y0 + 1
  else if d <? DayFromYear y0 then y0 - 1
  else y0.

Definition DayWithinYear (t : Z) : Z := Day t - DayFromYear (YearFromTime t).
Definition InLeapYear (t : Z) : Z := DaysInYear (YearFromTime t) - 365.

(** The month table of [MonthFromTime]: the month (0 = January) of day [d]
    of a year with [365 + leap] days. *)
Definition MonthFromDayWithinYear (leap d : Z) : Z :=
  if d <? 31 then 0
  else if d <? 59 + leap then 1
  else if d <? 90 + leap then 2
  else if d <? 120 + leap then 3
  else if d <? 151 + leap then 4
  else if d <? 181 + leap then 5
  else if d <? 212 + leap then 6
  else if d <? 243 + leap then 7
  else if d <? 273 + leap then 8
  else if d <? 304 + leap then 9
  else if d <? 334 + leap then 10
  else 11.

Definition MonthFromTime (t : Z) : Z :=
  MonthFromDayWithinYear (InLeapYear t) (DayWithinYear t).

Definition DateFromTime (t : Z) : Z :=
  DayWithinYear t - DaysBeforeMonth (InLeapYear t) (MonthFromTime t) + 1.

(** The local time zone is a fixed offset [tza] (milliseconds east of
    UTC) for the duration of one call. *)
Definition LocalTime (tza t : Z) : Z := t + tza.
Definition UTC (tza t : Z) : Z := t - tza.

(** A [Date] object is its time value; [None] is an Invalid Date (time
    value NaN). *)
Definition Date : Type := option Z.

Definition maxTime : Z := 8640000000000000.

Definition TimeClip (t : Z) : Date :=
  if maxTime <? Z.abs t then None else Some t.

(** [new Date(year, month, date)]: local midnight; a year in 0..99 means
    19xx. *)
Definition Date_ymd (tza year month date : Z) : Date :=
  let yr := if (0 <=? year) && (year <=? 99) then 1900 + year else year in
  TimeClip (UTC tza (MakeDate (MakeDay yr month date) 0)).

(** [d.getFullYear()] and [d.getMonth()]: NaN ([None]) on an Invalid
    Date. *)
Definition getFullYear (tza : Z) (d : Date) : option Z :=
  option_map (fun t => YearFromTime (LocalTime tza t)) d.
Definition getMonth (tza : Z) (d : Date) : option Z :=
  option_map (fun t => MonthFromTime (LocalTime tza t)) d.

(** [d.setFullYear(year)], returning the new time value of [d]; a NaN
    [year] invalidates the date, and an Invalid Date is set from time 0. *)
Definition setFullYear (tza : Z) (d : Date) (year : option Z) : Date :=
  match year with
  | None => None
  | Some y =>
      let lt := match d with
                | Some t => LocalTime tza t
                | None => 0
                end in
      TimeClip
        (UTC tza (MakeDate (MakeDay y (MonthFromTime lt) (DateFromTime lt))
                           (TimeWithinDay lt)))
  end.

(** [a <= b] on two dates: false as soon as one is invalid. *)
Definition leb (a b : Date) : bool :=
  match a, b with
  | Some x, Some y => x <=? y
  | _, _ => false
  end.

(** Decimal rendering on at least [n] digits. *)
Fixpoint zeros (n : nat) : string :=
  match n with
  | O => EmptyString
  | S k => String "0" (zeros k)
  end.

Definition pad (n : nat) (z : Z) : string :=
  let s := Z_toString z in
  (zeros (n - String.length s) ++ s)%string.

(** The date part of the ISO format, from a year, a month (1 = January)
    and a day of month. *)
Definition ISODate_format (y m d : Z) : string :=
  let ys := if (0 <=? y) && (y <=? 9999) then pad 4 y
            else if y <? 0 then ("-" ++ pad 6 (- y))%string
            else ("+" ++ pad 6 y)%string in
  (ys ++ "-" ++ pad 2 m ++ "-" ++ pad 2 d)%string.

(** [d.toISOString().split('T')[0]]: the calendar date of [d] in UTC;
    [toISOString] throws on an Invalid Date. *)
Definition toISODate (d : Date) : result string :=
  match d with
  | Some t =>
      Ok (ISODate_format (YearFromTime t) (MonthFromTime t + 1)
            (DateFromTime t))
  | None => Err InvalidTimeValue
  end.
End JsDate.

(** The environment of a call: the clock and the local time zone. *)
Record Env : Type := {
  now : Z;        (* time value of [new Date()] *)
  LocalTZA : Z    (* milliseconds east of UTC *)
}.

(** [new Date().getFullYear()] and [new Date().getMonth()]. *)
Definition currentFullYear (env : Env) : Z :=
  JsDate.YearFromTime (JsDate.LocalTime (LocalTZA env) (now env)).
Definition currentMonth (env : Env) : Z :=
  JsDate.MonthFromTime (JsDate.LocalTime (LocalTZA env) (now env)).

(** ** socialContributions.ts *)

(** [interface SocialContributionRates]; the [contributions] object of a
    calculation has the same seven numeric fields and reuses the record. *)
Module SocialContributionRates.
Record t : Type := mk {
  maladie : Q;
  retraite_base : Q;
  retraite_complementaire : Q;
  invalidite_deces : Q;
  csg_crds : Q;
  formation_professionnelle : Q;
  total : Q
}.
End SocialContributionRates.

Module SocialContributionCalculation.
Record t : Type := mk {
  revenue : Q;
  activity_type : ActivityType;
  rates : SocialContributionRates.t;
  contributions : SocialContributionRates.t;
  net_revenue : Q;
  quarter : string;
  year : Z
}.
End SocialContributionCalculation.

Inductive DeclarationStatus : Type := draft | submitted | paid.

(** A row of the [quarterly_declarations] table, as inserted. *)
Module QuarterlyDeclaration.
Record t : Type := mk {
  id : nat;
  user_id : string;
  year : Z;
  quarter : Z;
  revenue : Q;
  contributions : Q;
  activity_type : ActivityType;
  status : DeclarationStatus;
  due_date : string
}.
End QuarterlyDeclaration.

Import SocialContributionRates (maladie, retraite_base,
  retraite_complementaire, invalidite_deces, csg_crds,
  formation_professionnelle, total).

Definition SOCIAL_CONTRIBUTION_RATES_2024 (activityType : ActivityType)
  : SocialContributionRates.t :=
  match activityType with
  | services =>
      {| maladie := 0.065;
         retraite_base := 0.1175;
         retraite_complementaire := 0.007;
         invalidite_deces := 0.0048;
         csg_crds := 0.0262;
         formation_professionnelle := 0.0025;
         total := 0.221 |}
  | commerce =>
      {| maladie := 0.065;
         retraite_base := 0.1175;
         retraite_complementaire := 0.007;
         invalidite_deces := 0.0048;
         csg_crds := 0.0262;
         formation_professionnelle := 0.0011;
         total := 0.1286 |}
  | liberal =>
      {| maladie := 0.065;
         retraite_base := 0.1175;
         retraite_complementaire := 0.007;
         invalidite_deces := 0.0048;
         csg_crds := 0.0262;
         formation_professionnelle := 0.0025;
         total := 0.221 |}
  end.

Definition FRANCHISE_THRESHOLDS_2024 (activityType : ActivityType) : Q :=
  match activityType with
  | services => 77700
  | commerce => 188700
  | liberal => 77700
  end.

(** [a > b] on numbers. *)
Definition Qgtb (a b : Q) : bool := negb (Qle_bool a b).

(** [Math.ceil]. *)
Definition Math_ceil (x : Q) : Z := Qceiling x.

(** [calculateSocialContributions(revenue, activityType, year)]; a missing
    [year] argument ([None]) defaults to [new Date().getFullYear()]. *)
Definition calculateSocialContributions (env : Env) (revenue : Q)
    (activityType : ActivityType) (year : option Z)
  : result SocialContributionCalculation.t :=
  let year :=
    match year with
    | Some y => y
    | None => currentFullYear env
    end in
  let rates := SOCIAL_CONTRIBUTION_RATES_2024 activityType in
  let threshold := FRANCHISE_THRESHOLDS_2024 activityType in
  if Qgtb revenue threshold then
    Err (FranchiseExceeded threshold activityType)
  else
    let contributions :=
      {| maladie := revenue * maladie rates;
         retraite_base := revenue * retraite_base rates;
         retraite_complementaire := revenue * retraite_complementaire rates;
         invalidite_deces := revenue * invalidite_deces rates;
         csg_crds := revenue * csg_crds rates;
         formation_professionnelle := revenue * formation_professionnelle rates;
         total := revenue * total rates |} in
    let net_revenue := revenue - total contributions in
    let quarter :=
      ("T" ++ Z_toString
         (Math_ceil (inject_Z (currentMonth env + 1) / 3)))%string in
    Ok {| SocialContributionCalculation.revenue := revenue;
          SocialContributionCalculation.activity_type := activityType;
          SocialContributionCalculation.rates := rates;
          SocialContributionCalculation.contributions := contributions;
          SocialContributionCalculation.net_revenue := net_revenue;
          SocialContributionCalculation.quarter := quarter;
          SocialContributionCalculation.year := year |}.

(** [saveQuarterlyDeclaration]: the row inserted into
    [quarterly_declarations] and the returned id.  The table is threaded
    through the call and the store assigns the id; failures of the store
    itself are not modelled. *)
Definition saveQuarterlyDeclaration (env : Env)
    (table : list QuarterlyDeclaration.t)
    (userId : string) (year quarter : Z)
    (calculation : SocialContributionCalculation.t)
  : result (nat * list QuarterlyDeclaration.t) :=
  let dueMonth := (quarter * 3 + 1)%Z in
  let dueDate := JsDate.Date_ymd (LocalTZA env) year dueMonth 0 in
  due_date <- JsDate.toISODate dueDate ;;
  let row :=
    {| QuarterlyDeclaration.id := List.length table;
       QuarterlyDeclaration.user_id := userId;
       QuarterlyDeclaration.year := year;
       QuarterlyDeclaration.quarter := quarter;
       QuarterlyDeclaration.revenue :=
         SocialContributionCalculation.revenue calculation;
       QuarterlyDeclaration.contributions :=
         total (SocialContributionCalculation.contributions calculation);
       QuarterlyDeclaration.activity_type :=
         SocialContributionCalculation.activity_type calculation;
       QuarterlyDeclaration.status := draft;
       QuarterlyDeclaration.due_date := due_date |} in
  Ok (QuarterlyDeclaration.id row, (table ++ [row])%list).

(** The result of [checkACREEligibility]: [expiryDate] and [reducedRates]
    are optional fields. *)
Module ACREEligibility.
Record t : Type := mk {
  eligible : bool;
  expiryDate : option JsDate.Date;
  reducedRates : option SocialContributionRates.t
}.
End ACREEligibility.

Definition checkACREEligibility (env : Env) (creationDate : JsDate.Date)
    (hasReceivedACRE : bool) : ACREEligibility.t :=
  let today := Some (now env) in
  let threeYearsAfterCreation :=
    JsDate.setFullYear (LocalTZA env) creationDate
      (option_map (fun y => (y + 3)%Z)
         (JsDate.getFullYear (LocalTZA env) creationDate)) in
  let eligible :=
    negb hasReceivedACRE && JsDate.leb today threeYearsAfterCreation in
  if eligible then
    let reducedRates :=
      {| maladie := 0.0325;
         retraite_base := 0.05875;
         retraite_complementaire := 0.0035;
         invalidite_deces := 0.0024;
         csg_crds := 0.0131;
         formation_professionnelle := 0.00125;
         total := 0.1105 |} in
    {| ACREEligibility.eligible := true;
       ACREEligibility.expiryDate := Some threeYearsAfterCreation;
       ACREEligibility.reducedRates := Some reducedRates |}
  else
    {| ACREEligibility.eligible := false;
       ACREEligibility.expiryDate := None;
       ACREEligibility.reducedRates := None |}.

(** [calculateContributionsWithACRE(revenue, activityType, acreYear)]: the
    [switch] leaves [reductionRate] at 0 outside 1, 2, 3. *)
Definition calculateContributionsWithACRE (env : Env) (revenue : Q)
    (activityType : ActivityType) (acreYear : Z)
  : result SocialContributionCalculation.t :=
  let reductionRate :=
    match acreYear with
    | 1%Z => 0.75
    | 2%Z => 0.50
    | 3%Z => 0.25
    | _ => 0
    end in
  standardCalculation <- calculateSocialContributions env revenue activityType None ;;
  let std := SocialContributionCalculation.contributions standardCalculation in
  let reducedContributions :=
    {| maladie := maladie std * (1 - reductionRate);
       retraite_base := retraite_base std * (1 - reductionRate);
       retraite_complementaire :=
         retraite_complementaire std * (1 - reductionRate);
       invalidite_deces := invalidite_deces std * (1 - reductionRate);
       csg_crds := csg_crds std * (1 - reductionRate);
       formation_professionnelle :=
         formation_professionnelle std * (1 - reductionRate);
       total := total std * (1 - reductionRate) |} in
  Ok {| SocialContributionCalculation.revenue :=
          SocialContributionCalculation.revenue standardCalculation;
        SocialContributionCalculation.activity_type :=
          SocialContributionCalculation.activity_type standardCalculation;
        SocialContributionCalculation.rates :=
          SocialContributionCalculation.rates standardCalculation;
        SocialContributionCalculation.contributions := reducedContributions;
        SocialContributionCalculation.net_revenue :=
          revenue - total reducedContributions;
        SocialContributionCalculation.quarter :=
          SocialContributionCalculation.quarter standardCalculation;
        SocialContributionCalculation.year :=
          SocialContributionCalculation.year standardCalculation |}.

(** ** taxDeclarations.ts *)

Definition MICRO_ABATTEMENT_RATES (activityType : ActivityType) : Q :=
  match activityType with
  | services => 0.50
  | commerce => 0.29
  | liberal => 0.34
  end.

(** An entry of [INCOME_TAX_BRACKETS_2024]; [max = None] is [Infinity]. *)
Module TaxBracket.
Record t : Type := mk {
  min : Q;
  max : option Q;
  rate : Q
}.
End TaxBracket.

(** An entry of [IncomeTaxData.tax_brackets]. *)
Module TaxBracketAmount.
Record t : Type := mk {
  min : Q;
  max : option Q;
  rate : Q;
  amount : Q
}.
End TaxBracketAmount.

Inductive Regime : Type := micro | reel.

Module IncomeTaxData.
Record t : Type := mk {
  revenue : Q;
  expenses : Q;
  net_result : Q;
  activity_type : ActivityType;
  regime : Regime;
  abattement : Q;
  taxable_income : Q;
  tax_brackets : list TaxBracketAmount.t;
  total_tax : Q
}.
End IncomeTaxData.

Module CFEData.
Record t : Type := mk {
  revenue : Q;
  activity_type : ActivityType;
  commune : string;
  surface_m2 : option Q;
  is_exempt : bool;
  exemption_reason : option string;
  base_amount : Q;
  tax_rate : Q;
  total_cfe : Q
}.
End CFEData.

Definition INCOME_TAX_BRACKETS_2024 : list TaxBracket.t :=
  [ {| TaxBracket.min := 0; TaxBracket.max := Some 11294; TaxBracket.rate := 0.00 |};
    {| TaxBracket.min := 11294; TaxBracket.max := Some 28797; TaxBracket.rate := 0.11 |};
    {| TaxBracket.min := 28797; TaxBracket.max := Some 82341; TaxBracket.rate := 0.30 |};
    {| TaxBracket.min := 82341; TaxBracket.max := Some 177106; TaxBracket.rate := 0.41 |};
    {| TaxBracket.min := 177106; TaxBracket.max := None; TaxBracket.rate := 0.45 |} ].

Module CFE_THRESHOLDS.
Definition exemption_revenue : Q := 5000.
Definition minimum_base : Q := 227.
Definition maximum_base : Q := 7000.
End CFE_THRESHOLDS.

(** [Math.min(x, m)] where [m] may be [Infinity]. *)
Definition Math_min (x : Q) (m : option Q) : Q :=
  match m with
  | Some m => Qmin x m
  | None => x
  end.

(** The body of the [for ... of] loop of [calculateIncomeTax], from the
    bracket the loop is at; the state is [(taxBrackets, totalTax)] and
    [break] returns it. *)
Fixpoint bracket_loop (taxableIncome : Q) (brackets : list TaxBracket.t)
    (state : list TaxBracketAmount.t * Q) : list TaxBracketAmount.t * Q :=
  match brackets with
  | [] => state
  | bracket :: rest =>
      if Qle_bool taxableIncome (TaxBracket.min bracket) then state
      else
        let '(taxBrackets, totalTax) := state in
        let taxableAmount :=
          Math_min taxableIncome (TaxBracket.max bracket)
          - TaxBracket.min bracket in
        let taxAmount := taxableAmount * TaxBracket.rate bracket in
        bracket_loop taxableIncome rest
          (taxBrackets ++
             [ {| TaxBracketAmount.min := TaxBracket.min bracket;
                  TaxBracketAmount.max := TaxBracket.max bracket;
                  TaxBracketAmount.rate := TaxBracket.rate bracket;
                  TaxBracketAmount.amount := taxAmount |} ],
           totalTax + taxAmount)
  end.

Definition calculateIncomeTax (revenue : Q) (activityType : ActivityType)
    (parts : Q) : IncomeTaxData.t :=
  let abattementRate := MICRO_ABATTEMENT_RATES activityType in
  let abattement := revenue * abattementRate in
  let taxableIncome := (revenue - abattement) / parts in
  let '(taxBrackets, totalTax) :=
    bracket_loop taxableIncome INCOME_TAX_BRACKETS_2024 ([], 0) in
  {| IncomeTaxData.revenue := revenue;
     IncomeTaxData.expenses := 0;
     IncomeTaxData.net_result := revenue;
     IncomeTaxData.activity_type := activityType;
     IncomeTaxData.regime := micro;
     IncomeTaxData.abattement := abattement;
     IncomeTaxData.taxable_income := taxableIncome;
     IncomeTaxData.tax_brackets := taxBrackets;
     IncomeTaxData.total_tax := totalTax * parts |}.

(** Truthiness of the optional [surfaceM2]: [undefined] and [0] are falsy. *)
Definition truthy (x : option Q) : bool :=
  match x with
  | Some v => negb (Qeq_bool v 0)
  | None => false
  end.

(** The number held by a truthy optional argument. *)
Definition number_of (x : option Q) : Q :=
  match x with
  | Some v => v
  | None => 0
  end.

Definition calculateCFE (revenue : Q) (activityType : ActivityType)
    (commune : string) (surfaceM2 : option Q) : CFEData.t :=
  let isExempt := negb (Qle_bool CFE_THRESHOLDS.exemption_revenue revenue) in
  if isExempt then
    {| CFEData.revenue := revenue;
       CFEData.activity_type := activityType;
       CFEData.commune := commune;
       CFEData.surface_m2 := surfaceM2;
       CFEData.is_exempt := true;
       CFEData.exemption_reason :=
         Some "Chiffre d'affaires inférieur à 5 000€"%string;
       CFEData.base_amount := 0;
       CFEData.tax_rate := 0;
       CFEData.total_cfe := 0 |}
  else
    let baseAmount :=
      if truthy surfaceM2 then
        Qmin (number_of surfaceM2 * 16) CFE_THRESHOLDS.maximum_base
      else if Qgtb revenue 32600 then
        Qmin (revenue * 0.005) CFE_THRESHOLDS.maximum_base
      else CFE_THRESHOLDS.minimum_base in
    let taxRate := 0.25 in
    let totalCFE := baseAmount * taxRate in
    {| CFEData.revenue := revenue;
       CFEData.activity_type := activityType;
       CFEData.commune := commune;
       CFEData.surface_m2 := surfaceM2;
       CFEData.is_exempt := false;
       CFEData.exemption_reason := None;
       CFEData.base_amount := baseAmount;
       CFEData.tax_rate := taxRate;
       CFEData.total_cfe := totalCFE |}.

(** ** socialContributions.ts: simulation and breakdown *)

(** [Array.prototype.map] with a callback that may throw: the elements are
    visited in order and the first exception ends the call. *)
Fixpoint mapM {A B : Type} (f : A -> result B) (l : list A)
  : result (list B) :=
  match l with
  | [] => Ok []
  | x :: rest =>
      y <- f x ;;
      ys <- mapM f rest ;;
      Ok (y :: ys)
  end.

(** An entry of the array returned by [simulateContributions]. *)
Module SimulationEntry.
Record t : Type := mk {
  revenue : Q;
  contributions : Q;
  net : Q;
  rate : Q
}.
End SimulationEntry.

Definition simulateContributions (env : Env) (revenues : list Q)
    (activityType : ActivityType) : result (list SimulationEntry.t) :=
  mapM (fun revenue =>
          calculation <- calculateSocialContributions env revenue activityType
                           None ;;
          Ok {| SimulationEntry.revenue := revenue;
                SimulationEntry.contributions :=
                  total (SocialContributionCalculation.contributions calculation);
                SimulationEntry.net :=
                  SocialContributionCalculation.net_revenue calculation;
                SimulationEntry.rate :=
                  (total (SocialContributionCalculation.contributions calculation)
                   / revenue) * 100 |})
       revenues.

(** An entry of the array returned by [getContributionBreakdown]. *)
Module BreakdownItem.
Record t : Type := mk {
  name : string;
  rate : Q;
  amount : Q;
  description : string
}.
End BreakdownItem.

Definition getContributionBreakdown (revenue : Q)
    (activityType : ActivityType) : list BreakdownItem.t :=
  let rates := SOCIAL_CONTRIBUTION_RATES_2024 activityType in
  [ {| BreakdownItem.name := "Maladie-Maternité";
       BreakdownItem.rate := maladie rates * 100;
       BreakdownItem.amount := revenue * maladie rates;
       BreakdownItem.description := "Assurance maladie et maternité" |};
    {| BreakdownItem.name := "Retraite de base";
       BreakdownItem.rate := retraite_base rates * 100;
       BreakdownItem.amount := revenue * retraite_base rates;
       BreakdownItem.description := "Retraite de base du régime général" |};
    {| BreakdownItem.name := "Retraite complémentaire";
       BreakdownItem.rate := retraite_complementaire rates * 100;
       BreakdownItem.amount := revenue * retraite_complementaire rates;
       BreakdownItem.description := "Retraite complémentaire obligatoire" |};
    {| BreakdownItem.name := "Invalidité-Décès";
       BreakdownItem.rate := invalidite_deces rates * 100;
       BreakdownItem.amount := revenue * invalidite_deces rates;
       BreakdownItem.description := "Assurance invalidité et décès" |};
    {| BreakdownItem.name := "CSG-CRDS";
       BreakdownItem.rate := csg_crds rates * 100;
       BreakdownItem.amount := revenue * csg_crds rates;
       BreakdownItem.description := "Contribution sociale généralisée et CRDS" |};
    {| BreakdownItem.name := "Formation professionnelle";
       BreakdownItem.rate := formation_professionnelle rates * 100;
       BreakdownItem.amount := revenue * formation_professionnelle rates;
       BreakdownItem.description :=
         "Contribution à la formation professionnelle" |} ].

(** ** accounting.ts: the simplified contribution estimate *)

Module Accounting.
(** [calculateSocialContributions] of accounting.ts, a namesake of the
    detailed calculator. *)
Definition calculateSocialContributions (revenue : Q)
    (activityType : ActivityType) : Q :=
  let rates :=
    match activityType with
    | services => 0.22
    | commerce => 0.128
    | liberal => 0.22
    end in
  revenue * rates.
End Accounting.

(** ** app/dashboard/taxes/page.tsx: the contribution simulator *)

(** [simulationData], the state the simulator form edits. *)
Module SimulationData.
Record t : Type := mk {
  targetRevenue : Q;
  activityType : ActivityType;
  hasACRE : bool;
  acreYear : Z;
  businessCreationDate : string
}.
End SimulationData.

(** A point of [comparisonData]. *)
Module ComparisonPoint.
Record t : Type := mk {
  revenue : Q;
  standard : Q;
  acre : Q;
  standardNet : Q;
  acreNet : Q
}.
End ComparisonPoint.

(** The object passed to [setResults]. *)
Module SimulationResults.
Record t : Type := mk {
  standard : SocialContributionCalculation.t;
  acre : option SocialContributionCalculation.t;
  breakdown : list BreakdownItem.t
}.
End SimulationResults.

(** [Array.from({ length: 10 }, (_, i) => (i + 1) * 10000)]. *)
Definition revenueTargets : list Q :=
  map (fun i => (inject_Z (Z.of_nat i) + 1) * 10000) (seq 0 10).

(** [runSimulation]: the values handed to [setResults] and
    [setComparisonData]; the state setters themselves are not modelled. *)
Definition runSimulation (env : Env) (simulationData : SimulationData.t)
  : result (SimulationResults.t * list ComparisonPoint.t) :=
  let activityType := SimulationData.activityType simulationData in
  standardCalculation <-
    calculateSocialContributions env
      (SimulationData.targetRevenue simulationData) activityType None ;;
  acreCalculation <-
    (if SimulationData.hasACRE simulationData then
       a <- calculateContributionsWithACRE env
              (SimulationData.targetRevenue simulationData) activityType
              (SimulationData.acreYear simulationData) ;;
       Ok (Some a)
     else Ok None) ;;
  let breakdown :=
    getContributionBreakdown (SimulationData.targetRevenue simulationData)
      activityType in
  let results :=
    {| SimulationResults.standard := standardCalculation;
       SimulationResults.acre := acreCalculation;
       SimulationResults.breakdown := breakdown |} in
  comparison <-
    mapM (fun revenue =>
            standard <- calculateSocialContributions env revenue activityType
                          None ;;
            acre <-
              (if SimulationData.hasACRE simulationData then
                 a <- calculateContributionsWithACRE env revenue activityType
                        (SimulationData.acreYear simulationData) ;;
                 Ok (Some a)
               else Ok None) ;;
            Ok {| ComparisonPoint.revenue := revenue;
                  ComparisonPoint.standard :=
                    total (SocialContributionCalculation.contributions standard);
                  ComparisonPoint.acre :=
                    match acre with
                    | Some a =>
                        total (SocialContributionCalculation.contributions a)
                    | None => 0
                    end;
                  ComparisonPoint.standardNet :=
                    SocialContributionCalculation.net_revenue standard;
                  ComparisonPoint.acreNet :=
                    match acre with
                    | Some a => SocialContributionCalculation.net_revenue a
                    | None => 0
                    end |})
         revenueTargets ;;
  Ok (results, comparison).

(** ** accounting.ts: summaries over the transactions table *)

Inductive TransactionType : Type := income | expense.

(** A row of the [transactions] table; [vat_amount] and [is_deductible]
    are nullable columns. *)
Module Transaction.
Record t : Type := mk {
  id : nat;
  user_id : string;
  type : TransactionType;
  category : string;
  subcategory : option string;
  description : string;
  amount : Q;
  vat_amount : option Q;
  date : string;
  payment_method : option string;
  receipt_url : option string;
  notes : option string;
  is_deductible : option bool
}.
End Transaction.

(** [interface TransactionFormData]. *)
Module TransactionFormData.
Record t : Type := mk {
  type : TransactionType;
  category : string;
  subcategory : option string;
  description : string;
  amount : Q;
  vat_amount : option Q;
  date : string;
  payment_method : option string;
  receipt_url : option string;
  notes : option string;
  is_deductible : option bool
}.
End TransactionFormData.

Module AccountingSummary.
Record t : Type := mk {
  totalIncome : Q;
  totalExpenses : Q;
  netResult : Q;
  totalVatCollected : Q;
  totalVatPaid : Q;
  deductibleExpenses : Q;
  nonDeductibleExpenses : Q;
  socialContributions : Q
}.
End AccountingSummary.

Module MonthlyData.
Record t : Type := mk {
  month : string;
  income : Q;
  expenses : Q;
  netResult : Q
}.
End MonthlyData.

Module CategoryData.
Record t : Type := mk {
  category : string;
  amount : Q;
  percentage : Q;
  transactions : nat
}.
End CategoryData.

(** [x || 0] on a nullable number. *)
Definition or_zero (x : option Q) : Q :=
  match x with
  | Some v => v
  | None => 0
  end.

(** Truthiness of a nullable boolean and of an optional string. *)
Definition truthy_bool (x : option bool) : bool :=
  match x with
  | Some b => b
  | None => false
  end.

Definition truthy_string (x : option string) : bool :=
  match x with
  | Some s => negb (String.eqb s "")
  | None => false
  end.

Definition string_of (x : option string) : string :=
  match x with
  | Some s => s
  | None => ""
  end.

(** [createTransaction]: the row inserted and its id, which the store
    assigns; a missing VAT amount is stored as 0 and a missing deductible
    flag as false. *)
Definition createTransaction (table : list Transaction.t) (userId : string)
    (data : TransactionFormData.t) : nat * list Transaction.t :=
  let row :=
    {| Transaction.id := List.length table;
       Transaction.user_id := userId;
       Transaction.type := TransactionFormData.type data;
       Transaction.category := TransactionFormData.category data;
       Transaction.subcategory := TransactionFormData.subcategory data;
       Transaction.description := TransactionFormData.description data;
       Transaction.amount := TransactionFormData.amount data;
       Transaction.vat_amount :=
         Some (or_zero (TransactionFormData.vat_amount data));
       Transaction.date := TransactionFormData.date data;
       Transaction.payment_method := TransactionFormData.payment_method data;
       Transaction.receipt_url := TransactionFormData.receipt_url data;
       Transaction.notes := TransactionFormData.notes data;
       Transaction.is_deductible :=
         Some (truthy_bool (TransactionFormData.is_deductible data)) |} in
  (Transaction.id row, (table ++ [row])%list).

(** The body of the [forEach] of [getAccountingSummary]. *)
Definition summary_step (summary : AccountingSummary.t)
    (transaction : Transaction.t) : AccountingSummary.t :=
  match Transaction.type transaction with
  | income =>
      {| AccountingSummary.totalIncome :=
           AccountingSummary.totalIncome summary + Transaction.amount transaction;
         AccountingSummary.totalExpenses :=
           AccountingSummary.totalExpenses summary;
         AccountingSummary.netResult := AccountingSummary.netResult summary;
         AccountingSummary.totalVatCollected :=
           AccountingSummary.totalVatCollected summary
           + or_zero (Transaction.vat_amount transaction);
         AccountingSummary.totalVatPaid :=
           AccountingSummary.totalVatPaid summary;
         AccountingSummary.deductibleExpenses :=
           AccountingSummary.deductibleExpenses summary;
         AccountingSummary.nonDeductibleExpenses :=
           AccountingSummary.nonDeductibleExpenses summary;
         AccountingSummary.socialContributions :=
           AccountingSummary.socialContributions summary |}
  | expense =>
      {| AccountingSummary.totalIncome := AccountingSummary.totalIncome summary;
         AccountingSummary.totalExpenses :=
           AccountingSummary.totalExpenses summary
           + Transaction.amount transaction;
         AccountingSummary.netResult := AccountingSummary.netResult summary;
         AccountingSummary.totalVatCollected :=
           AccountingSummary.totalVatCollected summary;
         AccountingSummary.totalVatPaid :=
           AccountingSummary.totalVatPaid summary
           + or_zero (Transaction.vat_amount transaction);
         AccountingSummary.deductibleExpenses :=
           if truthy_bool (Transaction.is_deductible transaction) then
             AccountingSummary.deductibleExpenses summary
             + Transaction.amount transaction
           else AccountingSummary.deductibleExpenses summary;
         AccountingSummary.nonDeductibleExpenses :=
           if truthy_bool (Transaction.is_deductible transaction) then
             AccountingSummary.nonDeductibleExpenses summary
           else
             AccountingSummary.nonDeductibleExpenses summary
             + Transaction.amount transaction;
         AccountingSummary.socialContributions :=
           if String.eqb (Transaction.category transaction) "Charges sociales"
           then
             AccountingSummary.socialContributions summary
             + Transaction.amount transaction
           else AccountingSummary.socialContributions summary |}
  end.

Definition empty_summary : AccountingSummary.t :=
  {| AccountingSummary.totalIncome := 0;
     AccountingSummary.totalExpenses := 0;
     AccountingSummary.netResult := 0;
     AccountingSummary.totalVatCollected := 0;
     AccountingSummary.totalVatPaid := 0;
     AccountingSummary.deductibleExpenses := 0;
     AccountingSummary.nonDeductibleExpenses := 0;
     AccountingSummary.socialContributions := 0 |}.

(** The summary built from the rows a query returned. *)
Definition summarize (transactions : list Transaction.t)
  : AccountingSummary.t :=
  let summary := fold_left summary_step transactions empty_summary in
  {| AccountingSummary.totalIncome := AccountingSummary.totalIncome summary;
     AccountingSummary.totalExpenses := AccountingSummary.totalExpenses summary;
     AccountingSummary.netResult :=
       AccountingSummary.totalIncome summary
       - AccountingSummary.totalExpenses summary;
     AccountingSummary.totalVatCollected :=
       AccountingSummary.totalVatCollected summary;
     AccountingSummary.totalVatPaid := AccountingSummary.totalVatPaid summary;
     AccountingSummary.deductibleExpenses :=
       AccountingSummary.deductibleExpenses summary;
     AccountingSummary.nonDeductibleExpenses :=
       AccountingSummary.nonDeductibleExpenses summary;
     AccountingSummary.socialContributions :=
       AccountingSummary.socialContributions summary |}.

(** [array.reduce((sum, t) => sum + t.amount, 0)]. *)
Definition sum_amount (transactions : list Transaction.t) : Q :=
  fold_left (fun sum t => sum + Transaction.amount t) transactions 0.

Definition is_income (t : Transaction.t) : bool :=
  match Transaction.type t with
  | income => true
  | expense => false
  end.

Definition is_expense (t : Transaction.t) : bool :=
  match Transaction.type t with
  | income => false
  | expense => true
  end.

Definition months : list string :=
  [ "Janvier"; "Février"; "Mars"; "Avril"; "Mai"; "Juin";
    "Juillet"; "Août"; "Septembre"; "Octobre"; "Novembre"; "Décembre" ]%string.

(** The [Map] of [getCategoryBreakdown], in insertion order. *)
Definition CategoryMap : Type := list (string * (Q * nat)).

Fixpoint Map_get (m : CategoryMap) (key : string) : option (Q * nat) :=
  match m with
  | [] => None
  | (k, v) :: rest => if String.eqb k key then Some v else Map_get rest key
  end.

(** [map.set(key, value)]: an existing key keeps its place, a new key goes
    last. *)
Fixpoint Map_set (m : CategoryMap) (key : string) (value : Q * nat)
  : CategoryMap :=
  match m with
  | [] => [(key, value)]
  | (k, v) :: rest =>
      if String.eqb k key then (k, value) :: rest
      else (k, v) :: Map_set rest key value
  end.

(** The body of the [forEach] over the transactions: the state is the map
    and [totalAmount]. *)
Definition category_step (state : CategoryMap * Q) (transaction : Transaction.t)
  : CategoryMap * Q :=
  let '(categoryMap, totalAmount) := state in
  let category := Transaction.category transaction in
  let existing :=
    match Map_get categoryMap category with
    | Some v => v
    | None => (0, 0%nat)
    end in
  (Map_set categoryMap category
     (fst existing + Transaction.amount transaction, (snd existing + 1)%nat),
   totalAmount + Transaction.amount transaction).

(** [sort((a, b) => b.amount - a.amount)]: the stable sort by decreasing
    amount. *)
Fixpoint insert_by_amount (x : CategoryData.t) (l : list CategoryData.t)
  : list CategoryData.t :=
  match l with
  | [] => [x]
  | y :: rest =>
      if Qle_bool (CategoryData.amount y) (CategoryData.amount x)
      then x :: y :: rest
      else y :: insert_by_amount x rest
  end.

Definition sort_by_amount (l : list CategoryData.t) : list CategoryData.t :=
  fold_right insert_by_amount [] l.

(** The rows built from the aggregated map. *)
Definition category_rows (categoryMap : CategoryMap) (totalAmount : Q)
  : list CategoryData.t :=
  map (fun '(category, data) =>
         {| CategoryData.category := category;
            CategoryData.amount := fst data;
            CategoryData.percentage :=
              if Qgtb totalAmount 0 then (fst data / totalAmount) * 100 else 0;
            CategoryData.transactions := snd data |})
      categoryMap.

(** The part of [getCategoryBreakdown] that follows the query. *)
Definition categoryBreakdown (transactions : list Transaction.t)
  : list CategoryData.t :=
  let '(categoryMap, totalAmount) :=
    fold_left category_step transactions ([], 0) in
  sort_by_amount (category_rows categoryMap totalAmount).

Section TransactionsStore.

(** The order of the store on the [date] column, between two dates in text
    form, and the platform's [new Date(text)]. *)
Variable date_leb : string -> string -> bool.
Variable Date_parse : string -> JsDate.Date.

(** The rows selected by [.eq('user_id', userId)], [.gte('date',
    startDate)] and [.lte('date', endDate)], the last two only for a
    truthy bound.  The order in which the store returns them is not
    modelled: the sums below do not depend on it. *)
Definition select_transactions (table : list Transaction.t) (userId : string)
    (startDate endDate : option string) : list Transaction.t :=
  filter (fun t =>
            String.eqb (Transaction.user_id t) userId
            && (if truthy_string startDate
                then date_leb (string_of startDate) (Transaction.date t)
                else true)
            && (if truthy_string endDate
                then date_leb (Transaction.date t) (string_of endDate)
                else true))
         table.

Definition getAccountingSummary (table : list Transaction.t) (userId : string)
    (startDate endDate : option string) : AccountingSummary.t :=
  summarize (select_transactions table userId startDate endDate).

(** [new Date(t.date).getMonth() === i]. *)
Definition in_month (tza : Z) (i : Z) (t : Transaction.t) : bool :=
  match JsDate.getMonth tza (Date_parse (Transaction.date t)) with
  | Some m => (m =? i)%Z
  | None => false
  end.

Definition getMonthlyData (tza : Z) (table : list Transaction.t)
    (userId : string) (year : Z) : list MonthlyData.t :=
  let startDate := (Z_toString year ++ "-01-01")%string in
  let endDate := (Z_toString year ++ "-12-31")%string in
  let transactions :=
    filter (fun t =>
              String.eqb (Transaction.user_id t) userId
              && date_leb startDate (Transaction.date t)
              && date_leb (Transaction.date t) endDate)
           table in
  map (fun i =>
         let monthTransactions :=
           filter (in_month tza (Z.of_nat i)) transactions in
         let income := sum_amount (filter is_income monthTransactions) in
         let expenses := sum_amount (filter is_expense monthTransactions) in
         {| MonthlyData.month := nth i months ""%string;
            MonthlyData.income := income;
            MonthlyData.expenses := expenses;
            MonthlyData.netResult := income - expenses |})
      (seq 0 12).

Definition getCategoryBreakdown (table : list Transaction.t) (userId : string)
    (type : TransactionType) (startDate endDate : option string)
  : list CategoryData.t :=
  categoryBreakdown
    (filter (fun t =>
               match Transaction.type t, type with
               | income, income | expense, expense => true
               | _, _ => false
               end)
            (select_transactions table userId startDate endDate)).

End TransactionsStore.

(** ** socialContributions.ts: calculations and declarations over the store *)

Section ContributionsStore.

Variable date_leb : string -> string -> bool.

(** [calculateQuarterlyContributions]: the rows are those of the query made
    through [getUserTransactions] with the type 'income' and the two
    bounds, without limit or offset. *)
Definition calculateQuarterlyContributions (env : Env)
    (table : list Transaction.t) (userId : string) (year quarter : Z)
    (activityType : ActivityType) : result SocialContributionCalculation.t :=
  let startMonth := ((quarter - 1) * 3 + 1)%Z in
  let endMonth := (quarter * 3)%Z in
  let startDate := JsDate.Date_ymd (LocalTZA env) year (startMonth - 1) 1 in
  let endDate := JsDate.Date_ymd (LocalTZA env) year endMonth 0 in
  startText <- JsDate.toISODate startDate ;;
  endText <- JsDate.toISODate endDate ;;
  let transactions :=
    filter is_income
      (select_transactions date_leb table userId
         (Some startText) (Some endText)) in
  let quarterlyRevenue := sum_amount transactions in
  calculateSocialContributions env quarterlyRevenue activityType (Some year).

(** The [for] loop of [generateAnnualDeclarations] over the quarters that
    remain; the state is the [quarterly_declarations] table.  An exception
    leaves the loop with the table as it is at that point. *)
Fixpoint generateAnnualDeclarations_from (env : Env)
    (table : list Transaction.t) (userId : string) (year : Z)
    (activityType : ActivityType) (quarters : list Z)
    (declarations : list QuarterlyDeclaration.t)
  : result unit * list QuarterlyDeclaration.t :=
  match quarters with
  | [] => (Ok tt, declarations)
  | quarter :: rest =>
      match calculateQuarterlyContributions env table userId year quarter
              activityType with
      | Err e => (Err e, declarations)
      | Ok calculation =>
          if Qgtb (SocialContributionCalculation.revenue calculation) 0 then
            match saveQuarterlyDeclaration env declarations userId year
                    quarter calculation with
            | Err e => (Err e, declarations)
            | Ok (_, declarations') =>
                generateAnnualDeclarations_from env table userId year
                  activityType rest declarations'
            end
          else
            generateAnnualDeclarations_from env table userId year
              activityType rest declarations
      end
  end.

Definition generateAnnualDeclarations (env : Env)
    (table : list Transaction.t) (userId : string) (year : Z)
    (activityType : ActivityType)
    (declarations : list QuarterlyDeclaration.t)
  : result unit * list QuarterlyDeclaration.t :=
  generateAnnualDeclarations_from env table userId year activityType
    [1; 2; 3; 4]%Z declarations.

End ContributionsStore.

(** ** taxDeclarations.ts: declarations over the store *)

Inductive DeclarationType : Type := urssaf | income_tax | vat | cfe.

Module URSSAFDeclarationData.
Record t : Type := mk {
  revenue : Q;
  activity_type : ActivityType;
  contributions : SocialContributionRates.t;
  declaration_month : string;
  is_acre : bool;
  acre_year : option Z
}.
End URSSAFDeclarationData.

(** The values stored in the untyped [form_data] field. *)
Inductive FormData : Type :=
| form_urssaf (data : URSSAFDeclarationData.t)
| form_contributions (data : SocialContributionCalculation.t)
| form_income_tax (data : IncomeTaxData.t)
| form_cfe (data : CFEData.t).

(** [interface TaxDeclarationData], also the shape of a row of the
    [tax_declarations] table as the code reads it. *)
Module TaxDeclarationData.
Record t : Type := mk {
  user_id : string;
  year : Z;
  declaration_type : DeclarationType;
  period_start : string;
  period_end : string;
  revenue : Q;
  expenses : Q;
  net_result : Q;
  tax_amount : Q;
  status : DeclarationStatus;
  due_date : string;
  form_data : option FormData;
  submitted_at : option string;
  paid_at : option string
}.
End TaxDeclarationData.

Module TAX_CALENDAR_2024.
(** Month or quarter, due date and description. *)
Definition monthly_urssaf : list (Z * string * string) :=
  [ (1, "2024-01-31", "Déclaration URSSAF janvier");
    (2, "2024-02-29", "Déclaration URSSAF février");
    (3, "2024-03-31", "Déclaration URSSAF mars");
    (4, "2024-04-30", "Déclaration URSSAF avril");
    (5, "2024-05-31", "Déclaration URSSAF mai");
    (6, "2024-06-30", "Déclaration URSSAF juin");
    (7, "2024-07-31", "Déclaration URSSAF juillet");
    (8, "2024-08-31", "Déclaration URSSAF août");
    (9, "2024-09-30", "Déclaration URSSAF septembre");
    (10, "2024-10-31", "Déclaration URSSAF octobre");
    (11, "2024-11-30", "Déclaration URSSAF novembre");
    (12, "2024-12-31", "Déclaration URSSAF décembre") ]%Z%string.
Definition quarterly_urssaf : list (Z * string * string) :=
  [ (1, "2024-04-30", "Déclaration URSSAF T1");
    (2, "2024-07-31", "Déclaration URSSAF T2");
    (3, "2024-10-31", "Déclaration URSSAF T3");
    (4, "2025-01-31", "Déclaration URSSAF T4") ]%Z%string.
End TAX_CALENDAR_2024.

Inductive DeclarationFrequency : Type := monthly | quarterly.

Module AnnualTaxSummary.
Record t : Type := mk {
  total_revenue : Q;
  total_tax : Q;
  urssaf_contributions : Q;
  income_tax : Q;
  cfe_tax : Q;
  declarations_count : nat;
  pending_declarations : nat;
  submitted_declarations : nat;
  paid_declarations : nat
}.
End AnnualTaxSummary.

Section TaxDeclarationsStore.

Variable date_leb : string -> string -> bool.

Definition prepareURSSAFDeclaration (env : Env) (table : list Transaction.t)
    (userId : string) (year month : Z) (activityType : ActivityType)
    (isACRE : bool) (acreYear : option Z)
  : result URSSAFDeclarationData.t :=
  let startDate := JsDate.Date_ymd (LocalTZA env) year (month - 1) 1 in
  let endDate := JsDate.Date_ymd (LocalTZA env) year month 0 in
  startText <- JsDate.toISODate startDate ;;
  endText <- JsDate.toISODate endDate ;;
  let summary :=
    getAccountingSummary date_leb table userId
      (Some startText) (Some endText) in
  contributions <-
    calculateSocialContributions env (AccountingSummary.totalIncome summary)
      activityType (Some year) ;;
  Ok {| URSSAFDeclarationData.revenue := AccountingSummary.totalIncome summary;
        URSSAFDeclarationData.activity_type := activityType;
        URSSAFDeclarationData.contributions :=
          SocialContributionCalculation.contributions contributions;
        URSSAFDeclarationData.declaration_month :=
          (Z_toString year ++ "-" ++ JsDate.pad 2 month)%string;
        URSSAFDeclarationData.is_acre := isACRE;
        URSSAFDeclarationData.acre_year := acreYear |}.

(** The body of the loop over [TAX_CALENDAR_2024.monthly_urssaf]. *)
Definition monthly_declaration (env : Env) (table : list Transaction.t)
    (userId : string) (year : Z) (activityType : ActivityType)
    (monthData : Z * string * string) : result TaxDeclarationData.t :=
  let '(month, due_date, _) := monthData in
  urssafData <-
    prepareURSSAFDeclaration env table userId year month activityType
      false None ;;
  period_end <-
    JsDate.toISODate (JsDate.Date_ymd (LocalTZA env) year month 0) ;;
  Ok {| TaxDeclarationData.user_id := userId;
        TaxDeclarationData.year := year;
        TaxDeclarationData.declaration_type := urssaf;
        TaxDeclarationData.period_start :=
          (Z_toString year ++ "-" ++ JsDate.pad 2 month ++ "-01")%string;
        TaxDeclarationData.period_end := period_end;
        TaxDeclarationData.revenue := URSSAFDeclarationData.revenue urssafData;
        TaxDeclarationData.expenses := 0;
        TaxDeclarationData.net_result :=
          URSSAFDeclarationData.revenue urssafData;
        TaxDeclarationData.tax_amount :=
          total (URSSAFDeclarationData.contributions urssafData);
        TaxDeclarationData.status := draft;
        TaxDeclarationData.due_date := due_date;
        TaxDeclarationData.form_data := Some (form_urssaf urssafData);
        TaxDeclarationData.submitted_at := None;
        TaxDeclarationData.paid_at := None |}.

(** The body of the loop over [TAX_CALENDAR_2024.quarterly_urssaf]. *)
Definition quarterly_declaration (env : Env) (table : list Transaction.t)
    (userId : string) (year : Z) (activityType : ActivityType)
    (quarterData : Z * string * string) : result TaxDeclarationData.t :=
  let '(quarter, due_date, _) := quarterData in
  let startMonth := ((quarter - 1) * 3 + 1)%Z in
  let endMonth := (quarter * 3)%Z in
  endText <-
    JsDate.toISODate (JsDate.Date_ymd (LocalTZA env) year endMonth 0) ;;
  let summary :=
    getAccountingSummary date_leb table userId
      (Some (Z_toString year ++ "-" ++ JsDate.pad 2 startMonth ++ "-01")%string)
      (Some endText) in
  contributions <-
    calculateSocialContributions env (AccountingSummary.totalIncome summary)
      activityType (Some year) ;;
  period_end <-
    JsDate.toISODate (JsDate.Date_ymd (LocalTZA env) year endMonth 0) ;;
  Ok {| TaxDeclarationData.user_id := userId;
        TaxDeclarationData.year := year;
        TaxDeclarationData.declaration_type := urssaf;
        TaxDeclarationData.period_start :=
          (Z_toString year ++ "-" ++ JsDate.pad 2 startMonth ++ "-01")%string;
        TaxDeclarationData.period_end := period_end;
        TaxDeclarationData.revenue := AccountingSummary.totalIncome summary;
        TaxDeclarationData.expenses := 0;
        TaxDeclarationData.net_result := AccountingSummary.totalIncome summary;
        TaxDeclarationData.tax_amount :=
          total (SocialContributionCalculation.contributions contributions);
        TaxDeclarationData.status := draft;
        TaxDeclarationData.due_date := due_date;
        TaxDeclarationData.form_data := Some (form_contributions contributions);
        TaxDeclarationData.submitted_at := None;
        TaxDeclarationData.paid_at := None |}.

(** The income tax and CFE declarations of the year. *)
Definition annual_declarations (table : list Transaction.t)
    (userId : string) (year : Z) (activityType : ActivityType)
  : list TaxDeclarationData.t :=
  let annualSummary :=
    getAccountingSummary date_leb table userId
      (Some (Z_toString year ++ "-01-01")%string)
      (Some (Z_toString year ++ "-12-31")%string) in
  let incomeTax :=
    calculateIncomeTax (AccountingSummary.totalIncome annualSummary)
      activityType 1 in
  let cfeData :=
    calculateCFE (AccountingSummary.totalIncome annualSummary) activityType
      "Paris" None in
  [ {| TaxDeclarationData.user_id := userId;
       TaxDeclarationData.year := year;
       TaxDeclarationData.declaration_type := income_tax;
       TaxDeclarationData.period_start := (Z_toString year ++ "-01-01")%string;
       TaxDeclarationData.period_end := (Z_toString year ++ "-12-31")%string;
       TaxDeclarationData.revenue :=
         AccountingSummary.totalIncome annualSummary;
       TaxDeclarationData.expenses := 0;
       TaxDeclarationData.net_result :=
         AccountingSummary.totalIncome annualSummary;
       TaxDeclarationData.tax_amount := IncomeTaxData.total_tax incomeTax;
       TaxDeclarationData.status := draft;
       TaxDeclarationData.due_date :=
         (Z_toString (year + 1) ++ "-05-31")%string;
       TaxDeclarationData.form_data := Some (form_income_tax incomeTax);
       TaxDeclarationData.submitted_at := None;
       TaxDeclarationData.paid_at := None |};
    {| TaxDeclarationData.user_id := userId;
       TaxDeclarationData.year := year;
       TaxDeclarationData.declaration_type := cfe;
       TaxDeclarationData.period_start := (Z_toString year ++ "-01-01")%string;
       TaxDeclarationData.period_end := (Z_toString year ++ "-12-31")%string;
       TaxDeclarationData.revenue :=
         AccountingSummary.totalIncome annualSummary;
       TaxDeclarationData.expenses := 0;
       TaxDeclarationData.net_result :=
         AccountingSummary.totalIncome annualSummary;
       TaxDeclarationData.tax_amount := CFEData.total_cfe cfeData;
       TaxDeclarationData.status := draft;
       TaxDeclarationData.due_date := (Z_toString year ++ "-12-15")%string;
       TaxDeclarationData.form_data := Some (form_cfe cfeData);
       TaxDeclarationData.submitted_at := None;
       TaxDeclarationData.paid_at := None |} ].

(** [generateAnnualTaxDeclarations]: the declarations are all built before
    the first is inserted; the state is the [tax_declarations] table, each
    [createTaxDeclaration] appending a row. *)
Definition generateAnnualTaxDeclarations (env : Env)
    (table : list Transaction.t) (userId : string) (year : Z)
    (activityType : ActivityType) (declarationFrequency : DeclarationFrequency)
    (tax_declarations : list TaxDeclarationData.t)
  : result unit * list TaxDeclarationData.t :=
  let urssaf_declarations :=
    match declarationFrequency with
    | monthly =>
        mapM (monthly_declaration env table userId year activityType)
          TAX_CALENDAR_2024.monthly_urssaf
    | quarterly =>
        mapM (quarterly_declaration env table userId year activityType)
          TAX_CALENDAR_2024.quarterly_urssaf
    end in
  match urssaf_declarations with
  | Err e => (Err e, tax_declarations)
  | Ok declarations =>
      (Ok tt,
       (tax_declarations ++ declarations
        ++ annual_declarations table userId year activityType)%list)
  end.

End TaxDeclarationsStore.

(** [getUserTaxDeclarations(userId, { year })]: the year filter applies to
    a truthy [year] only.  The order of the rows is not modelled. *)
Definition getUserTaxDeclarations (tax_declarations : list TaxDeclarationData.t)
    (userId : string) (year : Z) : list TaxDeclarationData.t :=
  filter (fun d =>
            String.eqb (TaxDeclarationData.user_id d) userId
            && (if (year =? 0)%Z then true
                else (TaxDeclarationData.year d =? year)%Z))
         tax_declarations.

Definition has_status (s : DeclarationStatus) (d : TaxDeclarationData.t)
  : bool :=
  match TaxDeclarationData.status d, s with
  | draft, draft | submitted, submitted | paid, paid => true
  | _, _ => false
  end.

(** The body of the [forEach] of [getAnnualTaxSummary]. *)
Definition tax_summary_step (summary : AnnualTaxSummary.t)
    (declaration : TaxDeclarationData.t) : AnnualTaxSummary.t :=
  let summary :=
    {| AnnualTaxSummary.total_revenue :=
         AnnualTaxSummary.total_revenue summary
         + TaxDeclarationData.revenue declaration;
       AnnualTaxSummary.total_tax :=
         AnnualTaxSummary.total_tax summary
         + TaxDeclarationData.tax_amount declaration;
       AnnualTaxSummary.urssaf_contributions :=
         AnnualTaxSummary.urssaf_contributions summary;
       AnnualTaxSummary.income_tax := AnnualTaxSummary.income_tax summary;
       AnnualTaxSummary.cfe_tax := AnnualTaxSummary.cfe_tax summary;
       AnnualTaxSummary.declarations_count :=
         AnnualTaxSummary.declarations_count summary;
       AnnualTaxSummary.pending_declarations :=
         AnnualTaxSummary.pending_declarations summary;
       AnnualTaxSummary.submitted_declarations :=
         AnnualTaxSummary.submitted_declarations summary;
       AnnualTaxSummary.paid_declarations :=
         AnnualTaxSummary.paid_declarations summary |} in
  let with_taxes (u i c : Q) :=
    {| AnnualTaxSummary.total_revenue := AnnualTaxSummary.total_revenue summary;
       AnnualTaxSummary.total_tax := AnnualTaxSummary.total_tax summary;
       AnnualTaxSummary.urssaf_contributions := u;
       AnnualTaxSummary.income_tax := i;
       AnnualTaxSummary.cfe_tax := c;
       AnnualTaxSummary.declarations_count :=
         AnnualTaxSummary.declarations_count summary;
       AnnualTaxSummary.pending_declarations :=
         AnnualTaxSummary.pending_declarations summary;
       AnnualTaxSummary.submitted_declarations :=
         AnnualTaxSummary.submitted_declarations summary;
       AnnualTaxSummary.paid_declarations :=
         AnnualTaxSummary.paid_declarations summary |} in
  match TaxDeclarationData.declaration_type declaration with
  | urssaf =>
      with_taxes
        (AnnualTaxSummary.urssaf_contributions summary
         + TaxDeclarationData.tax_amount declaration)
        (AnnualTaxSummary.income_tax summary)
        (AnnualTaxSummary.cfe_tax summary)
  | income_tax =>
      with_taxes
        (AnnualTaxSummary.urssaf_contributions summary)
        (AnnualTaxSummary.income_tax summary
         + TaxDeclarationData.tax_amount declaration)
        (AnnualTaxSummary.cfe_tax summary)
  | cfe =>
      with_taxes
        (AnnualTaxSummary.urssaf_contributions summary)
        (AnnualTaxSummary.income_tax summary)
        (AnnualTaxSummary.cfe_tax summary
         + TaxDeclarationData.tax_amount declaration)
  | vat => summary
  end.

Definition getAnnualTaxSummary (tax_declarations : list TaxDeclarationData.t)
    (userId : string) (year : Z) : AnnualTaxSummary.t :=
  let declarations := getUserTaxDeclarations tax_declarations userId year in
  let summary :=
    {| AnnualTaxSummary.total_revenue := 0;
       AnnualTaxSummary.total_tax := 0;
       AnnualTaxSummary.urssaf_contributions := 0;
       AnnualTaxSummary.income_tax := 0;
       AnnualTaxSummary.cfe_tax := 0;
       AnnualTaxSummary.declarations_count := List.length declarations;
       AnnualTaxSummary.pending_declarations :=
         List.length (filter (has_status draft) declarations);
       AnnualTaxSummary.submitted_declarations :=
         List.length (filter (has_status submitted) declarations);
       AnnualTaxSummary.paid_declarations :=
         List.length (filter (has_status paid) declarations) |} in
  fold_left tax_summary_step declarations summary.

(** ** Vocabulary of the specification *)

(** The object built by [calculateSocialContributions] past the franchise
    check. *)
Definition contributionsOf (revenue : Q) (rates : SocialContributionRates.t)
  : SocialContributionRates.t :=
  {| maladie := revenue * maladie rates;
     retraite_base := revenue * retraite_base rates;
     retraite_complementaire := revenue * retraite_complementaire rates;
     invalidite_deces := revenue * invalidite_deces rates;
     csg_crds := revenue * csg_crds rates;
     formation_professionnelle := revenue * formation_professionnelle rates;
     total := revenue * total rates |}.

(** Sum of the six named components of a contribution object. *)
Definition sum_of_components (c : SocialContributionRates.t) : Q :=
  maladie c + retraite_base c + retraite_complementaire c
  + invalidite_deces c + csg_crds c + formation_professionnelle c.

(** [a] and [b] agree within relative tolerance [eps]. *)
Definition within_relative_tolerance (eps a b : Q) : Prop :=
  Qabs (a - b) <= eps * Qmax (Qabs a) (Qabs b).

(** The reduction factor of the ACRE schedule, as the specification words
    it: 75%, 50% and 25% for the first, second and third year. *)
Definition spec_reductionFactor (acreYear : Z) : Q :=
  if (acreYear =? 1)%Z then 0.75
  else if (acreYear =? 2)%Z then 0.50
  else 0.25.

(** A reference environment: 1 January 2024, 00:00 UTC, in a UTC zone. *)
Definition env_utc_2024 : Env := {| now := 1704067200000; LocalTZA := 0 |}.

(** [a < b] on numbers. *)
Definition Qltb (a b : Q) : bool := negb (Qle_bool b a).

(** The abatement percentages of the specification. *)
Definition spec_abatementRate (activityType : ActivityType) : Q :=
  match activityType with
  | services => 0.50
  | commerce => 0.29
  | liberal => 0.34
  end.

(** Tax of one bracket on a per-part income [t], in the words of the
    specification: the slice [min(t, upperBound) - lowerBound] at the
    bracket's rate. *)
Definition spec_slice_tax (t : Q) (b : TaxBracket.t) : Q :=
  (Math_min t (TaxBracket.max b) - TaxBracket.min b) * TaxBracket.rate b.

(** Sum of the slice taxes over the brackets whose lower bound is below
    [t]. *)
Definition spec_bracket_sum (t : Q) (brackets : list TaxBracket.t) : Q :=
  fold_right (fun b acc => spec_slice_tax t b + acc) 0
    (filter (fun b => Qltb (TaxBracket.min b) t) brackets).

(** Brackets in ascending order of lower bound. *)
Definition ascending (brackets : list TaxBracket.t) : Prop :=
  StronglySorted (fun a b => TaxBracket.min a <= TaxBracket.min b) brackets.

(** A bracket with a non-negative rate and bounds in order. *)
Definition bracket_wf (b : TaxBracket.t) : Prop :=
  0 <= TaxBracket.rate b
  /\ match TaxBracket.max b with
     | Some m => TaxBracket.min b <= m
     | None => True
     end.

(** Number of days of month [m] (0 = January) in a year of [365 + leap]
    days. *)
Definition DaysInMonth (leap m : Z) : Z :=
  match m with
  | 1 => 28 + leap
  | 3 | 5 | 8 | 10 => 30
  | _ => 31
  end%Z.

(** "creationDate + 3 years", as [checkACREEligibility] computes it: the
    year of the local date moved three years on. *)
Definition threeYearsAfter (tza : Z) (creationDate : JsDate.Date)
  : JsDate.Date :=
  JsDate.setFullYear tza creationDate
    (option_map (fun y => (y + 3)%Z) (JsDate.getFullYear tza creationDate)).

(** The due date of the specification for quarter [quarter] of [year]: the
    last day of the month that follows the quarter, as (year, month, day)
    with January = 1. *)
Definition spec_quarterly_due_date (year quarter : Z) : Z * Z * Z :=
  if (quarter =? 1)%Z then (year, 4, 30)%Z
  else if (quarter =? 2)%Z then (year, 7, 31)%Z
  else if (quarter =? 3)%Z then (year, 10, 31)%Z
  else ((year + 1)%Z, 1, 31)%Z.

(** The same environment in the Europe/Paris zone: UTC+2 in summer, UTC+1
    in winter. *)
Definition env_paris_summer : Env := {| now := 1704067200000; LocalTZA := 7200000 |}.
Definition env_paris_winter : Env := {| now := 1704067200000; LocalTZA := 3600000 |}.

(** The entry [calculateIncomeTax] pushes for a bracket it enters. *)
Definition bracketItem (t : Q) (b : TaxBracket.t) : TaxBracketAmount.t :=
  {| TaxBracketAmount.min := TaxBracket.min b;
     TaxBracketAmount.max := TaxBracket.max b;
     TaxBracketAmount.rate := TaxBracket.rate b;
     TaxBracketAmount.amount :=
       (Math_min t (TaxBracket.max b) - TaxBracket.min b) * TaxBracket.rate b |}.

(** Sum of the amounts of an itemized bracket list. *)
Definition sum_amounts (items : list TaxBracketAmount.t) : Q :=
  fold_right (fun i acc => TaxBracketAmount.amount i + acc) 0 items.

(** Positive part. *)
Definition pos (x : Q) : Q := Qmax 0 x.

(** The 2024 schedule as a sum of marginal-rate increments: 11% above
    11294, 19% more above 28797, 11% more above 82341, 4% more above
    177106. *)
Definition marginal_form (t : Q) : Q :=
  0.11 * pos (t - 11294) + 0.19 * pos (t - 28797)
  + 0.11 * pos (t - 82341) + 0.04 * pos (t - 177106).

(** The entry of a simulation for a revenue that passes the franchise
    check. *)
Definition simulationEntryOf (revenue : Q) (activityType : ActivityType)
  : SimulationEntry.t :=
  let rates := SOCIAL_CONTRIBUTION_RATES_2024 activityType in
  {| SimulationEntry.revenue := revenue;
     SimulationEntry.contributions := revenue * total rates;
     SimulationEntry.net := revenue - revenue * total rates;
     SimulationEntry.rate := (revenue * total rates / revenue) * 100 |}.

(** The six components of a contribution object, in the order of the
    breakdown. *)
Definition components (c : SocialContributionRates.t) : list Q :=
  [ maladie c; retraite_base c; retraite_complementaire c;
    invalidite_deces c; csg_crds c; formation_professionnelle c ].

(** Sum of a list of numbers. *)
Definition Qsum (l : list Q) : Q := fold_right Qplus 0 l.

(** Sum of the amounts of the transactions that satisfy [p]. *)
Definition total_of (p : Transaction.t -> bool) (l : list Transaction.t) : Q :=
  Qsum (map Transaction.amount (filter p l)).

Definition is_deductible_expense (t : Transaction.t) : bool :=
  is_expense t && truthy_bool (Transaction.is_deductible t).

Definition is_non_deductible_expense (t : Transaction.t) : bool :=
  is_expense t && negb (truthy_bool (Transaction.is_deductible t)).

Definition is_social_charge (t : Transaction.t) : bool :=
  is_expense t && String.eqb (Transaction.category t) "Charges sociales".

(** A small table: an invoice paid to user "u1", an URSSAF payment and
    office supplies of the same user, and an invoice of another user. *)
Definition sample_row (id : nat) (user : string) (type : TransactionType)
    (category : string) (amount : Q) (date : string)
    (deductible : bool) : Transaction.t :=
  {| Transaction.id := id;
     Transaction.user_id := user;
     Transaction.type := type;
     Transaction.category := category;
     Transaction.subcategory := None;
     Transaction.description := "";
     Transaction.amount := amount;
     Transaction.vat_amount := Some 0;
     Transaction.date := date;
     Transaction.payment_method := None;
     Transaction.receipt_url := None;
     Transaction.notes := None;
     Transaction.is_deductible := Some deductible |}.

Definition sample_transactions : list Transaction.t :=
  [ sample_row 0 "u1" income "Prestations de services" 1000 "2024-02-10" false;
    sample_row 1 "u1" expense "Charges sociales" 221 "2024-03-05" false;
    sample_row 2 "u1" expense "Fournitures de bureau" 80 "2024-03-31" true;
    sample_row 3 "u2" income "Consultation" 500 "2024-02-11" false ].

(** The date tests of a query for a row dated [date]. *)
Definition in_period (date_leb : string -> string -> bool)
    (startDate endDate : option string) (date : string) : bool :=
  (if truthy_string startDate then date_leb (string_of startDate) date
   else true)
  && (if truthy_string endDate then date_leb date (string_of endDate)
      else true).

(** The rows read by [getMonthlyData] for a year. *)
Definition year_transactions (date_leb : string -> string -> bool)
    (table : list Transaction.t) (userId : string) (year : Z)
  : list Transaction.t :=
  filter (fun t =>
            String.eqb (Transaction.user_id t) userId
            && date_leb (Z_toString year ++ "-01-01")%string
                 (Transaction.date t)
            && date_leb (Transaction.date t)
                 (Z_toString year ++ "-12-31")%string)
         table.

(** The rows whose date the platform parses to a valid [Date]. *)
Definition has_valid_date (Date_parse : string -> JsDate.Date)
    (t : Transaction.t) : bool :=
  match Date_parse (Transaction.date t) with
  | Some _ => true
  | None => false
  end.

(** The calendar day before day [d] of month [m] (0 = January) of year
    [y]. *)
Definition previous_day (y m d : Z) : Z * Z * Z :=
  if (2 <=? d)%Z then (y, m, (d - 1)%Z)
  else if (m =? 0)%Z then ((y - 1)%Z, 11%Z, 31%Z)
  else (y, (m - 1)%Z, DaysInMonth (JsDate.DaysInYear y - 365) (m - 1)).

(** Time value of a date-only ISO text, which the platform reads as the
    UTC midnight of day [d] of month [m] (0 = January) of year [y]. *)
Definition utc_midnight (y m d : Z) : Z :=
  JsDate.MakeDate (JsDate.MakeDay y m d) 0.

Definition in_category (c : string) (t : Transaction.t) : bool :=
  String.eqb (Transaction.category t) c.

(** Number of the transactions that satisfy [p]. *)
Definition count_of (p : Transaction.t -> bool) (l : list Transaction.t)
  : nat :=
  List.length (filter p l).

(** The order of the rows of a category breakdown. *)
Definition by_decreasing_amount (a b : CategoryData.t) : Prop :=
  CategoryData.amount b <= CategoryData.amount a.

(** The state of the [forEach] of [getCategoryBreakdown] after the
    transactions [txs]: one entry per category met, holding the sum and
    the number of its transactions. *)
Definition aggregated (m : CategoryMap) (tot : Q) (txs : list Transaction.t)
  : Prop :=
  NoDup (map fst m)
  /\ (forall k a n,
         In (k, (a, n)) m ->
         a == total_of (in_category k) txs
         /\ n = count_of (in_category k) txs)
  /\ (forall k, In k (map fst m) <-> In k (map Transaction.category txs))
  /\ Qsum (map (fun e => fst (snd e)) m) == tot
  /\ list_sum (map (fun e => snd (snd e)) m) = List.length txs
  /\ tot == Qsum (map Transaction.amount txs).

(** The ISO text of day [d] of month [m] (0 = January) of year [y]. *)
Definition iso_day (ymd : Z * Z * Z) : string :=
  let '(y, m, d) := ymd in JsDate.ISODate_format y (m + 1) d.

(** Number of days of month [m] (0 = January) of year [y]. *)
Definition month_length (y m : Z) : Z :=
  DaysInMonth (JsDate.DaysInYear y - 365) m.

(** The text of the bounds of a period that the code builds as the local
    midnights of the first day of month [first] and of the last day of
    month [last] (0 = January): these two days in a zone at or west of
    UTC, both one day earlier in a zone east of UTC. *)
Definition period_bounds (tza year first last : Z) : string * string :=
  if (0 <? tza)%Z then
    (iso_day (previous_day year first 1),
     iso_day (previous_day year last (month_length year last)))
  else
    (iso_day (year, first, 1%Z), iso_day (year, last, month_length year last)).

(** The bounds of a quarter as [calculateQuarterlyContributions] sends
    them to the store. *)
Definition quarter_bounds (tza year quarter : Z) : string * string :=
  period_bounds tza year ((quarter - 1) * 3) (quarter * 3 - 1).

(** The revenue of a quarter: the income of the user between these
    bounds. *)
Definition quarter_revenue (date_leb : string -> string -> bool) (tza : Z)
    (table : list Transaction.t) (userId : string) (year quarter : Z) : Q :=
  sum_amount
    (filter is_income
       (select_transactions date_leb table userId
          (Some (fst (quarter_bounds tza year quarter)))
          (Some (snd (quarter_bounds tza year quarter))))).

(** The quarters of a list met before the first that fails a test. *)
Fixpoint quarters_reached (within : Z -> bool) (quarters : list Z) : list Z :=
  match quarters with
  | [] => []
  | q :: rest => if within q then q :: quarters_reached within rest else []
  end.

(** The bounds of the period whose income [generateAnnualTaxDeclarations]
    reads for entry [n] of the URSSAF calendar (a month or a quarter). *)
Definition urssaf_period (tza year : Z) (frequency : DeclarationFrequency)
    (n : Z) : string * string :=
  match frequency with
  | monthly => period_bounds tza year (n - 1) (n - 1)
  | quarterly =>
      ((Z_toString year ++ "-" ++ JsDate.pad 2 ((n - 1) * 3 + 1) ++ "-01")%string,
       snd (period_bounds tza year ((n - 1) * 3) (n * 3 - 1)))
  end.

Definition urssaf_revenue (date_leb : string -> string -> bool) (tza : Z)
    (table : list Transaction.t) (userId : string) (year : Z)
    (frequency : DeclarationFrequency) (n : Z) : Q :=
  AccountingSummary.totalIncome
    (getAccountingSummary date_leb table userId
       (Some (fst (urssaf_period tza year frequency n)))
       (Some (snd (urssaf_period tza year frequency n)))).

Definition urssaf_calendar (frequency : DeclarationFrequency)
  : list (Z * string * string) :=
  match frequency with
  | monthly => TAX_CALENDAR_2024.monthly_urssaf
  | quarterly => TAX_CALENDAR_2024.quarterly_urssaf
  end.

(** What an URSSAF row of [generateAnnualTaxDeclarations] holds, for an
    entry of the calendar and the revenue of its period. *)
Definition urssaf_row_of (userId : string) (year : Z)
    (activityType : ActivityType) (entry : Z * string * string) (revenue : Q)
    (period_end : string) (r : TaxDeclarationData.t) : Prop :=
  TaxDeclarationData.user_id r = userId
  /\ TaxDeclarationData.year r = year
  /\ TaxDeclarationData.declaration_type r = urssaf
  /\ TaxDeclarationData.status r = draft
  /\ TaxDeclarationData.due_date r = snd (fst entry)
  /\ TaxDeclarationData.period_end r = period_end
  /\ TaxDeclarationData.revenue r = revenue
  /\ TaxDeclarationData.expenses r = 0
  /\ TaxDeclarationData.net_result r = revenue
  /\ TaxDeclarationData.tax_amount r
     = revenue * total (SOCIAL_CONTRIBUTION_RATES_2024 activityType).

Definition has_type (ty : DeclarationType) (d : TaxDeclarationData.t) : bool :=
  match TaxDeclarationData.declaration_type d, ty with
  | urssaf, urssaf | income_tax, income_tax | vat, vat | cfe, cfe => true
  | _, _ => false
  end.

(** Sum of the tax amounts of the declarations of one type. *)
Definition tax_of (ty : DeclarationType) (l : list TaxDeclarationData.t) : Q :=
  Qsum (map TaxDeclarationData.tax_amount (filter (has_type ty) l)).

(** * Properties *)

(** ** Comparisons *)

Lemma Qgtb_true_iff (a b : Q) : Qgtb a b = true <-> b < a.
Proof.
  unfold Qgtb. rewrite negb_true_iff.
  split; intros H.
  - apply Qnot_le_lt. intros Hle.
    apply Qle_bool_iff in Hle. congruence.
  - destruct (Qle_bool a b) eqn:E; [|reflexivity].
    apply Qle_bool_iff in E. exfalso. exact (Qlt_not_le _ _ H E).
Qed.

Lemma Qgtb_false_iff (a b : Q) : Qgtb a b = false <-> a <= b.
Proof.
  unfold Qgtb. rewrite negb_false_iff. apply Qle_bool_iff.
Qed.

(** ** The social contribution calculator *)

Lemma calculateSocialContributions_exceeded env revenue activityType year :
  FRANCHISE_THRESHOLDS_2024 activityType < revenue ->
  calculateSocialContributions env revenue activityType year
  = Err (FranchiseExceeded (FRANCHISE_THRESHOLDS_2024 activityType) activityType).
Proof.
  intros H. unfold calculateSocialContributions.
  apply Qgtb_true_iff in H. rewrite H. reflexivity.
Qed.

Lemma calculateSocialContributions_within env revenue activityType year :
  revenue <= FRANCHISE_THRESHOLDS_2024 activityType ->
  exists r,
    calculateSocialContributions env revenue activityType year = Ok r
    /\ SocialContributionCalculation.revenue r = revenue
    /\ SocialContributionCalculation.activity_type r = activityType
    /\ SocialContributionCalculation.rates r
       = SOCIAL_CONTRIBUTION_RATES_2024 activityType
    /\ SocialContributionCalculation.contributions r
       = contributionsOf revenue (SOCIAL_CONTRIBUTION_RATES_2024 activityType)
    /\ SocialContributionCalculation.net_revenue r
       = revenue - revenue * total (SOCIAL_CONTRIBUTION_RATES_2024 activityType).
Proof.
  intros H. unfold calculateSocialContributions.
  apply Qgtb_false_iff in H. rewrite H.
  eexists. split; [reflexivity|]. simpl. repeat split; reflexivity.
Qed.

(** For no activity type do the six component rates add up to the [total]
    rate of the table. *)
Lemma rates_total_mismatch activityType :
  let rates := SOCIAL_CONTRIBUTION_RATES_2024 activityType in
  total rates + 0.002 <= sum_of_components rates.
Proof.
  destruct activityType; vm_compute; discriminate.
Qed.

(** On any positive revenue that passes the franchise check, the reported
    total and the sum of the six components differ by at least 0.2% of the
    revenue. *)
Lemma total_differs_from_sum env revenue activityType year :
  0 < revenue ->
  revenue <= FRANCHISE_THRESHOLDS_2024 activityType ->
  exists r,
    calculateSocialContributions env revenue activityType year = Ok r
    /\ total (SocialContributionCalculation.contributions r)
       + 0.002 * revenue
       <= sum_of_components (SocialContributionCalculation.contributions r).
Proof.
  intros Hpos Hle.
  destruct (calculateSocialContributions_within env revenue activityType year Hle)
    as (r & Hr & _ & _ & _ & Hc & _).
  exists r. split; [exact Hr|]. rewrite Hc.
  pose proof (rates_total_mismatch activityType) as Hm. cbv zeta in Hm.
  unfold contributionsOf, sum_of_components in *. simpl.
  set (rt := SOCIAL_CONTRIBUTION_RATES_2024 activityType) in *.
  assert (E : revenue * total rt + 0.002 * revenue
              == revenue * (total rt + 0.002)) by ring.
  rewrite E.
  assert (E' : revenue * maladie rt + revenue * retraite_base rt
               + revenue * retraite_complementaire rt
               + revenue * invalidite_deces rt + revenue * csg_crds rt
               + revenue * formation_professionnelle rt
               == revenue * (maladie rt + retraite_base rt
                             + retraite_complementaire rt + invalidite_deces rt
                             + csg_crds rt + formation_professionnelle rt))
    by ring.
  rewrite E'.
  apply Qmult_le_l; assumption.
Qed.

(** C1 (the code departs from the claim): on [calculateSocialContributions
    (30000, 'services', 2024)] the six components add up to 6690 while the
    reported total is 6630, so the two do not agree within a relative
    tolerance of 1e-9; the net revenue is still the revenue minus that
    total. *)
Theorem calculateSocialContributions_total_is_not_the_sum :
  forall env : Env,
  exists r,
    calculateSocialContributions env 30000 services (Some 2024%Z) = Ok r
    /\ sum_of_components (SocialContributionCalculation.contributions r) == 6690
    /\ total (SocialContributionCalculation.contributions r) == 6630
    /\ ~ within_relative_tolerance (1 # 1000000000)
           (total (SocialContributionCalculation.contributions r))
           (sum_of_components (SocialContributionCalculation.contributions r))
    /\ SocialContributionCalculation.net_revenue r
       == SocialContributionCalculation.revenue r
          - total (SocialContributionCalculation.contributions r).
Proof.
  intros env. eexists. split; [reflexivity|]. simpl.
  repeat split; try reflexivity.
  unfold within_relative_tolerance, sum_of_components. simpl.
  vm_compute. intros H. apply H. reflexivity.
Qed.

(** C2: [calculateSocialContributions] raises the franchise error, which
    names the threshold and the activity type, exactly when the revenue
    exceeds the threshold of the activity type (77700 for services and
    liberal, 188700 for commerce); it returns no result in that case and
    returns one otherwise; a revenue of 80000 for services raises it. *)
Theorem calculateSocialContributions_franchise_error :
  forall (env : Env) (revenue : Q) (activityType : ActivityType)
         (year : option Z),
    let threshold := FRANCHISE_THRESHOLDS_2024 activityType in
    (threshold < revenue <->
       calculateSocialContributions env revenue activityType year
       = Err (FranchiseExceeded threshold activityType))
    /\ (threshold < revenue ->
          forall r,
            calculateSocialContributions env revenue activityType year <> Ok r)
    /\ (revenue <= threshold ->
          exists r,
            calculateSocialContributions env revenue activityType year = Ok r)
    /\ threshold = match activityType with
                   | commerce => 188700
                   | services | liberal => 77700
                   end
    /\ calculateSocialContributions env 80000 services year
       = Err (FranchiseExceeded 77700 services)
    /\ Error_message (FranchiseExceeded threshold activityType)
       = ("Chiffre d'affaires dépassant le seuil de "
            ++ Z_toString (Qfloor threshold) ++ "€ pour "
            ++ ActivityType_toString activityType)%string.
Proof.
  intros env revenue activityType year threshold. subst threshold.
  split; [split|split; [|split; [|split; [|split]]]].
  - apply calculateSocialContributions_exceeded.
  - intros H.
    destruct (Qlt_le_dec (FRANCHISE_THRESHOLDS_2024 activityType) revenue)
      as [Hlt | Hle]; [exact Hlt|].
    destruct (calculateSocialContributions_within env revenue activityType
                year Hle) as (r & Hr & _).
    congruence.
  - intros H r Hr.
    rewrite (calculateSocialContributions_exceeded _ _ _ _ H) in Hr.
    discriminate.
  - intros H.
    destruct (calculateSocialContributions_within env revenue activityType
                year H) as (r & Hr & _).
    exists r. exact Hr.
  - destruct activityType; reflexivity.
  - reflexivity.
  - reflexivity.
Qed.

(** [calculateSocialContributions(80000, 'services', 2024)] and its
    message. *)
Lemma calculateSocialContributions_franchise_error_witness :
  calculateSocialContributions env_utc_2024 80000 services (Some 2024%Z)
  = Err (FranchiseExceeded 77700 services)
  /\ Error_message (FranchiseExceeded 77700 services)
     = "Chiffre d'affaires dépassant le seuil de 77700€ pour services"%string.
Proof.
  split.
  - apply (proj1 (proj1 (calculateSocialContributions_franchise_error
                           env_utc_2024 80000 services (Some 2024%Z)))).
    reflexivity.
  - reflexivity.
Defined.

(** C8 (as stated, refuted): a negative revenue is not rejected;
    [calculateSocialContributions(-100, 'services', 2024)] returns a
    result. *)
Lemma calculateSocialContributions_negative_revenue_accepted :
  ~ (forall (env : Env) (revenue : Q) (activityType : ActivityType)
            (year : option Z),
        revenue < 0 ->
        exists e,
          calculateSocialContributions env revenue activityType year = Err e).
Proof.
  intros H.
  destruct (H env_utc_2024 (-100) services (Some 2024%Z)) as [e He].
  - reflexivity.
  - discriminate He.
Qed.

(** C8 (amended): the function validates nothing but the franchise
    threshold.  For every revenue < 0 it returns a result whose seven
    contribution amounts are the revenue times the rates of the activity
    type (hence a non-positive total) and whose net revenue is the revenue
    minus that total. *)
Theorem calculateSocialContributions_negative_revenue :
  forall (env : Env) (revenue : Q) (activityType : ActivityType)
         (year : option Z),
    revenue < 0 ->
    exists r,
      calculateSocialContributions env revenue activityType year = Ok r
      /\ SocialContributionCalculation.revenue r = revenue
      /\ SocialContributionCalculation.contributions r
         = contributionsOf revenue (SOCIAL_CONTRIBUTION_RATES_2024 activityType)
      /\ total (SocialContributionCalculation.contributions r) <= 0
      /\ SocialContributionCalculation.net_revenue r
         == revenue - total (SocialContributionCalculation.contributions r).
Proof.
  intros env revenue activityType year Hneg.
  assert (Hle : revenue <= FRANCHISE_THRESHOLDS_2024 activityType).
  { apply Qlt_le_weak. apply Qlt_trans with 0; [exact Hneg|].
    destruct activityType; reflexivity. }
  destruct (calculateSocialContributions_within env revenue activityType
              year Hle) as (r & Hr & Hrev & _ & _ & Hc & Hnet).
  exists r. rewrite Hc, Hnet. simpl.
  split; [exact Hr|]. split; [exact Hrev|]. split; [reflexivity|].
  split; [|reflexivity].
  assert (Hrate : 0 <= total (SOCIAL_CONTRIBUTION_RATES_2024 activityType))
    by (destruct activityType; vm_compute; discriminate).
  rewrite <- (Qmult_0_l (total (SOCIAL_CONTRIBUTION_RATES_2024 activityType))).
  apply Qmult_le_compat_r; [apply Qlt_le_weak; exact Hneg | exact Hrate].
Qed.

(** [calculateSocialContributions(-100, 'services', 2024)]. *)
Lemma calculateSocialContributions_negative_revenue_witness :
  exists r,
    calculateSocialContributions env_utc_2024 (-100) services (Some 2024%Z)
    = Ok r
    /\ SocialContributionCalculation.revenue r = -100
    /\ SocialContributionCalculation.contributions r
       = contributionsOf (-100) (SOCIAL_CONTRIBUTION_RATES_2024 services)
    /\ total (SocialContributionCalculation.contributions r) <= 0
    /\ SocialContributionCalculation.net_revenue r
       == -100 - total (SocialContributionCalculation.contributions r).
Proof.
  apply (calculateSocialContributions_negative_revenue
           env_utc_2024 (-100) services (Some 2024%Z)).
  reflexivity.
Defined.

(** ** The ACRE reduction *)

(** C10: [calculateContributionsWithACRE] enforces the franchise threshold
    of the standard calculator: above the threshold of the activity type it
    raises the franchise error for ACRE years 1, 2 and 3, and returns no
    reduced result. *)
Theorem calculateContributionsWithACRE_franchise_error :
  forall (env : Env) (revenue : Q) (activityType : ActivityType)
         (acreYear : Z),
    In acreYear [1; 2; 3]%Z ->
    FRANCHISE_THRESHOLDS_2024 activityType < revenue ->
    calculateContributionsWithACRE env revenue activityType acreYear
    = Err (FranchiseExceeded (FRANCHISE_THRESHOLDS_2024 activityType)
             activityType)
    /\ calculateContributionsWithACRE env revenue activityType acreYear
       = calculateSocialContributions env revenue activityType None.
Proof.
  intros env revenue activityType acreYear _ Hgt.
  unfold calculateContributionsWithACRE.
  rewrite (calculateSocialContributions_exceeded _ _ _ _ Hgt).
  split; reflexivity.
Qed.

(** [calculateContributionsWithACRE(80000, 'services', 1)]. *)
Lemma calculateContributionsWithACRE_franchise_error_witness :
  calculateContributionsWithACRE env_utc_2024 80000 services 1
  = Err (FranchiseExceeded 77700 services)
  /\ calculateContributionsWithACRE env_utc_2024 80000 services 1
     = calculateSocialContributions env_utc_2024 80000 services None.
Proof.
  apply (calculateContributionsWithACRE_franchise_error
           env_utc_2024 80000 services 1).
  - simpl. left. reflexivity.
  - reflexivity.
Defined.

(** C5: at or below the threshold and for an ACRE year in 1, 2, 3,
    [calculateContributionsWithACRE] is the standard result with each of the
    six components and the total multiplied by one minus the reduction
    factor of the year (0.75, 0.50, 0.25), the net revenue being the revenue
    minus the reduced total and the other fields unchanged; in the first
    year the total is a quarter of the standard total. *)
Theorem calculateContributionsWithACRE_scales :
  forall (env : Env) (revenue : Q) (activityType : ActivityType)
         (acreYear : Z),
    0 <= revenue ->
    revenue <= FRANCHISE_THRESHOLDS_2024 activityType ->
    In acreYear [1; 2; 3]%Z ->
    exists std acre,
      calculateSocialContributions env revenue activityType None = Ok std
      /\ calculateContributionsWithACRE env revenue activityType acreYear
         = Ok acre
      /\ (let k := 1 - spec_reductionFactor acreYear in
          let c := SocialContributionCalculation.contributions acre in
          let s := SocialContributionCalculation.contributions std in
          maladie c == maladie s * k
          /\ retraite_base c == retraite_base s * k
          /\ retraite_complementaire c == retraite_complementaire s * k
          /\ invalidite_deces c == invalidite_deces s * k
          /\ csg_crds c == csg_crds s * k
          /\ formation_professionnelle c == formation_professionnelle s * k
          /\ total c == total s * k)
      /\ SocialContributionCalculation.net_revenue acre
         == revenue - total (SocialContributionCalculation.contributions acre)
      /\ SocialContributionCalculation.revenue acre
         = SocialContributionCalculation.revenue std
      /\ SocialContributionCalculation.activity_type acre
         = SocialContributionCalculation.activity_type std
      /\ SocialContributionCalculation.rates acre
         = SocialContributionCalculation.rates std
      /\ SocialContributionCalculation.quarter acre
         = SocialContributionCalculation.quarter std
      /\ SocialContributionCalculation.year acre
         = SocialContributionCalculation.year std
      /\ (acreYear = 1%Z ->
          total (SocialContributionCalculation.contributions acre)
          == total (SocialContributionCalculation.contributions std) * 0.25).
Proof.
  intros env revenue activityType acreYear _ Hle Hyear.
  destruct (calculateSocialContributions_within env revenue activityType
              None Hle) as (std & Hstd & _).
  exists std. unfold calculateContributionsWithACRE. rewrite Hstd. simpl.
  eexists. split; [reflexivity|]. split; [reflexivity|]. simpl.
  assert (Hk : (match acreYear with
                | 1%Z => 0.75 | 2%Z => 0.50 | 3%Z => 0.25 | _ => 0
                end) = spec_reductionFactor acreYear).
  { simpl in Hyear.
    destruct Hyear as [<- | [<- | [<- | []]]]; reflexivity. }
  rewrite Hk.
  split; [repeat (split; [reflexivity|]); reflexivity|].
  repeat (split; [reflexivity|]).
  intros ->. change (spec_reductionFactor 1) with 0.75.
  assert (E : 1 - 0.75 == 0.25) by reflexivity.
  rewrite E. reflexivity.
Qed.

(** [calculateContributionsWithACRE(30000, 'services', 1)]: a total of
    1657.5 against 6630 without ACRE. *)
Lemma calculateContributionsWithACRE_scales_witness :
  exists std acre,
    calculateSocialContributions env_utc_2024 30000 services None = Ok std
    /\ calculateContributionsWithACRE env_utc_2024 30000 services 1 = Ok acre
    /\ total (SocialContributionCalculation.contributions std) == 6630
    /\ total (SocialContributionCalculation.contributions acre) == 1657.5
    /\ SocialContributionCalculation.net_revenue acre == 28342.5.
Proof.
  destruct (calculateContributionsWithACRE_scales
              env_utc_2024 30000 services 1) as
    (std & acre & Hstd & Hacre & _).
  - discriminate.
  - discriminate.
  - simpl. left. reflexivity.
  - exists std, acre.
    split; [exact Hstd|]. split; [exact Hacre|].
    vm_compute in Hstd. vm_compute in Hacre.
    injection Hstd as <-. injection Hacre as <-.
    repeat split.
Defined.

(** ** The income tax calculator *)

Lemma Qltb_true_iff (a b : Q) : Qltb a b = true <-> a < b.
Proof. exact (Qgtb_true_iff b a). Qed.

Lemma Qltb_false_iff (a b : Q) : Qltb a b = false <-> b <= a.
Proof. exact (Qgtb_false_iff b a). Qed.

Lemma INCOME_TAX_BRACKETS_2024_ascending : ascending INCOME_TAX_BRACKETS_2024.
Proof.
  unfold ascending, INCOME_TAX_BRACKETS_2024.
  repeat (constructor; [|repeat (constructor; [discriminate|]); constructor]).
  constructor.
Qed.

Lemma INCOME_TAX_BRACKETS_2024_wf : Forall bracket_wf INCOME_TAX_BRACKETS_2024.
Proof.
  unfold INCOME_TAX_BRACKETS_2024.
  repeat (constructor; [split; simpl; try exact I; discriminate|]).
  constructor.
Qed.

(** Past a bracket whose lower bound is not below [t], no later bracket of
    an ascending table is taxed. *)
Lemma spec_bracket_sum_stops t b rest :
  ascending (b :: rest) ->
  t <= TaxBracket.min b ->
  spec_bracket_sum t (b :: rest) = 0.
Proof.
  intros Hasc Hle. unfold spec_bracket_sum.
  replace (filter (fun b0 => Qltb (TaxBracket.min b0) t) (b :: rest))
    with (@nil TaxBracket.t); [reflexivity|].
  symmetry.
  assert (Hall : Forall (fun b0 => Qltb (TaxBracket.min b0) t = false)
                   (b :: rest)).
  { inversion Hasc as [|? ? _ Hhd]; subst.
    constructor.
    - apply Qltb_false_iff. exact Hle.
    - eapply Forall_impl; [|exact Hhd].
      intros b' Hb'. apply Qltb_false_iff.
      apply Qle_trans with (TaxBracket.min b); assumption. }
  clear Hasc Hle. induction Hall as [|x l Hx _ IH]; simpl.
  - reflexivity.
  - rewrite Hx. exact IH.
Qed.

(** The loop with its early [break] computes the sum over the brackets
    whose lower bound is below the taxable income. *)
Lemma bracket_loop_total t brackets :
  ascending brackets ->
  forall state,
    snd (bracket_loop t brackets state)
    == snd state + spec_bracket_sum t brackets.
Proof.
  induction brackets as [|b rest IH]; intros Hasc [taxBrackets totalTax].
  - simpl. unfold spec_bracket_sum. simpl. ring.
  - simpl bracket_loop.
    destruct (Qle_bool t (TaxBracket.min b)) eqn:E.
    + apply Qle_bool_iff in E.
      rewrite (spec_bracket_sum_stops t b rest Hasc E). simpl. ring.
    + assert (Hrest : ascending rest) by (inversion Hasc; assumption).
      rewrite (IH Hrest). simpl snd.
      unfold spec_bracket_sum at 2. simpl filter.
      unfold Qltb at 1. rewrite E. simpl negb. cbv iota.
      simpl fold_right. fold (spec_bracket_sum t rest).
      unfold spec_slice_tax. ring.
Qed.

Lemma calculateIncomeTax_total_tax revenue activityType parts :
  IncomeTaxData.total_tax (calculateIncomeTax revenue activityType parts)
  == spec_bracket_sum
       ((revenue - revenue * MICRO_ABATTEMENT_RATES activityType) / parts)
       INCOME_TAX_BRACKETS_2024 * parts.
Proof.
  unfold calculateIncomeTax.
  pose proof (bracket_loop_total
                ((revenue - revenue * MICRO_ABATTEMENT_RATES activityType)
                 / parts)
                INCOME_TAX_BRACKETS_2024
                INCOME_TAX_BRACKETS_2024_ascending ([], 0)) as H.
  destruct (bracket_loop _ INCOME_TAX_BRACKETS_2024 ([], 0))
    as [taxBrackets totalTax].
  simpl in *. rewrite H. ring.
Qed.

(** C3: for revenue >= 0 and parts >= 1, [calculateIncomeTax] returns the
    abatement revenue x rate (0.50 services, 0.29 commerce, 0.34 liberal),
    the taxable income (revenue - abatement) / parts, and as total tax the
    sum, over the brackets whose lower bound is below the taxable income, of
    the slice min(taxable income, upper bound) - lower bound at the
    bracket's rate, multiplied by parts; [calculateIncomeTax(30000,
    'services', 1)] has abatement 15000, taxable income 15000 and total tax
    407.66. *)
Theorem calculateIncomeTax_quotient_familial :
  forall (revenue : Q) (activityType : ActivityType) (parts : Q),
    0 <= revenue ->
    1 <= parts ->
    let r := calculateIncomeTax revenue activityType parts in
    IncomeTaxData.abattement r == revenue * spec_abatementRate activityType
    /\ IncomeTaxData.taxable_income r
       == (revenue - revenue * spec_abatementRate activityType) / parts
    /\ IncomeTaxData.total_tax r
       == spec_bracket_sum (IncomeTaxData.taxable_income r)
            INCOME_TAX_BRACKETS_2024 * parts
    /\ (let s := calculateIncomeTax 30000 services 1 in
        IncomeTaxData.abattement s == 15000
        /\ IncomeTaxData.taxable_income s == 15000
        /\ IncomeTaxData.total_tax s == 407.66).
Proof.
  intros revenue activityType parts _ _ r.
  assert (Hrate : MICRO_ABATTEMENT_RATES activityType
                  = spec_abatementRate activityType)
    by (destruct activityType; reflexivity).
  assert (Habt : IncomeTaxData.abattement r
                 = revenue * MICRO_ABATTEMENT_RATES activityType).
  { subst r. unfold calculateIncomeTax.
    destruct (bracket_loop _ _ _). reflexivity. }
  assert (Htax : IncomeTaxData.taxable_income r
                 = (revenue - revenue * MICRO_ABATTEMENT_RATES activityType)
                   / parts).
  { subst r. unfold calculateIncomeTax.
    destruct (bracket_loop _ _ _). reflexivity. }
  split; [rewrite Habt, Hrate; reflexivity|].
  split; [rewrite Htax, Hrate; reflexivity|].
  split.
  - rewrite Htax. subst r. apply calculateIncomeTax_total_tax.
  - repeat split.
Qed.

(** [calculateIncomeTax(30000, 'services', 1)]: the first bracket is taxed
    at 0%, the slice 11294..15000 at 11%. *)
Lemma calculateIncomeTax_quotient_familial_witness :
  let r := calculateIncomeTax 30000 services 1 in
  IncomeTaxData.abattement r == 30000 * 0.50
  /\ IncomeTaxData.taxable_income r == (30000 - 30000 * 0.50) / 1
  /\ IncomeTaxData.total_tax r
     == spec_bracket_sum (IncomeTaxData.taxable_income r)
          INCOME_TAX_BRACKETS_2024 * 1
  /\ spec_bracket_sum 15000 INCOME_TAX_BRACKETS_2024
     == (11294 - 0) * 0.00 + (15000 - 11294) * 0.11.
Proof.
  intros r.
  destruct (calculateIncomeTax_quotient_familial 30000 services 1)
    as (Ha & Ht & Htot & _).
  - discriminate.
  - discriminate.
  - split; [exact Ha|]. split; [exact Ht|]. split; [exact Htot|].
    reflexivity.
Defined.

Lemma Math_min_mono t1 t2 m : t1 <= t2 -> Math_min t1 m <= Math_min t2 m.
Proof.
  intros H. destruct m as [m|]; simpl; [|exact H].
  apply Q.min_le_compat_r. exact H.
Qed.

Lemma spec_slice_tax_nonneg t b :
  bracket_wf b -> TaxBracket.min b < t -> 0 <= spec_slice_tax t b.
Proof.
  intros [Hrate Hmax] Hlt. unfold spec_slice_tax.
  apply Qmult_le_0_compat; [|exact Hrate].
  assert (TaxBracket.min b <= Math_min t (TaxBracket.max b)); [|lra].
  destruct (TaxBracket.max b) as [m|]; simpl.
  - apply Q.min_glb; [apply Qlt_le_weak; exact Hlt | exact Hmax].
  - apply Qlt_le_weak; exact Hlt.
Qed.

Lemma spec_slice_tax_mono t1 t2 b :
  bracket_wf b -> t1 <= t2 -> spec_slice_tax t1 b <= spec_slice_tax t2 b.
Proof.
  intros [Hrate _] Hle. unfold spec_slice_tax.
  apply Qmult_le_compat_r; [|exact Hrate].
  pose proof (Math_min_mono t1 t2 (TaxBracket.max b) Hle). lra.
Qed.

(** The bracket sum does not decrease with the per-part income. *)
Lemma spec_bracket_sum_mono brackets t1 t2 :
  Forall bracket_wf brackets ->
  t1 <= t2 ->
  spec_bracket_sum t1 brackets <= spec_bracket_sum t2 brackets.
Proof.
  intros Hwf Hle. induction Hwf as [|b rest Hb _ IH].
  - apply Qle_refl.
  - unfold spec_bracket_sum in *. simpl filter.
    destruct (Qltb (TaxBracket.min b) t1) eqn:E1;
      destruct (Qltb (TaxBracket.min b) t2) eqn:E2; simpl fold_right.
    + apply Qplus_le_compat; [apply spec_slice_tax_mono; assumption | exact IH].
    + apply Qltb_true_iff in E1. apply Qltb_false_iff in E2. lra.
    + apply Qltb_true_iff in E2.
      pose proof (spec_slice_tax_nonneg t2 b Hb E2). lra.
    + exact IH.
Qed.

(** No bracket is entered by a non-positive per-part income. *)
Lemma spec_bracket_sum_nonpositive_income t :
  t <= 0 -> spec_bracket_sum t INCOME_TAX_BRACKETS_2024 = 0.
Proof.
  intros H. apply spec_bracket_sum_stops.
  - exact INCOME_TAX_BRACKETS_2024_ascending.
  - exact H.
Qed.

Lemma abatement_keeps_a_share activityType :
  0 <= 1 - MICRO_ABATTEMENT_RATES activityType.
Proof. destruct activityType; discriminate. Qed.

(** C4: for a fixed activity type and a fixed (non-zero) number of parts,
    the total tax of [calculateIncomeTax] does not decrease when the revenue
    increases from [revenue1 >= 0] to [revenue2 >= revenue1]. *)
Theorem calculateIncomeTax_monotone :
  forall (activityType : ActivityType) (parts revenue1 revenue2 : Q),
    ~ parts == 0 ->
    0 <= revenue1 ->
    revenue1 <= revenue2 ->
    IncomeTaxData.total_tax (calculateIncomeTax revenue1 activityType parts)
    <= IncomeTaxData.total_tax (calculateIncomeTax revenue2 activityType parts).
Proof.
  intros activityType parts revenue1 revenue2 Hparts H0 Hle.
  rewrite !calculateIncomeTax_total_tax.
  pose proof (abatement_keeps_a_share activityType) as Hc.
  set (a := MICRO_ABATTEMENT_RATES activityType) in *.
  assert (Hx1 : 0 <= revenue1 - revenue1 * a) by nra.
  assert (Hx12 : revenue1 - revenue1 * a <= revenue2 - revenue2 * a) by nra.
  set (x1 := revenue1 - revenue1 * a) in *.
  set (x2 := revenue2 - revenue2 * a) in *.
  destruct (Qlt_le_dec 0 parts) as [Hpos | Hnonpos].
  - apply Qmult_le_compat_r; [|apply Qlt_le_weak; exact Hpos].
    apply spec_bracket_sum_mono; [exact INCOME_TAX_BRACKETS_2024_wf|].
    unfold Qdiv. apply Qmult_le_compat_r; [exact Hx12|].
    apply Qlt_le_weak. apply Qinv_lt_0_compat. exact Hpos.
  - assert (Hneg : parts < 0).
    { destruct (Qlt_le_dec parts 0) as [Hl | Hg]; [exact Hl|].
      exfalso. apply Hparts. apply Qle_antisym; assumption. }
    assert (Hdiv : forall x, 0 <= x -> x / parts <= 0).
    { intros x Hx.
      destruct (Qlt_le_dec 0 (x / parts)) as [Hgt | Hok]; [|exact Hok].
      exfalso.
      assert (E : parts * (x / parts) == x) by (apply Qmult_div_r; exact Hparts).
      nra. }
    rewrite (spec_bracket_sum_nonpositive_income (x1 / parts)),
            (spec_bracket_sum_nonpositive_income (x2 / parts)).
    + apply Qle_refl.
    + apply Hdiv. lra.
    + apply Hdiv. exact Hx1.
Qed.

(** Revenues 30000 and 60000 for services and one part. *)
Lemma calculateIncomeTax_monotone_witness :
  IncomeTaxData.total_tax (calculateIncomeTax 30000 services 1)
  <= IncomeTaxData.total_tax (calculateIncomeTax 60000 services 1).
Proof.
  apply (calculateIncomeTax_monotone services 1 30000 60000).
  - discriminate.
  - discriminate.
  - discriminate.
Defined.

(** ** The calendar *)

Section Calendar.
Import JsDate.
Local Open Scope Z_scope.

Ltac month_cases m :=
  let Hc := fresh "Hc" in
  assert (m = 0 \/ m = 1 \/ m = 2 \/ m = 3 \/ m = 4 \/ m = 5 \/ m = 6
          \/ m = 7 \/ m = 8 \/ m = 9 \/ m = 10 \/ m = 11) as Hc by lia;
  repeat (destruct Hc as [Hc | Hc]); subst m.

Ltac decide_ltb :=
  repeat match goal with
         | |- context [?a <? ?b] => destruct (Z.ltb_spec a b); try lia
         end.

Lemma DaysInYear_cases y : DaysInYear y = 365 \/ DaysInYear y = 366.
Proof.
  unfold DaysInYear.
  repeat match goal with |- context [if ?b then _ else _] => destruct b end;
    auto.
Qed.

Lemma DayFromYear_succ y : DayFromYear (y + 1) = DayFromYear y + DaysInYear y.
Proof.
  unfold DayFromYear, DaysInYear.
  replace (y + 1 - 1970) with (y - 1969) by lia.
  replace (y + 1 - 1969) with (y - 1968) by lia.
  replace (y + 1 - 1901) with (y - 1900) by lia.
  replace (y + 1 - 1601) with (y - 1600) by lia.
  destruct (Z.eqb_spec (y mod 4) 0) as [E4|E4];
  destruct (Z.eqb_spec (y mod 100) 0) as [E100|E100];
  destruct (Z.eqb_spec (y mod 400) 0) as [E400|E400]; cbn [negb];
  Z.div_mod_to_equations; lia.
Qed.

(** [YearFromTime t] is the year whose days contain [Day t]. *)
Lemma YearFromTime_spec t :
  DayFromYear (YearFromTime t) <= Day t < DayFromYear (YearFromTime t + 1).
Proof.
  unfold YearFromTime.
  set (d := Day t). clearbody d.
  set (y0 := 1970 + d * 10000 / 3652425).
  assert (Hlo : DayFromYear (y0 - 1) <= d).
  { subst y0. unfold DayFromYear. Z.div_mod_to_equations. lia. }
  assert (Hhi : d < DayFromYear (y0 + 1 + 1)).
  { subst y0. unfold DayFromYear. Z.div_mod_to_equations. lia. }
  clearbody y0.
  destruct (Z.leb_spec (DayFromYear (y0 + 1)) d).
  - lia.
  - destruct (Z.ltb_spec d (DayFromYear y0)).
    + replace (y0 - 1 + 1) with y0 by lia. lia.
    + lia.
Qed.

Lemma YearFromTime_unique t y :
  DayFromYear y <= Day t < DayFromYear (y + 1) -> YearFromTime t = y.
Proof.
  intros H. pose proof (YearFromTime_spec t) as Hs.
  set (z := YearFromTime t) in *. clearbody z.
  assert (Hmono : forall a b, a + 1 <= b -> DayFromYear (a + 1) <= DayFromYear b).
  { intros a b Hab.
    replace b with (a + 1 + Z.of_nat (Z.to_nat (b - (a + 1)))) by lia.
    induction (Z.to_nat (b - (a + 1))) as [|n IH].
    - rewrite Z.add_0_r. lia.
    - replace (a + 1 + Z.of_nat (S n)) with (a + 1 + Z.of_nat n + 1) by lia.
      rewrite (DayFromYear_succ (a + 1 + Z.of_nat n)).
      pose proof (DaysInYear_cases (a + 1 + Z.of_nat n)). lia. }
  destruct (Z.lt_trichotomy z y) as [Hlt | [Heq | Hgt]].
  - pose proof (Hmono z y). lia.
  - exact Heq.
  - pose proof (Hmono y z). lia.
Qed.

Lemma DaysBeforeMonth_within_year leap m d :
  leap = 0 \/ leap = 1 ->
  0 <= m <= 11 ->
  1 <= d <= DaysInMonth leap m ->
  0 <= DaysBeforeMonth leap m + d - 1 < 365 + leap.
Proof.
  intros Hl Hm Hd.
  destruct Hl; subst leap; month_cases m;
    cbv beta iota delta [DaysBeforeMonth DaysInMonth] in Hd |- *; lia.
Qed.

Lemma MonthFromDayWithinYear_DaysBeforeMonth leap m d :
  leap = 0 \/ leap = 1 ->
  0 <= m <= 11 ->
  1 <= d <= DaysInMonth leap m ->
  MonthFromDayWithinYear leap (DaysBeforeMonth leap m + d - 1) = m.
Proof.
  intros Hl Hm Hd.
  destruct Hl; subst leap; month_cases m;
    cbv beta iota delta [DaysBeforeMonth DaysInMonth MonthFromDayWithinYear]
      in Hd |- *;
    decide_ltb; reflexivity.
Qed.

(** The year, month and day of month of a time value are those its day
    number was made from. *)
Lemma fields_of_MakeDay t y m d :
  0 <= m <= 11 ->
  1 <= d <= DaysInMonth (DaysInYear y - 365) m ->
  Day t = MakeDay y m d ->
  YearFromTime t = y /\ MonthFromTime t = m /\ DateFromTime t = d.
Proof.
  intros Hm Hd HD.
  unfold MakeDay in HD.
  rewrite (Z.div_small m 12), (Z.mod_small m 12), Z.add_0_r in HD by lia.
  assert (Hl : DaysInYear y - 365 = 0 \/ DaysInYear y - 365 = 1)
    by (pose proof (DaysInYear_cases y); lia).
  pose proof (DaysBeforeMonth_within_year _ m d Hl Hm Hd) as Hb.
  assert (HY : YearFromTime t = y).
  { apply YearFromTime_unique. rewrite DayFromYear_succ, HD. lia. }
  assert (HM : MonthFromTime t = m).
  { unfold MonthFromTime, DayWithinYear, InLeapYear. rewrite HY, HD.
    replace (DayFromYear y + DaysBeforeMonth (DaysInYear y - 365) m + d - 1
             - DayFromYear y)
      with (DaysBeforeMonth (DaysInYear y - 365) m + d - 1) by lia.
    apply MonthFromDayWithinYear_DaysBeforeMonth; assumption. }
  split; [exact HY|]. split; [exact HM|].
  unfold DateFromTime, DayWithinYear, InLeapYear. rewrite HM, HY, HD. lia.
Qed.

Lemma Day_MakeDate day time :
  0 <= time < msPerDay ->
  Day (MakeDate day time) = day /\ TimeWithinDay (MakeDate day time) = time.
Proof.
  intros H. unfold Day, TimeWithinDay, MakeDate, msPerDay in *.
  Z.div_mod_to_equations. lia.
Qed.

Lemma TimeWithinDay_range t : 0 <= TimeWithinDay t < msPerDay.
Proof. unfold TimeWithinDay, msPerDay. apply Z.mod_pos_bound. lia. Qed.

(** Every time value has a month in 0..11 and a day of month that exists
    in that month, from which [MakeDay] gives back its day number. *)
Lemma fields_valid t :
  0 <= MonthFromTime t <= 11
  /\ 1 <= DateFromTime t <= DaysInMonth (InLeapYear t) (MonthFromTime t)
  /\ Day t = MakeDay (YearFromTime t) (MonthFromTime t) (DateFromTime t).
Proof.
  pose proof (YearFromTime_spec t) as Hs.
  rewrite DayFromYear_succ in Hs.
  assert (Hm : 0 <= MonthFromTime t <= 11).
  { unfold MonthFromTime, MonthFromDayWithinYear. decide_ltb. }
  split; [exact Hm|].
  assert (Hl : InLeapYear t = 0 \/ InLeapYear t = 1).
  { unfold InLeapYear. pose proof (DaysInYear_cases (YearFromTime t)). lia. }
  assert (Hd : 0 <= DayWithinYear t < 365 + InLeapYear t).
  { unfold DayWithinYear, InLeapYear. lia. }
  split.
  - unfold DateFromTime, MonthFromTime, MonthFromDayWithinYear.
    destruct Hl as [E | E]; rewrite E in *;
      decide_ltb; cbv beta iota delta [DaysBeforeMonth DaysInMonth]; lia.
  - unfold MakeDay.
    rewrite (Z.div_small (MonthFromTime t) 12), (Z.mod_small (MonthFromTime t) 12),
      Z.add_0_r by lia.
    fold (InLeapYear t). unfold DateFromTime, DayWithinYear. lia.
Qed.

(** [setFullYear] keeps the local month, day of month and time of day
    whenever that day exists in the target year (it does unless the date
    is 29 February and the target year is not a leap year). *)
Lemma setFullYear_fields tza t year t' :
  setFullYear tza (Some t) (Some year) = Some t' ->
  let lt := LocalTime tza t in
  let lt' := LocalTime tza t' in
  DateFromTime lt <= DaysInMonth (DaysInYear year - 365) (MonthFromTime lt) ->
  YearFromTime lt' = year
  /\ MonthFromTime lt' = MonthFromTime lt
  /\ DateFromTime lt' = DateFromTime lt
  /\ TimeWithinDay lt' = TimeWithinDay lt.
Proof.
  intros Hset lt lt' Hd.
  destruct (fields_valid lt) as (Hm & Hdate & _).
  assert (E : lt' = MakeDate (MakeDay year (MonthFromTime lt) (DateFromTime lt))
                      (TimeWithinDay lt)).
  { unfold setFullYear in Hset. cbv zeta in Hset. fold lt in Hset.
    revert Hset.
    generalize (MakeDate (MakeDay year (MonthFromTime lt) (DateFromTime lt))
                  (TimeWithinDay lt)).
    intros x. unfold TimeClip.
    destruct (maxTime <? Z.abs (UTC tza x)); [discriminate|].
    intros [= <-]. subst lt'. unfold LocalTime, UTC. lia. }
  destruct (Day_MakeDate (MakeDay year (MonthFromTime lt) (DateFromTime lt))
              (TimeWithinDay lt) (TimeWithinDay_range lt)) as [HD HT].
  rewrite <- E in HD, HT.
  destruct (fields_of_MakeDay lt' year (MonthFromTime lt) (DateFromTime lt))
    as (HY & HM & HDt); [exact Hm | lia | exact HD |].
  repeat split; assumption.
Qed.

End Calendar.

(** ** The CFE calculator *)

(** Outside the exemption, the base is the one of the three formulas that
    applies, never above [maximum_base], and the total is a quarter of
    it. *)
Lemma calculateCFE_base revenue activityType commune surfaceM2 :
  CFE_THRESHOLDS.exemption_revenue <= revenue ->
  let r := calculateCFE revenue activityType commune surfaceM2 in
  CFEData.is_exempt r = false
  /\ CFEData.base_amount r
     = (if truthy surfaceM2 then
          Qmin (number_of surfaceM2 * 16) CFE_THRESHOLDS.maximum_base
        else if Qgtb revenue 32600 then
          Qmin (revenue * 0.005) CFE_THRESHOLDS.maximum_base
        else CFE_THRESHOLDS.minimum_base)
  /\ CFEData.base_amount r <= CFE_THRESHOLDS.maximum_base
  /\ CFEData.tax_rate r = 0.25
  /\ CFEData.total_cfe r = CFEData.base_amount r * CFEData.tax_rate r.
Proof.
  intros Hrev r. subst r. unfold calculateCFE.
  apply Qle_bool_iff in Hrev. rewrite Hrev. cbn [negb]. simpl.
  split; [reflexivity|]. split; [reflexivity|].
  split; [|split; reflexivity].
  destruct (truthy surfaceM2); [apply Q.le_min_r|].
  destruct (Qgtb revenue 32600); [apply Q.le_min_r | discriminate].
Qed.

(** Without a surface, the base stays below the 227 floor for every revenue
    strictly between 32600 and 45400. *)
Lemma calculateCFE_base_below_floor revenue activityType commune :
  32600 < revenue ->
  revenue < 45400 ->
  CFEData.base_amount (calculateCFE revenue activityType commune None)
  < CFE_THRESHOLDS.minimum_base.
Proof.
  intros Hlo Hhi.
  assert (Hrev : CFE_THRESHOLDS.exemption_revenue <= revenue).
  { unfold CFE_THRESHOLDS.exemption_revenue. lra. }
  destruct (calculateCFE_base revenue activityType commune None Hrev)
    as (_ & Hb & _).
  rewrite Hb. simpl truthy. cbv iota.
  apply Qgtb_true_iff in Hlo. rewrite Hlo.
  apply Q.min_lt_iff. left.
  unfold CFE_THRESHOLDS.minimum_base. lra.
Qed.

(** C7 (the code departs from the claim): the base is not kept above
    [minimum_base].  [calculateCFE(40000, 'services', 'Paris')] has base
    200 and [calculateCFE(10000, 'services', 'Paris', 1)] has base 16, both
    below 227; the total is the base times 0.25. *)
Theorem calculateCFE_base_below_minimum :
  (let r := calculateCFE 40000 services "Paris" None in
   CFEData.is_exempt r = false
   /\ CFEData.base_amount r == 200
   /\ CFEData.base_amount r < CFE_THRESHOLDS.minimum_base
   /\ CFEData.total_cfe r == 50)
  /\ (let r := calculateCFE 10000 services "Paris" (Some 1) in
      CFEData.is_exempt r = false
      /\ CFEData.base_amount r == 16
      /\ CFEData.base_amount r < CFE_THRESHOLDS.minimum_base
      /\ CFEData.total_cfe r == 4).
Proof.
  split; repeat split.
Qed.

(** ** The due date of a quarterly declaration *)

Section DueDate.
Import JsDate.
Local Open Scope Z_scope.

Lemma MakeDay_in_year y m d :
  0 <= m <= 11 ->
  MakeDay y m d
  = DayFromYear y + DaysBeforeMonth (DaysInYear y - 365) m + d - 1.
Proof.
  intros Hm. unfold MakeDay.
  rewrite (Z.div_small m 12), (Z.mod_small m 12), Z.add_0_r by lia.
  reflexivity.
Qed.

Lemma MakeDay_month_13 y d : MakeDay y 13 d = DayFromYear (y + 1) + 31 + d - 1.
Proof. reflexivity. Qed.

(** Day number of the local midnight [new Date(year, quarter * 3 + 1, 0)]:
    that of the last day of the month that follows the quarter. *)
Lemma MakeDay_quarter_due year quarter :
  In quarter [1; 2; 3; 4] ->
  let '(y, m, d) := spec_quarterly_due_date year quarter in
  MakeDay year (quarter * 3 + 1) 0 = MakeDay y (m - 1) d.
Proof.
  intros Hq. simpl in Hq.
  destruct Hq as [<- | [<- | [<- | [<- | []]]]].
  - change (spec_quarterly_due_date year 1) with (year, 4, 30).
    cbv beta iota zeta. change (1 * 3 + 1) with 4. change (4 - 1) with 3.
    rewrite !MakeDay_in_year by lia.
    cbv beta iota delta [DaysBeforeMonth]. lia.
  - change (spec_quarterly_due_date year 2) with (year, 7, 31).
    cbv beta iota zeta. change (2 * 3 + 1) with 7. change (7 - 1) with 6.
    rewrite !MakeDay_in_year by lia.
    cbv beta iota delta [DaysBeforeMonth]. lia.
  - change (spec_quarterly_due_date year 3) with (year, 10, 31).
    cbv beta iota zeta. change (3 * 3 + 1) with 10. change (10 - 1) with 9.
    rewrite !MakeDay_in_year by lia.
    cbv beta iota delta [DaysBeforeMonth]. lia.
  - change (spec_quarterly_due_date year 4) with (year + 1, 1, 31).
    cbv beta iota zeta. change (4 * 3 + 1) with 13. change (1 - 1) with 0.
    rewrite MakeDay_month_13, MakeDay_in_year by lia.
    cbv beta iota delta [DaysBeforeMonth]. lia.
Qed.

Lemma spec_quarterly_due_date_exists year quarter y m d :
  In quarter [1; 2; 3; 4] ->
  spec_quarterly_due_date year quarter = (y, m, d) ->
  (y = year \/ y = year + 1)
  /\ forall leap, 0 <= m - 1 <= 11 /\ 2 <= d /\ d = DaysInMonth leap (m - 1).
Proof.
  intros Hq E. simpl in Hq.
  destruct Hq as [<- | [<- | [<- | [<- | []]]]];
    cbv beta iota delta [spec_quarterly_due_date Z.eqb Pos.eqb] in E;
    injection E as <- <- <-;
    (split; [lia | intros leap; split; [lia | split; [lia | reflexivity]]]).
Qed.

Lemma DayFromYear_range y :
  -270001 <= y <= 270001 -> -99400000 <= DayFromYear y <= 98000000.
Proof.
  intros Hy. unfold DayFromYear. Z.div_mod_to_equations. lia.
Qed.

Lemma Date_ymd_time tza year month date :
  ~ (0 <= year <= 99) ->
  Z.abs (MakeDay year month date * msPerDay - tza) <= maxTime ->
  Date_ymd tza year month date
  = Some (MakeDay year month date * msPerDay - tza).
Proof.
  intros Hy Hrange. unfold Date_ymd.
  assert (E : (0 <=? year) && (year <=? 99) = false).
  { destruct (Z.leb_spec 0 year); destruct (Z.leb_spec year 99);
      cbn [andb]; try reflexivity; lia. }
  rewrite E. unfold TimeClip, UTC, MakeDate. rewrite Z.add_0_r.
  destruct (Z.ltb_spec maxTime
              (Z.abs (MakeDay year month date * msPerDay - tza)));
    [lia | reflexivity].
Qed.

(** In a zone at or west of UTC the stored due date is the last day of the
    month that follows the quarter; in a zone east of UTC it is the day
    before. *)
Lemma quarterly_due_date_by_zone tza year quarter y m d :
  In quarter [1; 2; 3; 4] ->
  ~ (0 <= year <= 99) ->
  -270000 <= year <= 270000 ->
  spec_quarterly_due_date year quarter = (y, m, d) ->
  let dueDate := Date_ymd tza year (quarter * 3 + 1) 0 in
  (- msPerDay < tza <= 0 -> toISODate dueDate = Ok (ISODate_format y m d))
  /\ (0 < tza <= msPerDay ->
      toISODate dueDate = Ok (ISODate_format y m (d - 1))).
Proof.
  intros Hq Hyear Hrange E dueDate.
  pose proof (MakeDay_quarter_due year quarter Hq) as HM. rewrite E in HM.
  destruct (spec_quarterly_due_date_exists year quarter y m d Hq E)
    as (Hy & Hfields).
  destruct (Hfields (DaysInYear y - 365)) as (Hm & Hd2 & Hd).
  assert (Hl : DaysInYear y - 365 = 0 \/ DaysInYear y - 365 = 1)
    by (pose proof (DaysInYear_cases y); lia).
  pose proof (DaysBeforeMonth_within_year _ (m - 1) d Hl Hm
                ltac:(lia)) as Hwithin.
  assert (Hday : -99400000 <= MakeDay y (m - 1) d <= 98000400).
  { rewrite MakeDay_in_year by exact Hm.
    pose proof (DayFromYear_range y ltac:(lia)). lia. }
  assert (Hvalid :
            - msPerDay <= tza <= msPerDay ->
            dueDate = Some (MakeDay y (m - 1) d * msPerDay - tza)).
  { intros Htza. subst dueDate. rewrite <- HM.
    apply Date_ymd_time; [exact Hyear|].
    rewrite HM. unfold msPerDay, maxTime in *. lia. }
  split; intros Htza.
  - rewrite Hvalid by lia. unfold toISODate.
    set (t := MakeDay y (m - 1) d * msPerDay - tza).
    assert (HD : Day t = MakeDay y (m - 1) d).
    { subst t. unfold Day, msPerDay in *. Z.div_mod_to_equations. lia. }
    destruct (fields_of_MakeDay t y (m - 1) d) as (HY & HMo & HDa);
      [exact Hm | lia | exact HD |].
    rewrite HY, HMo, HDa. do 2 f_equal. lia.
  - rewrite Hvalid by lia. unfold toISODate.
    set (t := MakeDay y (m - 1) d * msPerDay - tza).
    assert (HD : Day t = MakeDay y (m - 1) (d - 1)).
    { subst t. unfold MakeDay, Day, msPerDay in *.
      Z.div_mod_to_equations. lia. }
    destruct (fields_of_MakeDay t y (m - 1) (d - 1)) as (HY & HMo & HDa);
      [exact Hm | lia | exact HD |].
    rewrite HY, HMo, HDa. do 2 f_equal. lia.
Qed.

End DueDate.

(** For every quarter of every year of the supported range (outside
    0..99), the row stored by [saveQuarterlyDeclaration] carries the due
    date of the specification in a zone at or west of UTC, and the day
    before it in a zone east of UTC. *)
Lemma saveQuarterlyDeclaration_due_date_by_zone
    env table userId year quarter calculation y m d :
  In quarter [1; 2; 3; 4]%Z ->
  ~ (0 <= year <= 99)%Z ->
  (-270000 <= year <= 270000)%Z ->
  spec_quarterly_due_date year quarter = (y, m, d) ->
  forall due : string,
    ((- JsDate.msPerDay < LocalTZA env <= 0)%Z
     /\ due = JsDate.ISODate_format y m d)
    \/ ((0 < LocalTZA env <= JsDate.msPerDay)%Z
        /\ due = JsDate.ISODate_format y m (d - 1)) ->
    exists row,
      saveQuarterlyDeclaration env table userId year quarter calculation
      = Ok (List.length table, (table ++ [row])%list)
      /\ QuarterlyDeclaration.due_date row = due
      /\ QuarterlyDeclaration.status row = draft.
Proof.
  intros Hq Hyear Hrange E due Hzone.
  destruct (quarterly_due_date_by_zone (LocalTZA env) year quarter y m d
              Hq Hyear Hrange E) as [Hwest Heast].
  cbv zeta in Hwest, Heast.
  unfold saveQuarterlyDeclaration. cbv zeta.
  destruct Hzone as [[Hz ->] | [Hz ->]].
  - rewrite (Hwest Hz). unfold bind.
    eexists. split; [reflexivity|]. split; reflexivity.
  - rewrite (Heast Hz). unfold bind.
    eexists. split; [reflexivity|]. split; reflexivity.
Qed.

(** C9 (the code departs from the claim): the due date is the local
    midnight of the last day of the month after the quarter, rendered in
    UTC.  In the Europe/Paris zone quarter 1 of 2024 is stored as
    2024-04-29 and quarter 4 as 2025-01-30; in a UTC zone they are
    2024-04-30 and 2025-01-31. *)
Theorem saveQuarterlyDeclaration_due_date_in_paris :
  forall (table : list QuarterlyDeclaration.t) (userId : string)
         (calculation : SocialContributionCalculation.t),
    (exists row,
        saveQuarterlyDeclaration env_paris_summer table userId 2024 1
          calculation = Ok (List.length table, (table ++ [row])%list)
        /\ QuarterlyDeclaration.due_date row = "2024-04-29"%string)
    /\ (exists row,
           saveQuarterlyDeclaration env_paris_winter table userId 2024 4
             calculation = Ok (List.length table, (table ++ [row])%list)
           /\ QuarterlyDeclaration.due_date row = "2025-01-30"%string)
    /\ (exists row,
           saveQuarterlyDeclaration env_utc_2024 table userId 2024 1
             calculation = Ok (List.length table, (table ++ [row])%list)
           /\ QuarterlyDeclaration.due_date row = "2024-04-30"%string)
    /\ (exists row,
           saveQuarterlyDeclaration env_utc_2024 table userId 2024 4
             calculation = Ok (List.length table, (table ++ [row])%list)
           /\ QuarterlyDeclaration.due_date row = "2025-01-31"%string).
Proof.
  intros table userId calculation.
  assert (Hyear : ~ (0 <= 2024 <= 99)%Z) by lia.
  assert (Hrange : (-270000 <= 2024 <= 270000)%Z) by lia.
  split; [|split; [|split]].
  - destruct (saveQuarterlyDeclaration_due_date_by_zone
                env_paris_summer table userId 2024 1 calculation 2024 4 30
                ltac:(simpl; tauto) Hyear Hrange eq_refl "2024-04-29"%string)
      as (row & Hrow & Hdue & _).
    + right. split; [unfold JsDate.msPerDay; simpl; lia | reflexivity].
    + exists row. split; assumption.
  - destruct (saveQuarterlyDeclaration_due_date_by_zone
                env_paris_winter table userId 2024 4 calculation 2025 1 31
                ltac:(simpl; tauto) Hyear Hrange eq_refl "2025-01-30"%string)
      as (row & Hrow & Hdue & _).
    + right. split; [unfold JsDate.msPerDay; simpl; lia | reflexivity].
    + exists row. split; assumption.
  - destruct (saveQuarterlyDeclaration_due_date_by_zone
                env_utc_2024 table userId 2024 1 calculation 2024 4 30
                ltac:(simpl; tauto) Hyear Hrange eq_refl "2024-04-30"%string)
      as (row & Hrow & Hdue & _).
    + left. split; [unfold JsDate.msPerDay; simpl; lia | reflexivity].
    + exists row. split; assumption.
  - destruct (saveQuarterlyDeclaration_due_date_by_zone
                env_utc_2024 table userId 2024 4 calculation 2025 1 31
                ltac:(simpl; tauto) Hyear Hrange eq_refl "2025-01-31"%string)
      as (row & Hrow & Hdue & _).
    + left. split; [unfold JsDate.msPerDay; simpl; lia | reflexivity].
    + exists row. split; assumption.
Qed.

(** ** ACRE eligibility *)

Lemma checkACREEligibility_equation env creationDate hasReceivedACRE :
  checkACREEligibility env creationDate hasReceivedACRE
  = let expiry := threeYearsAfter (LocalTZA env) creationDate in
    if negb hasReceivedACRE && JsDate.leb (Some (now env)) expiry then
      {| ACREEligibility.eligible := true;
         ACREEligibility.expiryDate := Some expiry;
         ACREEligibility.reducedRates :=
           Some {| maladie := 0.0325;
                   retraite_base := 0.05875;
                   retraite_complementaire := 0.0035;
                   invalidite_deces := 0.0024;
                   csg_crds := 0.0131;
                   formation_professionnelle := 0.00125;
                   total := 0.1105 |} |}
    else
      {| ACREEligibility.eligible := false;
         ACREEligibility.expiryDate := None;
         ACREEligibility.reducedRates := None |}.
Proof.
  unfold checkACREEligibility, threeYearsAfter. cbv zeta. reflexivity.
Qed.

Lemma threeYearsAfter_valid tza t :
  threeYearsAfter tza (Some t)
  = JsDate.setFullYear tza (Some t)
      (Some (JsDate.YearFromTime (JsDate.LocalTime tza t) + 3)%Z).
Proof. reflexivity. Qed.

(** An Invalid Date stays invalid. *)
Lemma threeYearsAfter_invalid tza : threeYearsAfter tza None = None.
Proof. reflexivity. Qed.

(** "creationDate + 3 years" is the same local month, day of month and
    time of day three years later, whenever that day exists. *)
Lemma threeYearsAfter_same_day tza t t' :
  threeYearsAfter tza (Some t) = Some t' ->
  let lt := JsDate.LocalTime tza t in
  let lt' := JsDate.LocalTime tza t' in
  (JsDate.DateFromTime lt
   <= DaysInMonth (JsDate.DaysInYear (JsDate.YearFromTime lt + 3) - 365)
        (JsDate.MonthFromTime lt))%Z ->
  JsDate.YearFromTime lt' = (JsDate.YearFromTime lt + 3)%Z
  /\ JsDate.MonthFromTime lt' = JsDate.MonthFromTime lt
  /\ JsDate.DateFromTime lt' = JsDate.DateFromTime lt
  /\ JsDate.TimeWithinDay lt' = JsDate.TimeWithinDay lt.
Proof.
  intros H lt lt' Hday.
  rewrite threeYearsAfter_valid in H.
  apply (setFullYear_fields tza t _ t' H). exact Hday.
Qed.

(** An Invalid Date as creation date is never eligible. *)
Lemma checkACREEligibility_invalid_date env hasReceivedACRE :
  checkACREEligibility env None hasReceivedACRE
  = {| ACREEligibility.eligible := false;
       ACREEligibility.expiryDate := None;
       ACREEligibility.reducedRates := None |}.
Proof.
  rewrite checkACREEligibility_equation. cbv zeta.
  rewrite threeYearsAfter_invalid.
  destruct hasReceivedACRE; reflexivity.
Qed.

(** C6 (as stated, refuted): when ACRE was already received the result
    carries no expiry date. *)
Lemma checkACREEligibility_expiry_absent :
  ~ (forall (env : Env) (creationDate : JsDate.Date) (hasReceivedACRE : bool),
        ACREEligibility.expiryDate
          (checkACREEligibility env creationDate hasReceivedACRE)
        = Some (threeYearsAfter (LocalTZA env) creationDate)).
Proof.
  intros H.
  specialize (H env_utc_2024 (Some 1704067200000%Z) true).
  rewrite checkACREEligibility_equation in H. cbv zeta in H.
  cbn [negb andb ACREEligibility.expiryDate] in H.
  discriminate H.
Qed.

(** C6 (amended): [eligible] is [not hasReceivedACRE and today <=
    creationDate + 3 years]; the result carries [expiryDate = creationDate
    + 3 years] (and the reduced rates) exactly when [eligible] is true, and
    neither when it is false.  "creationDate + 3 years" is the same local
    month, day and time of day three years later whenever that day
    exists. *)
Theorem checkACREEligibility_expiry_when_eligible :
  forall (env : Env) (creationDate : JsDate.Date) (hasReceivedACRE : bool),
    let tza := LocalTZA env in
    let expiry := threeYearsAfter tza creationDate in
    let r := checkACREEligibility env creationDate hasReceivedACRE in
    ACREEligibility.eligible r
    = negb hasReceivedACRE && JsDate.leb (Some (now env)) expiry
    /\ (ACREEligibility.eligible r = true ->
        ACREEligibility.expiryDate r = Some expiry
        /\ ACREEligibility.reducedRates r <> None)
    /\ (ACREEligibility.eligible r = false ->
        ACREEligibility.expiryDate r = None
        /\ ACREEligibility.reducedRates r = None)
    /\ (forall t t' : Z,
          creationDate = Some t ->
          expiry = Some t' ->
          let lt := JsDate.LocalTime tza t in
          let lt' := JsDate.LocalTime tza t' in
          (JsDate.DateFromTime lt
           <= DaysInMonth
                (JsDate.DaysInYear (JsDate.YearFromTime lt + 3) - 365)
                (JsDate.MonthFromTime lt))%Z ->
          JsDate.YearFromTime lt' = (JsDate.YearFromTime lt + 3)%Z
          /\ JsDate.MonthFromTime lt' = JsDate.MonthFromTime lt
          /\ JsDate.DateFromTime lt' = JsDate.DateFromTime lt
          /\ JsDate.TimeWithinDay lt' = JsDate.TimeWithinDay lt).
Proof.
  intros env creationDate hasReceivedACRE tza expiry r.
  assert (Hcal : forall t t' : Z,
             creationDate = Some t ->
             expiry = Some t' ->
             let lt := JsDate.LocalTime tza t in
             let lt' := JsDate.LocalTime tza t' in
             (JsDate.DateFromTime lt
              <= DaysInMonth
                   (JsDate.DaysInYear (JsDate.YearFromTime lt + 3) - 365)
                   (JsDate.MonthFromTime lt))%Z ->
             JsDate.YearFromTime lt' = (JsDate.YearFromTime lt + 3)%Z
             /\ JsDate.MonthFromTime lt' = JsDate.MonthFromTime lt
             /\ JsDate.DateFromTime lt' = JsDate.DateFromTime lt
             /\ JsDate.TimeWithinDay lt' = JsDate.TimeWithinDay lt).
  { intros t t' Hc He. subst expiry. rewrite Hc in He.
    exact (threeYearsAfter_same_day tza t t' He). }
  pose proof (checkACREEligibility_equation env creationDate hasReceivedACRE)
    as Hr.
  cbv zeta in Hr.
  change (checkACREEligibility env creationDate hasReceivedACRE) with r in Hr.
  change (threeYearsAfter (LocalTZA env) creationDate) with expiry in Hr.
  clearbody r expiry.
  destruct (negb hasReceivedACRE && JsDate.leb (Some (now env)) expiry);
    subst r;
    cbn [ACREEligibility.eligible ACREEligibility.expiryDate
         ACREEligibility.reducedRates].
  - split; [reflexivity|].
    split; [intros _; split; [reflexivity | discriminate]|].
    split; [discriminate | exact Hcal].
  - split; [reflexivity|].
    split; [discriminate|].
    split; [intros _; split; reflexivity | exact Hcal].
Qed.

(** A business created on 1 January 2024, checked the same day: eligible
    until 1 January 2027. *)
Lemma checkACREEligibility_expiry_when_eligible_witness :
  let r := checkACREEligibility env_utc_2024 (Some 1704067200000%Z) false in
  ACREEligibility.eligible r = true
  /\ ACREEligibility.expiryDate r = Some (Some 1798761600000%Z)
  /\ JsDate.toISODate (Some 1704067200000%Z) = Ok "2024-01-01"%string
  /\ JsDate.toISODate (Some 1798761600000%Z) = Ok "2027-01-01"%string.
Proof.
  intros r.
  destruct (checkACREEligibility_expiry_when_eligible
              env_utc_2024 (Some 1704067200000%Z) false)
    as (He & Hsome & _ & _).
  assert (Hexp : threeYearsAfter (LocalTZA env_utc_2024)
                   (Some 1704067200000%Z) = Some 1798761600000%Z)
    by (vm_compute; reflexivity).
  rewrite Hexp in He, Hsome.
  split; [exact He|].
  split; [exact (proj1 (Hsome He))|].
  split; vm_compute; reflexivity.
Defined.

(** * Further properties of the calculators *)

(** ** Income tax: itemization, bounds and the effect of parts *)

Lemma pos_cases x : (x <= 0 /\ pos x == 0) \/ (0 < x /\ pos x == x).
Proof.
  unfold pos. destruct (Qlt_le_dec 0 x) as [H | H].
  - right. split; [exact H|]. apply Q.max_r. apply Qlt_le_weak. exact H.
  - left. split; [exact H|]. apply Q.max_l. exact H.
Qed.

Lemma pos_nonneg x : 0 <= pos x.
Proof. unfold pos. apply Q.le_max_l. Qed.

#[local] Instance pos_Proper : Proper (Qeq ==> Qeq) pos.
Proof. intros x y E. unfold pos. rewrite E. reflexivity. Qed.

#[local] Instance marginal_form_Proper : Proper (Qeq ==> Qeq) marginal_form.
Proof. intros x y E. unfold marginal_form. rewrite E. reflexivity. Qed.

(** The entries pushed by the loop are those of the brackets whose lower
    bound is below the taxable income, in the order of the table. *)
Lemma bracket_loop_items t brackets :
  ascending brackets ->
  forall state,
    fst (bracket_loop t brackets state)
    = (fst state
       ++ map (bracketItem t)
            (filter (fun b => Qltb (TaxBracket.min b) t) brackets))%list.
Proof.
  induction brackets as [|b rest IH]; intros Hasc [taxBrackets totalTax].
  - simpl. rewrite app_nil_r. reflexivity.
  - simpl bracket_loop.
    destruct (Qle_bool t (TaxBracket.min b)) eqn:E.
    + apply Qle_bool_iff in E.
      assert (Hnil : filter (fun b0 => Qltb (TaxBracket.min b0) t) (b :: rest)
                     = []).
      { inversion Hasc as [|? ? _ Hhd]; subst.
        assert (Hall : Forall (fun b0 => Qltb (TaxBracket.min b0) t = false)
                         (b :: rest)).
        { constructor.
          - apply Qltb_false_iff. exact E.
          - eapply Forall_impl; [|exact Hhd].
            intros b' Hb'. apply Qltb_false_iff.
            apply Qle_trans with (TaxBracket.min b); assumption. }
        clear - Hall. induction Hall as [|x l Hx _ IHl]; simpl.
        - reflexivity.
        - rewrite Hx. exact IHl. }
      rewrite Hnil. simpl. rewrite app_nil_r. reflexivity.
    + assert (Hrest : ascending rest) by (inversion Hasc; assumption).
      rewrite (IH Hrest). simpl fst. simpl filter.
      unfold Qltb at 2. rewrite E. simpl negb. cbv iota.
      simpl map. rewrite <- app_assoc. reflexivity.
Qed.

Lemma sum_amounts_items t brackets :
  sum_amounts (map (bracketItem t) brackets)
  = fold_right (fun b acc => spec_slice_tax t b + acc) 0 brackets.
Proof.
  unfold sum_amounts.
  induction brackets as [|b rest IH]; simpl.
  - reflexivity.
  - rewrite IH. reflexivity.
Qed.

Lemma calculateIncomeTax_fields revenue activityType parts :
  let r := calculateIncomeTax revenue activityType parts in
  let t := (revenue - revenue * MICRO_ABATTEMENT_RATES activityType) / parts in
  IncomeTaxData.abattement r = revenue * MICRO_ABATTEMENT_RATES activityType
  /\ IncomeTaxData.taxable_income r = t
  /\ IncomeTaxData.tax_brackets r
     = fst (bracket_loop t INCOME_TAX_BRACKETS_2024 ([], 0)).
Proof.
  cbv zeta. unfold calculateIncomeTax.
  destruct (bracket_loop _ INCOME_TAX_BRACKETS_2024 ([], 0)).
  repeat split.
Qed.

(** X1: the itemized list of [calculateIncomeTax] has one entry for each
    bracket whose lower bound is below the taxable income, zero-rate
    bracket included, in the order of the table; its amounts add up to the
    total tax divided by parts. *)
Theorem calculateIncomeTax_itemized :
  forall (revenue : Q) (activityType : ActivityType) (parts : Q),
    ~ parts == 0 ->
    let r := calculateIncomeTax revenue activityType parts in
    let t := IncomeTaxData.taxable_income r in
    IncomeTaxData.tax_brackets r
    = map (bracketItem t)
        (filter (fun b => Qltb (TaxBracket.min b) t) INCOME_TAX_BRACKETS_2024)
    /\ IncomeTaxData.total_tax r
       == sum_amounts (IncomeTaxData.tax_brackets r) * parts
    /\ (0 < t -> exists rest,
          IncomeTaxData.tax_brackets r
          = {| TaxBracketAmount.min := 0;
               TaxBracketAmount.max := Some 11294;
               TaxBracketAmount.rate := 0.00;
               TaxBracketAmount.amount := (Qmin t 11294 - 0) * 0.00 |} :: rest)
    /\ (t <= 0 -> IncomeTaxData.tax_brackets r = []).
Proof.
  intros revenue activityType parts _ r t.
  destruct (calculateIncomeTax_fields revenue activityType parts)
    as (_ & Ht & Hb).
  cbv zeta in Ht, Hb. fold r in Ht, Hb.
  assert (Hitems : IncomeTaxData.tax_brackets r
                   = map (bracketItem t)
                       (filter (fun b => Qltb (TaxBracket.min b) t)
                          INCOME_TAX_BRACKETS_2024)).
  { rewrite Hb.
    rewrite (bracket_loop_items _ _ INCOME_TAX_BRACKETS_2024_ascending).
    subst t. rewrite Ht. reflexivity. }
  split; [exact Hitems|]. split; [|split].
  - rewrite Hitems, sum_amounts_items.
    fold (spec_bracket_sum t INCOME_TAX_BRACKETS_2024).
    subst t. rewrite Ht. subst r. apply calculateIncomeTax_total_tax.
  - intros Hpos. rewrite Hitems.
    unfold INCOME_TAX_BRACKETS_2024. simpl filter.
    assert (E : Qltb 0 t = true) by (apply Qltb_true_iff; exact Hpos).
    rewrite E. simpl map. eexists. reflexivity.
  - intros Hle. rewrite Hitems.
    assert (Hnil : spec_bracket_sum t INCOME_TAX_BRACKETS_2024 = 0)
      by (apply spec_bracket_sum_nonpositive_income; exact Hle).
    unfold INCOME_TAX_BRACKETS_2024. simpl filter.
    assert (E : forall m, 0 <= m -> Qltb m t = false)
      by (intros m Hm; apply Qltb_false_iff; lra).
    rewrite !E by discriminate. reflexivity.
Qed.

(** [calculateIncomeTax(60000, 'commerce', 2)]: taxable income 21300 per
    part, two entries. *)
Lemma calculateIncomeTax_itemized_witness :
  let r := calculateIncomeTax 60000 commerce 2 in
  IncomeTaxData.taxable_income r == 21300
  /\ List.length (IncomeTaxData.tax_brackets r) = 2%nat
  /\ IncomeTaxData.total_tax r
     == sum_amounts (IncomeTaxData.tax_brackets r) * 2.
Proof.
  intros r.
  destruct (calculateIncomeTax_itemized 60000 commerce 2) as (Hi & Ht & _).
  - discriminate.
  - split; [reflexivity|]. split; [reflexivity | exact Ht].
Defined.

(** The tax of a bracket, entered or not, in terms of positive parts. *)
Lemma gated_slice_pos t (b : TaxBracket.t) :
  bracket_wf b ->
  (if Qltb (TaxBracket.min b) t then spec_slice_tax t b else 0)
  == TaxBracket.rate b
     * (pos (t - TaxBracket.min b)
        - match TaxBracket.max b with
          | Some m => pos (t - m)
          | None => 0
          end).
Proof.
  intros [_ Hmax]. unfold spec_slice_tax.
  destruct (Qltb (TaxBracket.min b) t) eqn:E.
  - apply Qltb_true_iff in E.
    destruct (pos_cases (t - TaxBracket.min b)) as [[H1 _] | [_ E1]]; [lra|].
    rewrite E1.
    destruct (TaxBracket.max b) as [m|]; simpl Math_min.
    + destruct (pos_cases (t - m)) as [[H2 E2] | [H2 E2]]; rewrite E2.
      * rewrite Q.min_l by lra. ring.
      * rewrite Q.min_r by lra. ring.
    + ring.
  - apply Qltb_false_iff in E.
    destruct (pos_cases (t - TaxBracket.min b)) as [[_ E1] | [H1 _]]; [|lra].
    rewrite E1.
    destruct (TaxBracket.max b) as [m|].
    + destruct (pos_cases (t - m)) as [[_ E2] | [H2 _]]; [|lra].
      rewrite E2. ring.
    + ring.
Qed.

(** The bracket walk over the 2024 table is the sum of the marginal-rate
    increments: the brackets are contiguous, so nothing is counted twice at
    a boundary. *)
Lemma spec_bracket_sum_marginal t :
  spec_bracket_sum t INCOME_TAX_BRACKETS_2024 == marginal_form t.
Proof.
  pose proof INCOME_TAX_BRACKETS_2024_wf as Hwf.
  unfold INCOME_TAX_BRACKETS_2024 in *.
  repeat match goal with
         | H : Forall _ (_ :: _) |- _ =>
             let Hb := fresh "Hb" in
             inversion H as [|? ? Hb ?]; subst; clear H;
             apply (gated_slice_pos t) in Hb; cbn [TaxBracket.min TaxBracket.max
                                                    TaxBracket.rate] in Hb
         end.
  unfold spec_bracket_sum. cbn [filter TaxBracket.min].
  unfold marginal_form.
  revert Hb Hb0 Hb1 Hb2 Hb3.
  destruct (Qltb 0 t); destruct (Qltb 11294 t); destruct (Qltb 28797 t);
    destruct (Qltb 82341 t); destruct (Qltb 177106 t);
    cbn [fold_right]; intros;
    unfold spec_slice_tax in *;
    cbn [TaxBracket.min TaxBracket.max TaxBracket.rate Math_min] in *;
    lra.
Qed.

Lemma calculateIncomeTax_marginal revenue activityType parts :
  IncomeTaxData.total_tax (calculateIncomeTax revenue activityType parts)
  == marginal_form
       ((revenue - revenue * MICRO_ABATTEMENT_RATES activityType) / parts)
     * parts.
Proof.
  rewrite calculateIncomeTax_total_tax, spec_bracket_sum_marginal.
  reflexivity.
Qed.

Lemma pos_le_pos x m : 0 <= m -> pos (x - m) <= pos x.
Proof.
  intros Hm.
  destruct (pos_cases (x - m)) as [[_ E] | [_ E]];
    destruct (pos_cases x) as [[H' E'] | [H' E']]; rewrite E, E'; lra.
Qed.

Lemma marginal_form_bounds t :
  0 <= marginal_form t /\ marginal_form t <= 0.45 * pos t.
Proof.
  unfold marginal_form.
  pose proof (pos_nonneg (t - 11294)). pose proof (pos_nonneg (t - 28797)).
  pose proof (pos_nonneg (t - 82341)). pose proof (pos_nonneg (t - 177106)).
  pose proof (pos_le_pos t 11294 ltac:(discriminate)).
  pose proof (pos_le_pos t 28797 ltac:(discriminate)).
  pose proof (pos_le_pos t 82341 ltac:(discriminate)).
  pose proof (pos_le_pos t 177106 ltac:(discriminate)).
  split; lra.
Qed.

(** Shrinking the income by a factor in [0, 1] shrinks each increment at
    least as much. *)
Lemma pos_scale l t m :
  0 <= l -> l <= 1 -> 0 <= m -> pos (l * t - m) <= l * pos (t - m).
Proof.
  intros Hl0 Hl1 Hm.
  destruct (pos_cases (l * t - m)) as [[H1 E1] | [H1 E1]];
    destruct (pos_cases (t - m)) as [[H2 E2] | [H2 E2]]; rewrite E1, E2.
  - lra.
  - nra.
  - nra.
  - nra.
Qed.

Lemma marginal_form_scale l t :
  0 <= l -> l <= 1 -> marginal_form (l * t) <= l * marginal_form t.
Proof.
  intros Hl0 Hl1. unfold marginal_form.
  pose proof (pos_scale l t 11294 Hl0 Hl1 ltac:(discriminate)).
  pose proof (pos_scale l t 28797 Hl0 Hl1 ltac:(discriminate)).
  pose proof (pos_scale l t 82341 Hl0 Hl1 ltac:(discriminate)).
  pose proof (pos_scale l t 177106 Hl0 Hl1 ltac:(discriminate)).
  lra.
Qed.

(** X2: for a positive number of parts, [calculateIncomeTax] gives no tax
    exactly when the taxable income per part is at most 11294, the end of
    the zero-rate bracket; above it the tax is positive. *)
Theorem calculateIncomeTax_zero_iff :
  forall (revenue : Q) (activityType : ActivityType) (parts : Q),
    0 < parts ->
    let r := calculateIncomeTax revenue activityType parts in
    (IncomeTaxData.total_tax r == 0
     <-> IncomeTaxData.taxable_income r <= 11294)
    /\ (11294 < IncomeTaxData.taxable_income r -> 0 < IncomeTaxData.total_tax r).
Proof.
  intros revenue activityType parts Hparts r.
  destruct (calculateIncomeTax_fields revenue activityType parts)
    as (_ & Ht & _).
  cbv zeta in Ht. fold r in Ht. rewrite Ht.
  subst r. rewrite calculateIncomeTax_marginal.
  set (t := (revenue - revenue * MICRO_ABATTEMENT_RATES activityType) / parts).
  clearbody t.
  assert (Hpos : 11294 < t -> 0 < marginal_form t).
  { intros Hlt. unfold marginal_form.
    pose proof (pos_nonneg (t - 28797)) as Hn2.
    pose proof (pos_nonneg (t - 82341)) as Hn3.
    pose proof (pos_nonneg (t - 177106)) as Hn4.
    destruct (pos_cases (t - 11294)) as [[H1 _] | [_ E1]]; [lra|].
    rewrite E1. lra. }
  assert (Hzero : t <= 11294 -> marginal_form t == 0).
  { intros Hle. unfold marginal_form.
    destruct (pos_cases (t - 11294)) as [[_ E1] | [H1 _]]; [|lra].
    destruct (pos_cases (t - 28797)) as [[_ E2] | [H2 _]]; [|lra].
    destruct (pos_cases (t - 82341)) as [[_ E3] | [H3 _]]; [|lra].
    destruct (pos_cases (t - 177106)) as [[_ E4] | [H4 _]]; [|lra].
    rewrite E1, E2, E3, E4. ring. }
  split; [split|].
  - intros H0. destruct (Qlt_le_dec 11294 t) as [Hlt | Hle]; [|exact Hle].
    specialize (Hpos Hlt). nra.
  - intros Hle. rewrite (Hzero Hle). ring.
  - intros Hlt. specialize (Hpos Hlt). nra.
Qed.

(** Revenue 22588 for services leaves exactly 11294 taxable: no tax. *)
Lemma calculateIncomeTax_zero_iff_witness :
  IncomeTaxData.total_tax (calculateIncomeTax 22588 services 1) == 0.
Proof.
  apply (proj1 (calculateIncomeTax_zero_iff 22588 services 1 eq_refl)).
  discriminate.
Defined.

(** X3: for a revenue >= 0 and a positive number of parts, the total tax of
    [calculateIncomeTax] is never negative and never above 45% of the
    revenue left after the abatement. *)
Theorem calculateIncomeTax_bounds :
  forall (revenue : Q) (activityType : ActivityType) (parts : Q),
    0 <= revenue ->
    0 < parts ->
    let r := calculateIncomeTax revenue activityType parts in
    0 <= IncomeTaxData.total_tax r
    /\ IncomeTaxData.total_tax r
       <= 0.45 * (revenue - IncomeTaxData.abattement r)
    /\ IncomeTaxData.total_tax r <= revenue.
Proof.
  intros revenue activityType parts Hrev Hparts r.
  destruct (calculateIncomeTax_fields revenue activityType parts)
    as (Ha & _ & _).
  cbv zeta in Ha. fold r in Ha. rewrite Ha.
  subst r. rewrite calculateIncomeTax_marginal.
  pose proof (abatement_keeps_a_share activityType) as Hshare.
  assert (Hrate : 0 <= MICRO_ABATTEMENT_RATES activityType)
    by (destruct activityType; discriminate).
  set (a := MICRO_ABATTEMENT_RATES activityType) in *. clearbody a.
  set (x := revenue - revenue * a).
  assert (Hx : 0 <= x) by (subst x; nra).
  assert (Hxr : x <= revenue) by (subst x; nra).
  clearbody x.
  assert (Ht : 0 <= x / parts).
  { unfold Qdiv. apply Qmult_le_0_compat; [exact Hx|].
    apply Qlt_le_weak. apply Qinv_lt_0_compat. exact Hparts. }
  assert (Hmul : x / parts * parts == x).
  { unfold Qdiv. rewrite <- Qmult_assoc, (Qmult_comm (/ parts)).
    rewrite Qmult_inv_r by lra. ring. }
  destruct (marginal_form_bounds (x / parts)) as [Hlo Hhi].
  destruct (pos_cases (x / parts)) as [[H1 E1] | [H1 E1]];
    rewrite E1 in Hhi.
  - assert (E0 : x == 0) by nra.
    split; [nra|]. split; nra.
  - split; [nra|]. split; nra.
Qed.

(** [calculateIncomeTax(300000, 'commerce', 2)]: 55787.44 of tax on 213000
    of taxable revenue. *)
Lemma calculateIncomeTax_bounds_witness :
  let r := calculateIncomeTax 300000 commerce 2 in
  IncomeTaxData.total_tax r == 55787.44
  /\ 0 <= IncomeTaxData.total_tax r
  /\ IncomeTaxData.total_tax r <= 0.45 * (300000 - IncomeTaxData.abattement r).
Proof.
  intros r.
  destruct (calculateIncomeTax_bounds 300000 commerce 2) as (H0 & H1 & _).
  - discriminate.
  - reflexivity.
  - split; [reflexivity|]. split; [exact H0 | exact H1].
Defined.

(** X4: the quotient familial never raises the tax: for a revenue >= 0,
    more parts give a total tax that is lower or equal. *)
Theorem calculateIncomeTax_parts_lower_tax :
  forall (revenue : Q) (activityType : ActivityType) (parts1 parts2 : Q),
    0 <= revenue ->
    0 < parts1 ->
    parts1 <= parts2 ->
    IncomeTaxData.total_tax (calculateIncomeTax revenue activityType parts2)
    <= IncomeTaxData.total_tax (calculateIncomeTax revenue activityType parts1).
Proof.
  intros revenue activityType parts1 parts2 Hrev Hp1 Hp12.
  rewrite !calculateIncomeTax_marginal.
  pose proof (abatement_keeps_a_share activityType) as Hshare.
  set (a := MICRO_ABATTEMENT_RATES activityType) in *. clearbody a.
  set (x := revenue - revenue * a). clearbody x.
  assert (Hp2 : 0 < parts2) by lra.
  set (l := parts1 / parts2).
  assert (Hl : 0 <= l /\ l <= 1).
  { subst l. unfold Qdiv.
    assert (0 < / parts2) by (apply Qinv_lt_0_compat; exact Hp2).
    assert (parts2 * / parts2 == 1) by (apply Qmult_inv_r; lra).
    split; nra. }
  assert (E : x / parts2 == l * (x / parts1)).
  { subst l. field. split; lra. }
  rewrite E.
  pose proof (marginal_form_scale l (x / parts1) (proj1 Hl) (proj2 Hl)) as Hs.
  assert (El : l * parts2 == parts1).
  { subst l. field. lra. }
  nra.
Qed.

(** A revenue of 60000 for services: 2286.23 with one part, 815.32 with
    two. *)
Lemma calculateIncomeTax_parts_lower_tax_witness :
  IncomeTaxData.total_tax (calculateIncomeTax 60000 services 2)
  <= IncomeTaxData.total_tax (calculateIncomeTax 60000 services 1).
Proof.
  apply (calculateIncomeTax_parts_lower_tax 60000 services 1 2).
  - discriminate.
  - reflexivity.
  - discriminate.
Defined.

(** ** CFE: range of the tax and the step at 32600 *)

Lemma calculateCFE_exempt revenue activityType commune surfaceM2 :
  revenue < CFE_THRESHOLDS.exemption_revenue ->
  let r := calculateCFE revenue activityType commune surfaceM2 in
  CFEData.is_exempt r = true
  /\ CFEData.base_amount r = 0
  /\ CFEData.tax_rate r = 0
  /\ CFEData.total_cfe r = 0.
Proof.
  intros Hrev r. subst r. unfold calculateCFE.
  assert (E : Qle_bool CFE_THRESHOLDS.exemption_revenue revenue = false).
  { destruct (Qle_bool CFE_THRESHOLDS.exemption_revenue revenue) eqn:E;
      [|reflexivity].
    apply Qle_bool_iff in E. exfalso. exact (Qlt_not_le _ _ Hrev E). }
  rewrite E. cbn [negb]. repeat split.
Qed.

Lemma truthy_nonzero x : truthy x = true -> ~ number_of x == 0.
Proof.
  destruct x as [v|]; simpl; [|discriminate].
  intros H E. apply Qeq_bool_iff in E. rewrite E in H. discriminate.
Qed.

(** X5: for a surface that is absent or not negative, the CFE computed by
    [calculateCFE] lies between 0 and 1750 (a quarter of the maximum base),
    and it is 0 exactly when the revenue is below the 5000 exemption
    threshold, which is exactly when the result is marked exempt. *)
Theorem calculateCFE_total_range :
  forall (revenue : Q) (activityType : ActivityType) (commune : string)
         (surfaceM2 : option Q),
    0 <= number_of surfaceM2 ->
    let r := calculateCFE revenue activityType commune surfaceM2 in
    0 <= CFEData.total_cfe r
    /\ CFEData.total_cfe r <= 1750
    /\ (CFEData.total_cfe r == 0 <-> revenue < 5000)
    /\ (CFEData.is_exempt r = true <-> revenue < 5000).
Proof.
  intros revenue activityType commune surfaceM2 Hs r.
  destruct (Qlt_le_dec revenue CFE_THRESHOLDS.exemption_revenue)
    as [Hlt | Hge].
  - destruct (calculateCFE_exempt revenue activityType commune surfaceM2 Hlt)
      as (He & _ & _ & Ht).
    cbv zeta in He, Ht. fold r in He, Ht. rewrite He, Ht.
    unfold CFE_THRESHOLDS.exemption_revenue in Hlt.
    split; [discriminate|]. split; [discriminate|].
    split; split; intros _; (reflexivity || exact Hlt).
  - destruct (calculateCFE_base revenue activityType commune surfaceM2 Hge)
      as (He & Hb & Hmax & Hrate & Ht).
    cbv zeta in He, Hb, Hmax, Hrate, Ht. fold r in He, Hb, Hmax, Hrate, Ht.
    unfold CFE_THRESHOLDS.exemption_revenue in Hge.
    unfold CFE_THRESHOLDS.maximum_base in Hmax.
    assert (Hpos : 0 < CFEData.base_amount r).
    { rewrite Hb.
      unfold CFE_THRESHOLDS.maximum_base, CFE_THRESHOLDS.minimum_base.
      destruct (truthy surfaceM2) eqn:Etr.
      - apply truthy_nonzero in Etr.
        apply Q.min_glb_lt; [|reflexivity].
        assert (0 < number_of surfaceM2).
        { destruct (Qlt_le_dec 0 (number_of surfaceM2)) as [H|H];
            [exact H|].
          exfalso. apply Etr. apply Qle_antisym; assumption. }
        lra.
      - destruct (Qgtb revenue 32600) eqn:Eg.
        + apply Qgtb_true_iff in Eg.
          apply Q.min_glb_lt; [lra | reflexivity].
        + reflexivity. }
    rewrite Ht, Hrate, He.
    split; [lra|]. split; [lra|].
    split; split; intros H; try discriminate; try lra.
Qed.

(** [calculateCFE(40000, 'services', 'Paris', 100)]: base 1600, CFE 400. *)
Lemma calculateCFE_total_range_witness :
  let r := calculateCFE 40000 services "Paris" (Some 100) in
  CFEData.total_cfe r == 400
  /\ 0 <= CFEData.total_cfe r
  /\ CFEData.total_cfe r <= 1750.
Proof.
  intros r.
  destruct (calculateCFE_total_range 40000 services "Paris" (Some 100))
    as (H0 & H1 & _).
  - discriminate.
  - split; [reflexivity|]. split; [exact H0 | exact H1].
Defined.

(** X6: without a surface the CFE is not monotone in the revenue: every
    revenue strictly between 32600 and 45400 pays less than any non-exempt
    revenue up to 32600, which pays 56.75. *)
Theorem calculateCFE_step_down :
  forall (revenue1 revenue2 : Q) (activityType : ActivityType)
         (commune : string),
    5000 <= revenue1 ->
    revenue1 <= 32600 ->
    32600 < revenue2 ->
    revenue2 < 45400 ->
    CFEData.total_cfe (calculateCFE revenue1 activityType commune None)
    == 56.75
    /\ CFEData.total_cfe (calculateCFE revenue2 activityType commune None)
       == revenue2 * 0.00125
    /\ CFEData.total_cfe (calculateCFE revenue2 activityType commune None)
       < CFEData.total_cfe (calculateCFE revenue1 activityType commune None).
Proof.
  intros revenue1 revenue2 activityType commune H1lo H1hi H2lo H2hi.
  destruct (calculateCFE_base revenue1 activityType commune None)
    as (_ & Hb1 & _ & Hr1 & Ht1);
    [unfold CFE_THRESHOLDS.exemption_revenue; lra|].
  destruct (calculateCFE_base revenue2 activityType commune None)
    as (_ & Hb2 & _ & Hr2 & Ht2);
    [unfold CFE_THRESHOLDS.exemption_revenue; lra|].
  cbv zeta in *. cbn [truthy] in Hb1, Hb2.
  apply Qgtb_false_iff in H1hi. rewrite H1hi in Hb1.
  pose proof H2lo as Hg. apply Qgtb_true_iff in Hg. rewrite Hg in Hb2.
  rewrite Ht1, Hr1, Hb1, Ht2, Hr2, Hb2.
  unfold CFE_THRESHOLDS.minimum_base, CFE_THRESHOLDS.maximum_base.
  rewrite Q.min_l by lra.
  split; [reflexivity|]. split; [ring | lra].
Qed.

(** Revenues 30000 and 40000: a CFE of 56.75, then 50. *)
Lemma calculateCFE_step_down_witness :
  CFEData.total_cfe (calculateCFE 40000 services "Paris" None)
  < CFEData.total_cfe (calculateCFE 30000 services "Paris" None).
Proof.
  apply (calculateCFE_step_down 30000 40000 services "Paris");
    (discriminate || reflexivity).
Defined.

(** ** ACRE: order of the reductions and the eligibility window *)

Lemma calculateContributionsWithACRE_within env revenue activityType acreYear :
  revenue <= FRANCHISE_THRESHOLDS_2024 activityType ->
  In acreYear [1; 2; 3]%Z ->
  exists acre,
    calculateContributionsWithACRE env revenue activityType acreYear = Ok acre
    /\ total (SocialContributionCalculation.contributions acre)
       == revenue * total (SOCIAL_CONTRIBUTION_RATES_2024 activityType)
          * (1 - spec_reductionFactor acreYear)
    /\ SocialContributionCalculation.net_revenue acre
       == revenue - total (SocialContributionCalculation.contributions acre).
Proof.
  intros Hle Hyear.
  destruct (calculateSocialContributions_within env revenue activityType
              None Hle) as (std & Hstd & _ & _ & _ & Hc & _).
  unfold calculateContributionsWithACRE. rewrite Hstd. cbn [bind].
  eexists. split; [reflexivity|].
  cbn [SocialContributionCalculation.contributions
       SocialContributionCalculation.net_revenue total].
  rewrite Hc. cbn [contributionsOf total].
  assert (Hk : (match acreYear with
                | 1%Z => 0.75 | 2%Z => 0.50 | 3%Z => 0.25 | _ => 0
                end) = spec_reductionFactor acreYear).
  { simpl in Hyear.
    destruct Hyear as [<- | [<- | [<- | []]]]; reflexivity. }
  rewrite Hk. split; reflexivity.
Qed.

(** X7: for a revenue between 0 and the franchise threshold, the ACRE
    totals are ordered year 1 <= year 2 <= year 3 <= standard total, and
    the net revenues the other way round: ACRE never raises the
    contributions, and the reduction fades with the years. *)
Theorem calculateContributionsWithACRE_ordered :
  forall (env : Env) (revenue : Q) (activityType : ActivityType),
    0 <= revenue ->
    revenue <= FRANCHISE_THRESHOLDS_2024 activityType ->
    exists std a1 a2 a3,
      calculateSocialContributions env revenue activityType None = Ok std
      /\ calculateContributionsWithACRE env revenue activityType 1 = Ok a1
      /\ calculateContributionsWithACRE env revenue activityType 2 = Ok a2
      /\ calculateContributionsWithACRE env revenue activityType 3 = Ok a3
      /\ 0 <= total (SocialContributionCalculation.contributions a1)
      /\ total (SocialContributionCalculation.contributions a1)
         <= total (SocialContributionCalculation.contributions a2)
      /\ total (SocialContributionCalculation.contributions a2)
         <= total (SocialContributionCalculation.contributions a3)
      /\ total (SocialContributionCalculation.contributions a3)
         <= total (SocialContributionCalculation.contributions std)
      /\ SocialContributionCalculation.net_revenue std
         <= SocialContributionCalculation.net_revenue a3
      /\ SocialContributionCalculation.net_revenue a3
         <= SocialContributionCalculation.net_revenue a2
      /\ SocialContributionCalculation.net_revenue a2
         <= SocialContributionCalculation.net_revenue a1
      /\ SocialContributionCalculation.net_revenue a1 <= revenue.
Proof.
  intros env revenue activityType Hrev Hle.
  destruct (calculateSocialContributions_within env revenue activityType
              None Hle) as (std & Hstd & _ & _ & _ & Hc & Hn).
  destruct (calculateContributionsWithACRE_within env revenue activityType 1
              Hle ltac:(simpl; tauto)) as (a1 & Ha1 & Ht1 & Hn1).
  destruct (calculateContributionsWithACRE_within env revenue activityType 2
              Hle ltac:(simpl; tauto)) as (a2 & Ha2 & Ht2 & Hn2).
  destruct (calculateContributionsWithACRE_within env revenue activityType 3
              Hle ltac:(simpl; tauto)) as (a3 & Ha3 & Ht3 & Hn3).
  exists std, a1, a2, a3.
  repeat (split; [assumption|]).
  rewrite Hn1, Hn2, Hn3, Hn, Ht1, Ht2, Ht3, Hc. cbn [contributionsOf total].
  change (spec_reductionFactor 1) with 0.75.
  change (spec_reductionFactor 2) with 0.50.
  change (spec_reductionFactor 3) with 0.25.
  assert (Hrate : 0 <= total (SOCIAL_CONTRIBUTION_RATES_2024 activityType))
    by (destruct activityType; discriminate).
  set (k := total (SOCIAL_CONTRIBUTION_RATES_2024 activityType)) in *.
  clearbody k.
  assert (0 <= revenue * k) by (apply Qmult_le_0_compat; assumption).
  repeat split; lra.
Qed.

(** A revenue of 30000 for services: 1657.5, 3315, 4972.5 and 6630. *)
Lemma calculateContributionsWithACRE_ordered_witness :
  exists std a1 a2 a3,
    calculateSocialContributions env_utc_2024 30000 services None = Ok std
    /\ calculateContributionsWithACRE env_utc_2024 30000 services 1 = Ok a1
    /\ calculateContributionsWithACRE env_utc_2024 30000 services 2 = Ok a2
    /\ calculateContributionsWithACRE env_utc_2024 30000 services 3 = Ok a3
    /\ total (SocialContributionCalculation.contributions a1)
       <= total (SocialContributionCalculation.contributions a2)
    /\ total (SocialContributionCalculation.contributions a2)
       <= total (SocialContributionCalculation.contributions a3)
    /\ total (SocialContributionCalculation.contributions a3)
       <= total (SocialContributionCalculation.contributions std).
Proof.
  destruct (calculateContributionsWithACRE_ordered env_utc_2024 30000 services)
    as (std & a1 & a2 & a3 & H0 & H1 & H2 & H3 & _ & H12 & H23 & H3s & _).
  - discriminate.
  - discriminate.
  - exists std, a1, a2, a3. repeat (split; [assumption|]). assumption.
Defined.

Lemma checkACREEligibility_eligible env creationDate hasReceivedACRE :
  ACREEligibility.eligible
    (checkACREEligibility env creationDate hasReceivedACRE)
  = negb hasReceivedACRE
    && JsDate.leb (Some (now env))
         (threeYearsAfter (LocalTZA env) creationDate).
Proof.
  rewrite checkACREEligibility_equation. cbv zeta.
  destruct (negb hasReceivedACRE
            && JsDate.leb (Some (now env))
                 (threeYearsAfter (LocalTZA env) creationDate));
    reflexivity.
Qed.

(** X8: the eligibility window of [checkACREEligibility] is closed on the
    right and only ever closes: a business that has not received ACRE and
    is eligible at some instant is eligible at every earlier instant; it is
    still eligible at the very instant "creation + 3 years" and no longer
    one millisecond later; one that has received ACRE is never eligible. *)
Theorem checkACREEligibility_window :
  forall (tza : Z) (creationDate : JsDate.Date),
    (forall t1 t2 : Z,
        (t1 <= t2)%Z ->
        ACREEligibility.eligible
          (checkACREEligibility {| now := t2; LocalTZA := tza |}
             creationDate false) = true ->
        ACREEligibility.eligible
          (checkACREEligibility {| now := t1; LocalTZA := tza |}
             creationDate false) = true)
    /\ (forall expiry : Z,
           threeYearsAfter tza creationDate = Some expiry ->
           ACREEligibility.eligible
             (checkACREEligibility {| now := expiry; LocalTZA := tza |}
                creationDate false) = true
           /\ ACREEligibility.eligible
                (checkACREEligibility
                   {| now := (expiry + 1)%Z; LocalTZA := tza |}
                   creationDate false) = false)
    /\ (forall t : Z,
           ACREEligibility.eligible
             (checkACREEligibility {| now := t; LocalTZA := tza |}
                creationDate true) = false).
Proof.
  intros tza creationDate.
  assert (Hel : forall t h,
             ACREEligibility.eligible
               (checkACREEligibility {| now := t; LocalTZA := tza |}
                  creationDate h)
             = negb h
               && JsDate.leb (Some t) (threeYearsAfter tza creationDate)).
  { intros t h.
    exact (checkACREEligibility_eligible
             {| now := t; LocalTZA := tza |} creationDate h). }
  split; [|split].
  - intros t1 t2 H12. rewrite !Hel. cbn [negb andb].
    destruct (threeYearsAfter tza creationDate) as [e|]; cbn [JsDate.leb];
      [|discriminate].
    intros H. apply Z.leb_le in H. apply Z.leb_le. lia.
  - intros expiry He. rewrite !Hel, He. cbn [negb andb JsDate.leb].
    split; [apply Z.leb_le; lia | apply Z.leb_gt; lia].
  - intros t. rewrite Hel. reflexivity.
Qed.

(** A business created on 1 January 2024 at 00:00 UTC is eligible at
    1 January 2027, 00:00:00.000, and not at 00:00:00.001. *)
Lemma checkACREEligibility_window_witness :
  ACREEligibility.eligible
    (checkACREEligibility {| now := 1798761600000; LocalTZA := 0 |}
       (Some 1704067200000%Z) false) = true
  /\ ACREEligibility.eligible
       (checkACREEligibility {| now := 1798761600001; LocalTZA := 0 |}
          (Some 1704067200000%Z) false) = false.
Proof.
  apply (proj1 (proj2 (checkACREEligibility_window 0
                         (Some 1704067200000%Z))) 1798761600000%Z).
  vm_compute. reflexivity.
Defined.

(** X9: the reduced rates that [checkACREEligibility] returns to an
    eligible business are half the standard rates of services, whatever
    the date: applied to a revenue within the services threshold they give
    the amounts of [calculateContributionsWithACRE] for the second ACRE
    year, not those of the first. *)
Theorem checkACREEligibility_reducedRates :
  forall (env : Env) (creationDate : JsDate.Date) (revenue : Q),
    ACREEligibility.eligible (checkACREEligibility env creationDate false)
    = true ->
    revenue <= FRANCHISE_THRESHOLDS_2024 services ->
    exists reducedRates acre2,
      ACREEligibility.reducedRates
        (checkACREEligibility env creationDate false) = Some reducedRates
      /\ calculateContributionsWithACRE env revenue services 2 = Ok acre2
      /\ (let c := SocialContributionCalculation.contributions acre2 in
          let d := contributionsOf revenue reducedRates in
          maladie d == maladie c
          /\ retraite_base d == retraite_base c
          /\ retraite_complementaire d == retraite_complementaire c
          /\ invalidite_deces d == invalidite_deces c
          /\ csg_crds d == csg_crds c
          /\ formation_professionnelle d == formation_professionnelle c
          /\ total d == total c).
Proof.
  intros env creationDate revenue Hel Hle.
  rewrite checkACREEligibility_equation in Hel |- *. cbv zeta in Hel |- *.
  destruct (negb false && JsDate.leb (Some (now env))
              (threeYearsAfter (LocalTZA env) creationDate));
    [|discriminate Hel].
  cbn [ACREEligibility.reducedRates].
  destruct (calculateSocialContributions_within env revenue services None Hle)
    as (std & Hstd & _ & _ & _ & Hc & _).
  unfold calculateContributionsWithACRE. rewrite Hstd. cbn [bind].
  eexists. eexists. split; [reflexivity|]. split; [reflexivity|].
  cbn [SocialContributionCalculation.contributions]. rewrite Hc.
  cbv zeta.
  cbn [contributionsOf SOCIAL_CONTRIBUTION_RATES_2024 maladie retraite_base
       retraite_complementaire invalidite_deces csg_crds
       formation_professionnelle total].
  repeat split; ring.
Qed.

(** A business created on 1 January 2024, a revenue of 30000: a total of
    3315 either way. *)
Lemma checkACREEligibility_reducedRates_witness :
  exists reducedRates acre2,
    ACREEligibility.reducedRates
      (checkACREEligibility env_utc_2024 (Some 1704067200000%Z) false)
    = Some reducedRates
    /\ calculateContributionsWithACRE env_utc_2024 30000 services 2 = Ok acre2
    /\ total (contributionsOf 30000 reducedRates)
       == total (SocialContributionCalculation.contributions acre2).
Proof.
  destruct (checkACREEligibility_reducedRates env_utc_2024
              (Some 1704067200000%Z) 30000)
    as (rr & a2 & Hrr & Ha2 & Hfields).
  - vm_compute. reflexivity.
  - discriminate.
  - exists rr, a2. split; [exact Hrr|]. split; [exact Ha2|].
    cbv zeta in Hfields. exact (proj2 (proj2 (proj2 (proj2 (proj2 (proj2 Hfields)))))).
Defined.

(** ** Social contributions: period label, simulation, breakdown *)

Lemma currentMonth_range env : (0 <= currentMonth env <= 11)%Z.
Proof.
  unfold currentMonth.
  exact (proj1 (fields_valid (JsDate.LocalTime (LocalTZA env) (now env)))).
Qed.

Lemma Math_ceil_third m :
  (0 <= m <= 11)%Z ->
  Math_ceil (inject_Z (m + 1) / 3) = (m / 3 + 1)%Z.
Proof.
  intros Hm.
  assert (m = 0 \/ m = 1 \/ m = 2 \/ m = 3 \/ m = 4 \/ m = 5 \/ m = 6
          \/ m = 7 \/ m = 8 \/ m = 9 \/ m = 10 \/ m = 11)%Z as Hc by lia.
  repeat (destruct Hc as [Hc | Hc]); subst m; reflexivity.
Qed.

(** X10: the [quarter] label of a result of [calculateSocialContributions]
    is the quarter of the clock at the time of the call, one of T1, T2, T3,
    T4, whatever the [year] argument; without a [year] argument the year is
    the current local year. *)
Theorem calculateSocialContributions_period_label :
  forall (env : Env) (revenue : Q) (activityType : ActivityType)
         (year : option Z),
    revenue <= FRANCHISE_THRESHOLDS_2024 activityType ->
    exists r,
      calculateSocialContributions env revenue activityType year = Ok r
      /\ SocialContributionCalculation.quarter r
         = ("T" ++ Z_toString (currentMonth env / 3 + 1))%string
      /\ In (SocialContributionCalculation.quarter r)
           ["T1"; "T2"; "T3"; "T4"]%string
      /\ SocialContributionCalculation.year r
         = match year with
           | Some y => y
           | None => currentFullYear env
           end.
Proof.
  intros env revenue activityType year Hle.
  unfold calculateSocialContributions.
  apply Qgtb_false_iff in Hle. rewrite Hle.
  eexists. split; [reflexivity|].
  cbn [SocialContributionCalculation.quarter SocialContributionCalculation.year].
  pose proof (currentMonth_range env) as Hm.
  rewrite (Math_ceil_third _ Hm).
  split; [reflexivity|]. split; [|reflexivity].
  set (m := currentMonth env) in *. clearbody m.
  assert (m = 0 \/ m = 1 \/ m = 2 \/ m = 3 \/ m = 4 \/ m = 5 \/ m = 6
          \/ m = 7 \/ m = 8 \/ m = 9 \/ m = 10 \/ m = 11)%Z as Hc by lia.
  repeat (destruct Hc as [Hc | Hc]); subst m; vm_compute; tauto.
Qed.

(** A call on 1 January 2024 for the year 2023: the label is T1. *)
Lemma calculateSocialContributions_period_label_witness :
  exists r,
    calculateSocialContributions env_utc_2024 30000 services (Some 2023%Z)
    = Ok r
    /\ SocialContributionCalculation.quarter r = "T1"%string
    /\ SocialContributionCalculation.year r = 2023%Z.
Proof.
  destruct (calculateSocialContributions_period_label env_utc_2024 30000
              services (Some 2023%Z)) as (r & Hr & Hq & _ & Hy).
  - discriminate.
  - exists r. split; [exact Hr|]. split; [|exact Hy].
    rewrite Hq. vm_compute. reflexivity.
Defined.

(** *** [simulateContributions] *)

Lemma mapM_Ok_length {A B : Type} (f : A -> result B) l ys :
  mapM f l = Ok ys -> List.length ys = List.length l.
Proof.
  revert ys. induction l as [|x rest IH]; intros ys H; simpl in H.
  - injection H as <-. reflexivity.
  - destruct (f x) as [y|e]; simpl in H; [|discriminate].
    destruct (mapM f rest) as [ys'|e]; simpl in H; [|discriminate].
    injection H as <-. simpl. rewrite (IH ys' eq_refl). reflexivity.
Qed.

(** The entry [simulateContributions] computes for one revenue. *)
Lemma simulation_entry env revenue activityType :
  let f := fun revenue =>
             calculation <- calculateSocialContributions env revenue
                              activityType None ;;
             Ok {| SimulationEntry.revenue := revenue;
                   SimulationEntry.contributions :=
                     total (SocialContributionCalculation.contributions
                              calculation);
                   SimulationEntry.net :=
                     SocialContributionCalculation.net_revenue calculation;
                   SimulationEntry.rate :=
                     (total (SocialContributionCalculation.contributions
                               calculation) / revenue) * 100 |} in
  (revenue <= FRANCHISE_THRESHOLDS_2024 activityType ->
   f revenue = Ok (simulationEntryOf revenue activityType))
  /\ (FRANCHISE_THRESHOLDS_2024 activityType < revenue ->
      f revenue
      = Err (FranchiseExceeded (FRANCHISE_THRESHOLDS_2024 activityType)
               activityType)).
Proof.
  cbv zeta. split; intros H.
  - unfold calculateSocialContributions.
    apply Qgtb_false_iff in H. rewrite H. reflexivity.
  - rewrite (calculateSocialContributions_exceeded _ _ _ _ H). reflexivity.
Qed.

Lemma simulateContributions_cases env revenues activityType :
  (Forall (fun revenue => revenue <= FRANCHISE_THRESHOLDS_2024 activityType)
     revenues
   /\ simulateContributions env revenues activityType
      = Ok (map (fun revenue => simulationEntryOf revenue activityType)
              revenues))
  \/ (Exists (fun revenue => FRANCHISE_THRESHOLDS_2024 activityType < revenue)
        revenues
      /\ simulateContributions env revenues activityType
         = Err (FranchiseExceeded (FRANCHISE_THRESHOLDS_2024 activityType)
                  activityType)).
Proof.
  unfold simulateContributions.
  induction revenues as [|revenue rest IH].
  - left. split; [constructor | reflexivity].
  - cbn [mapM].
    destruct (simulation_entry env revenue activityType) as [Hok Herr].
    cbv zeta in Hok, Herr.
    destruct (Qlt_le_dec (FRANCHISE_THRESHOLDS_2024 activityType) revenue)
      as [Hgt | Hle].
    + right. split; [constructor; exact Hgt|].
      rewrite (Herr Hgt). reflexivity.
    + rewrite (Hok Hle). cbn [bind].
      destruct IH as [[Hall ->] | [Hex ->]].
      * left. split; [constructor; assumption | reflexivity].
      * right. split; [apply Exists_cons_tl; exact Hex | reflexivity].
Qed.

(** X11: [simulateContributions] is all or nothing: it returns one entry
    per revenue when every revenue is at or below the franchise threshold
    of the activity type, and raises the franchise error, returning no
    entry at all, as soon as one revenue of the list exceeds it. *)
Theorem simulateContributions_all_or_nothing :
  forall (env : Env) (revenues : list Q) (activityType : ActivityType),
    let threshold := FRANCHISE_THRESHOLDS_2024 activityType in
    (Forall (fun revenue => revenue <= threshold) revenues ->
     exists entries,
       simulateContributions env revenues activityType = Ok entries
       /\ List.length entries = List.length revenues
       /\ map SimulationEntry.revenue entries = revenues)
    /\ (Exists (fun revenue => threshold < revenue) revenues ->
        simulateContributions env revenues activityType
        = Err (FranchiseExceeded threshold activityType)).
Proof.
  intros env revenues activityType threshold. subst threshold.
  destruct (simulateContributions_cases env revenues activityType)
    as [[Hall Hok] | [Hex Herr]].
  - split.
    + intros _. eexists. split; [exact Hok|].
      rewrite length_map. split; [reflexivity|].
      rewrite map_map. cbn [simulationEntryOf SimulationEntry.revenue].
      apply map_id.
    + intros Hex. exfalso.
      apply Exists_exists in Hex. destruct Hex as (x & Hin & Hx).
      rewrite Forall_forall in Hall. specialize (Hall x Hin).
      exact (Qlt_not_le _ _ Hx Hall).
  - split.
    + intros Hall. exfalso.
      apply Exists_exists in Hex. destruct Hex as (x & Hin & Hx).
      rewrite Forall_forall in Hall. specialize (Hall x Hin).
      exact (Qlt_not_le _ _ Hx Hall).
    + intros _. exact Herr.
Qed.

(** For services, 10000 and 20000 simulate; adding 80000 loses
    everything. *)
Lemma simulateContributions_all_or_nothing_witness :
  (exists entries,
      simulateContributions env_utc_2024 [10000; 20000] services = Ok entries
      /\ List.length entries = 2%nat
      /\ map SimulationEntry.revenue entries = [10000; 20000])
  /\ simulateContributions env_utc_2024 [10000; 80000; 20000] services
     = Err (FranchiseExceeded 77700 services).
Proof.
  split.
  - apply (proj1 (simulateContributions_all_or_nothing env_utc_2024
                    [10000; 20000] services)).
    repeat constructor; discriminate.
  - apply (proj2 (simulateContributions_all_or_nothing env_utc_2024
                    [10000; 80000; 20000] services)).
    apply Exists_cons_tl. apply Exists_cons_hd. reflexivity.
Defined.

(** X12: in a successful simulation every entry has contributions =
    revenue x total rate of the activity type and net = revenue -
    contributions, and for a revenue other than 0 its [rate] is the same
    percentage for all entries: 100 x the total rate (22.1 for services and
    liberal, 12.86 for commerce). *)
Theorem simulateContributions_entries :
  forall (env : Env) (revenues : list Q) (activityType : ActivityType)
         (entries : list SimulationEntry.t),
    simulateContributions env revenues activityType = Ok entries ->
    let k := total (SOCIAL_CONTRIBUTION_RATES_2024 activityType) in
    Forall (fun e =>
              SimulationEntry.contributions e == SimulationEntry.revenue e * k
              /\ SimulationEntry.net e
                 == SimulationEntry.revenue e - SimulationEntry.contributions e
              /\ (~ SimulationEntry.revenue e == 0 ->
                  SimulationEntry.rate e == k * 100))
           entries
    /\ k * 100 == match activityType with
                  | commerce => 12.86
                  | services | liberal => 22.1
                  end.
Proof.
  intros env revenues activityType entries Hsim k.
  split; [|subst k; destruct activityType; reflexivity].
  destruct (simulateContributions_cases env revenues activityType)
    as [[_ Hok] | [_ Herr]]; [|congruence].
  rewrite Hok in Hsim. injection Hsim as <-.
  apply Forall_forall. intros e Hin.
  apply in_map_iff in Hin. destruct Hin as (revenue & <- & _).
  cbn [simulationEntryOf SimulationEntry.contributions SimulationEntry.net
       SimulationEntry.revenue SimulationEntry.rate].
  fold k. split; [reflexivity|]. split; [reflexivity|].
  intros Hnz. field. exact Hnz.
Qed.

(** The entries for 10000 and 20000 of commerce: 1286 and 2572, both at
    12.86%. *)
Lemma simulateContributions_entries_witness :
  exists e1 e2,
    simulateContributions env_utc_2024 [10000; 20000] commerce = Ok [e1; e2]
    /\ SimulationEntry.contributions e1 == 1286
    /\ SimulationEntry.contributions e2 == 2572
    /\ SimulationEntry.rate e1 == 12.86
    /\ SimulationEntry.rate e2 == 12.86.
Proof.
  destruct (simulateContributions_cases env_utc_2024 [10000; 20000] commerce)
    as [[_ Hok] | [Hex _]].
  - cbn [map] in Hok.
    exists (simulationEntryOf 10000 commerce), (simulationEntryOf 20000 commerce).
    split; [exact Hok|].
    destruct (simulateContributions_entries env_utc_2024 [10000; 20000]
                commerce _ Hok) as [Hall _].
    inversion Hall as [|? ? (Hc1 & _ & Hr1) Hall']; subst.
    inversion Hall' as [|? ? (Hc2 & _ & Hr2) _]; subst.
    split; [rewrite Hc1; reflexivity|].
    split; [rewrite Hc2; reflexivity|].
    split; [rewrite Hr1; [reflexivity | discriminate]|].
    rewrite Hr2; [reflexivity | discriminate].
  - exfalso. inversion Hex as [? ? H | ? ? Hex']; subst; [discriminate H|].
    inversion Hex' as [? ? H | ? ? Hex'']; subst; [discriminate H|].
    inversion Hex''.
Defined.

(** *** [getContributionBreakdown] *)

(** X13: the six amounts of [getContributionBreakdown] are, in order, the
    six components that [calculateSocialContributions] returns for the same
    revenue and activity type, and the six rates are the table's in
    percent; the breakdown has no franchise check, so it is also produced
    for a revenue that the calculator refuses. *)
Theorem getContributionBreakdown_matches_calculator :
  forall (env : Env) (revenue : Q) (activityType : ActivityType)
         (year : option Z),
    let items := getContributionBreakdown revenue activityType in
    let rates := SOCIAL_CONTRIBUTION_RATES_2024 activityType in
    map BreakdownItem.amount items = components (contributionsOf revenue rates)
    /\ map BreakdownItem.rate items = map (fun x => x * 100) (components rates)
    /\ (forall r,
           calculateSocialContributions env revenue activityType year = Ok r ->
           map BreakdownItem.amount items
           = components (SocialContributionCalculation.contributions r)
           /\ Qsum (map BreakdownItem.amount items)
              == sum_of_components
                   (SocialContributionCalculation.contributions r))
    /\ (FRANCHISE_THRESHOLDS_2024 activityType < revenue ->
        (forall r,
            calculateSocialContributions env revenue activityType year
            <> Ok r)
        /\ List.length items = 6%nat).
Proof.
  intros env revenue activityType year items rates.
  split; [reflexivity|]. split; [reflexivity|]. split.
  - intros r Hr.
    destruct (Qlt_le_dec (FRANCHISE_THRESHOLDS_2024 activityType) revenue)
      as [Hgt | Hle].
    + rewrite (calculateSocialContributions_exceeded _ _ _ _ Hgt) in Hr.
      discriminate.
    + destruct (calculateSocialContributions_within env revenue activityType
                  year Hle) as (r' & Hr' & _ & _ & _ & Hc & _).
      assert (r' = r) by congruence. subst r'. rewrite Hc.
      split; [reflexivity|].
      subst items. unfold Qsum, sum_of_components, getContributionBreakdown.
      cbn [map fold_right BreakdownItem.amount contributionsOf maladie
           retraite_base retraite_complementaire invalidite_deces csg_crds
           formation_professionnelle].
      ring.
  - intros Hgt. split; [|reflexivity].
    intros r Hr.
    rewrite (calculateSocialContributions_exceeded _ _ _ _ Hgt) in Hr.
    discriminate.
Qed.

(** A revenue of 80000 for services: refused by the calculator, broken
    down into six amounts by [getContributionBreakdown]. *)
Lemma getContributionBreakdown_matches_calculator_witness :
  (forall r,
      calculateSocialContributions env_utc_2024 80000 services None <> Ok r)
  /\ List.length (getContributionBreakdown 80000 services) = 6%nat.
Proof.
  apply (proj2 (proj2 (proj2 (getContributionBreakdown_matches_calculator
                                env_utc_2024 80000 services None)))).
  reflexivity.
Defined.

(** *** The simplified estimate of accounting.ts *)

(** X14: the two functions called [calculateSocialContributions] disagree:
    for a revenue that the detailed calculator accepts, the estimate of
    accounting.ts is lower than its total by 0.1% of the revenue for
    services and liberal and by 0.06% for commerce; above the franchise
    threshold the estimate is still returned where the detailed calculator
    raises an error. *)
Theorem Accounting_estimate_differs :
  forall (env : Env) (revenue : Q) (activityType : ActivityType)
         (year : option Z),
    (forall r,
        calculateSocialContributions env revenue activityType year = Ok r ->
        total (SocialContributionCalculation.contributions r)
        - Accounting.calculateSocialContributions revenue activityType
        == revenue * match activityType with
                     | commerce => 0.0006
                     | services | liberal => 0.001
                     end
        /\ (0 < revenue ->
            Accounting.calculateSocialContributions revenue activityType
            < total (SocialContributionCalculation.contributions r)))
    /\ (FRANCHISE_THRESHOLDS_2024 activityType < revenue ->
        calculateSocialContributions env revenue activityType year
        = Err (FranchiseExceeded (FRANCHISE_THRESHOLDS_2024 activityType)
                 activityType)
        /\ 0 < Accounting.calculateSocialContributions revenue activityType).
Proof.
  intros env revenue activityType year. split.
  - intros r Hr.
    destruct (Qlt_le_dec (FRANCHISE_THRESHOLDS_2024 activityType) revenue)
      as [Hgt | Hle].
    + rewrite (calculateSocialContributions_exceeded _ _ _ _ Hgt) in Hr.
      discriminate.
    + destruct (calculateSocialContributions_within env revenue activityType
                  year Hle) as (r' & Hr' & _ & _ & _ & Hc & _).
      assert (r' = r) by congruence. subst r'. rewrite Hc.
      unfold Accounting.calculateSocialContributions.
      destruct activityType;
        cbn [contributionsOf total SOCIAL_CONTRIBUTION_RATES_2024];
        (split; [ring | intros Hpos; lra]).
  - intros Hgt. split; [apply calculateSocialContributions_exceeded; exact Hgt|].
    unfold Accounting.calculateSocialContributions.
    destruct activityType; cbn [FRANCHISE_THRESHOLDS_2024] in Hgt; lra.
Qed.

(** A revenue of 30000 for services: 6630 against 6600. *)
Lemma Accounting_estimate_differs_witness :
  exists r,
    calculateSocialContributions env_utc_2024 30000 services None = Ok r
    /\ total (SocialContributionCalculation.contributions r) == 6630
    /\ Accounting.calculateSocialContributions 30000 services == 6600
    /\ Accounting.calculateSocialContributions 30000 services
       < total (SocialContributionCalculation.contributions r).
Proof.
  destruct (calculateSocialContributions_within env_utc_2024 30000 services
              None) as (r & Hr & _ & _ & _ & Hc & _); [discriminate|].
  exists r. split; [exact Hr|].
  split; [rewrite Hc; reflexivity|]. split; [reflexivity|].
  apply (proj1 (Accounting_estimate_differs env_utc_2024 30000 services None)
           r Hr).
  reflexivity.
Defined.

(** *** The simulator of the dashboard *)

(** If the callback fails on some element, and fails with [e] whenever it
    fails, [mapM] fails with [e]. *)
Lemma mapM_Exists_Err {A B : Type} (f : A -> result B) (e : Error) l :
  (forall x, (exists y, f x = Ok y) \/ f x = Err e) ->
  Exists (fun x => f x = Err e) l ->
  mapM f l = Err e.
Proof.
  intros Hf Hex. induction Hex as [x rest Hx | x rest _ IH]; cbn [mapM].
  - rewrite Hx. reflexivity.
  - destruct (Hf x) as [[y Hy] | Hx]; rewrite ?Hy, ?Hx; cbn [bind].
    + rewrite IH. reflexivity.
    + reflexivity.
Qed.

Lemma mapM_Forall_Ok {A B : Type} (f : A -> result B) l :
  Forall (fun x => exists y, f x = Ok y) l ->
  exists ys, mapM f l = Ok ys /\ List.length ys = List.length l.
Proof.
  intros Hall. induction Hall as [|x rest [y Hy] _ [ys [IH Hlen]]].
  - exists []. split; reflexivity.
  - exists (y :: ys). cbn [mapM]. rewrite Hy, IH. cbn [bind].
    split; [reflexivity | simpl; rewrite Hlen; reflexivity].
Qed.

Lemma calculateContributionsWithACRE_Ok env revenue activityType acreYear :
  revenue <= FRANCHISE_THRESHOLDS_2024 activityType ->
  exists acre,
    calculateContributionsWithACRE env revenue activityType acreYear = Ok acre.
Proof.
  intros Hle.
  destruct (calculateSocialContributions_within env revenue activityType
              None Hle) as (std & Hstd & _).
  unfold calculateContributionsWithACRE. rewrite Hstd. cbn [bind].
  eexists. reflexivity.
Qed.

(** The optional ACRE computation of the simulator. *)
Lemma optional_ACRE_Ok env revenue activityType (hasACRE : bool) acreYear :
  revenue <= FRANCHISE_THRESHOLDS_2024 activityType ->
  exists acre,
    (if hasACRE then
       a <- calculateContributionsWithACRE env revenue activityType acreYear ;;
       Ok (Some a)
     else Ok None) = Ok acre.
Proof.
  intros Hle. destruct hasACRE.
  - destruct (calculateContributionsWithACRE_Ok env revenue activityType
                acreYear Hle) as (a & Ha).
    rewrite Ha. eexists. reflexivity.
  - eexists. reflexivity.
Qed.

(** X15: the simulator's [runSimulation] charts the fixed revenues 10000,
    20000, ..., 100000.  For services and liberal, whose threshold is
    77700, it therefore always ends in the franchise error, whatever the
    target revenue and the ACRE options; for commerce it returns ten
    comparison points whenever the target revenue is within the
    threshold. *)
Theorem runSimulation_fixed_targets :
  forall (env : Env) (simulationData : SimulationData.t),
    let activityType := SimulationData.activityType simulationData in
    (activityType = services \/ activityType = liberal ->
     runSimulation env simulationData
     = Err (FranchiseExceeded 77700 activityType))
    /\ (activityType = commerce ->
        SimulationData.targetRevenue simulationData <= 188700 ->
        exists results comparison,
          runSimulation env simulationData = Ok (results, comparison)
          /\ List.length comparison = 10%nat).
Proof.
  intros env simulationData activityType.
  unfold runSimulation. fold activityType.
  set (target := SimulationData.targetRevenue simulationData).
  set (hasACRE := SimulationData.hasACRE simulationData).
  set (acreYear := SimulationData.acreYear simulationData).
  cbv zeta.
  match goal with
  | |- context [mapM ?g revenueTargets] => set (f := g)
  end.
  assert (Hok : forall revenue,
             revenue <= FRANCHISE_THRESHOLDS_2024 activityType ->
             exists y, f revenue = Ok y).
  { intros revenue Hle. subst f. cbv beta.
    destruct (calculateSocialContributions_within env revenue activityType
                None Hle) as (std & Hstd & _).
    rewrite Hstd. cbn [bind].
    destruct (optional_ACRE_Ok env revenue activityType hasACRE acreYear Hle)
      as (acre & Hacre).
    rewrite Hacre. cbn [bind]. eexists. reflexivity. }
  assert (Herr : forall revenue,
             FRANCHISE_THRESHOLDS_2024 activityType < revenue ->
             f revenue
             = Err (FranchiseExceeded (FRANCHISE_THRESHOLDS_2024 activityType)
                      activityType)).
  { intros revenue Hgt. subst f. cbv beta.
    rewrite (calculateSocialContributions_exceeded _ _ _ _ Hgt).
    reflexivity. }
  clearbody f.
  split.
  - intros Hact.
    assert (Hth : FRANCHISE_THRESHOLDS_2024 activityType = 77700)
      by (destruct Hact as [-> | ->]; reflexivity).
    rewrite Hth in *.
    assert (Hmap : mapM f revenueTargets
                   = Err (FranchiseExceeded 77700 activityType)).
    { apply mapM_Exists_Err.
      - intros x. destruct (Qlt_le_dec 77700 x) as [Hgt | Hle].
        + right. exact (Herr x Hgt).
        + left. exact (Hok x Hle).
      - unfold revenueTargets. cbn [seq map].
        do 7 apply Exists_cons_tl. apply Exists_cons_hd.
        apply Herr. reflexivity. }
    destruct (Qlt_le_dec 77700 target) as [Hgt | Hle].
    + rewrite <- Hth in Hgt.
      rewrite (calculateSocialContributions_exceeded _ _ _ _ Hgt).
      rewrite Hth. reflexivity.
    + rewrite <- Hth in Hle.
      destruct (calculateSocialContributions_within env target activityType
                  None Hle) as (std & Hstd & _).
      rewrite Hstd. cbn [bind].
      destruct (optional_ACRE_Ok env target activityType hasACRE acreYear Hle)
        as (acre & Hacre).
      rewrite Hacre. cbn [bind]. rewrite Hmap. reflexivity.
  - intros Hact Htarget.
    assert (Hth : FRANCHISE_THRESHOLDS_2024 activityType = 188700)
      by (rewrite Hact; reflexivity).
    rewrite Hth in *.
    destruct (mapM_Forall_Ok f revenueTargets) as (comparison & Hmap & Hlen).
    { unfold revenueTargets. cbn [seq map].
      repeat (constructor; [apply Hok; discriminate|]). constructor. }
    rewrite <- Hth in Htarget.
    destruct (calculateSocialContributions_within env target activityType
                None Htarget) as (std & Hstd & _).
    rewrite Hstd. cbn [bind].
    destruct (optional_ACRE_Ok env target activityType hasACRE acreYear
                Htarget) as (acre & Hacre).
    rewrite Hacre. cbn [bind]. rewrite Hmap. cbn [bind].
    eexists. eexists. split; [reflexivity|]. exact Hlen.
Qed.

(** The default form of the simulator (target 30000, services, no ACRE)
    ends in the franchise error. *)
Lemma runSimulation_fixed_targets_witness :
  runSimulation env_utc_2024
    {| SimulationData.targetRevenue := 30000;
       SimulationData.activityType := services;
       SimulationData.hasACRE := false;
       SimulationData.acreYear := 1;
       SimulationData.businessCreationDate := "2024-01-01" |}
  = Err (FranchiseExceeded 77700 services).
Proof.
  apply (proj1 (runSimulation_fixed_targets env_utc_2024
                  {| SimulationData.targetRevenue := 30000;
                     SimulationData.activityType := services;
                     SimulationData.hasACRE := false;
                     SimulationData.acreYear := 1;
                     SimulationData.businessCreationDate := "2024-01-01" |})).
  left. reflexivity.
Defined.

(** ** Accounting summaries *)

Lemma Qsum_app l1 l2 : Qsum (l1 ++ l2) == Qsum l1 + Qsum l2.
Proof.
  unfold Qsum. induction l1 as [|x l1 IH]; simpl.
  - ring.
  - rewrite IH. ring.
Qed.

Lemma Qsum_nonneg l : Forall (fun x => 0 <= x) l -> 0 <= Qsum l.
Proof.
  intros H. unfold Qsum. induction H as [|x l Hx _ IH]; simpl.
  - discriminate.
  - lra.
Qed.

Lemma total_of_cons p t l :
  total_of p (t :: l)
  == (if p t then Transaction.amount t else 0) + total_of p l.
Proof.
  unfold total_of, Qsum. simpl. destruct (p t); simpl; ring.
Qed.

Lemma total_of_app p l1 l2 :
  total_of p (l1 ++ l2) == total_of p l1 + total_of p l2.
Proof.
  unfold total_of. rewrite filter_app, map_app. apply Qsum_app.
Qed.

Lemma sum_amount_total l : sum_amount l == Qsum (map Transaction.amount l).
Proof.
  unfold sum_amount.
  assert (H : forall acc,
             fold_left (fun sum t => sum + Transaction.amount t) l acc
             == acc + Qsum (map Transaction.amount l)).
  { induction l as [|t l IH]; intros acc; simpl.
    - unfold Qsum. simpl. ring.
    - rewrite IH. unfold Qsum. simpl. ring. }
  rewrite H. ring.
Qed.

(** What the [forEach] of [getAccountingSummary] adds to each field. *)
Lemma fold_summary_step l :
  forall s,
    let s' := fold_left summary_step l s in
    AccountingSummary.totalIncome s'
    == AccountingSummary.totalIncome s + total_of is_income l
    /\ AccountingSummary.totalExpenses s'
       == AccountingSummary.totalExpenses s + total_of is_expense l
    /\ AccountingSummary.deductibleExpenses s'
       == AccountingSummary.deductibleExpenses s
          + total_of is_deductible_expense l
    /\ AccountingSummary.nonDeductibleExpenses s'
       == AccountingSummary.nonDeductibleExpenses s
          + total_of is_non_deductible_expense l
    /\ AccountingSummary.socialContributions s'
       == AccountingSummary.socialContributions s
          + total_of is_social_charge l.
Proof.
  induction l as [|t l IH]; intros s; cbv zeta.
  - unfold total_of, Qsum. simpl. repeat split; ring.
  - cbn [fold_left].
    destruct (IH (summary_step s t)) as (H1 & H2 & H3 & H4 & H5).
    cbv zeta in H1, H2, H3, H4, H5.
    rewrite H1, H2, H3, H4, H5, !total_of_cons.
    unfold summary_step, is_income, is_expense, is_deductible_expense,
      is_non_deductible_expense, is_social_charge, is_expense.
    destruct (Transaction.type t);
      cbn [AccountingSummary.totalIncome AccountingSummary.totalExpenses
           AccountingSummary.deductibleExpenses
           AccountingSummary.nonDeductibleExpenses
           AccountingSummary.socialContributions andb negb];
      destruct (truthy_bool (Transaction.is_deductible t));
      destruct (String.eqb (Transaction.category t) "Charges sociales");
      cbn [negb]; repeat split; ring.
Qed.

Lemma summarize_fields l :
  let s := summarize l in
  AccountingSummary.totalIncome s == total_of is_income l
  /\ AccountingSummary.totalExpenses s == total_of is_expense l
  /\ AccountingSummary.netResult s
     == total_of is_income l - total_of is_expense l
  /\ AccountingSummary.deductibleExpenses s == total_of is_deductible_expense l
  /\ AccountingSummary.nonDeductibleExpenses s
     == total_of is_non_deductible_expense l
  /\ AccountingSummary.socialContributions s == total_of is_social_charge l.
Proof.
  cbv zeta. unfold summarize.
  destruct (fold_summary_step l empty_summary) as (H1 & H2 & H3 & H4 & H5).
  cbv zeta in H1, H2, H3, H4, H5.
  cbn [AccountingSummary.totalIncome AccountingSummary.totalExpenses
       AccountingSummary.netResult AccountingSummary.deductibleExpenses
       AccountingSummary.nonDeductibleExpenses
       AccountingSummary.socialContributions empty_summary] in *.
  rewrite H1, H2, H3, H4, H5. repeat split; ring.
Qed.

Lemma total_of_split p q l :
  total_of p l
  == total_of (fun t => p t && q t) l + total_of (fun t => p t && negb (q t)) l.
Proof.
  induction l as [|t l IH].
  - unfold total_of, Qsum. simpl. ring.
  - rewrite !total_of_cons, IH.
    destruct (p t); destruct (q t); cbn [andb negb]; ring.
Qed.

Lemma total_of_le p q l :
  (forall t, q t = true -> p t = true) ->
  Forall (fun t => 0 <= Transaction.amount t) l ->
  0 <= total_of q l /\ total_of q l <= total_of p l.
Proof.
  intros Hqp Hall. induction Hall as [|t l Ht _ IH].
  - unfold total_of, Qsum. simpl. split; discriminate.
  - rewrite !total_of_cons. specialize (Hqp t).
    destruct (q t); destruct (p t); try (specialize (Hqp eq_refl); discriminate);
      lra.
Qed.

(** X16: the summary of [getAccountingSummary] keeps its books: expenses
    are split exactly between deductible and non-deductible, the net result
    is income minus expenses, and, when no selected amount is negative, the
    social contributions (the expenses filed under 'Charges sociales') lie
    between 0 and the total of the expenses. *)
Theorem getAccountingSummary_invariants :
  forall (date_leb : string -> string -> bool) (table : list Transaction.t)
         (userId : string) (startDate endDate : option string),
    let rows := select_transactions date_leb table userId startDate endDate in
    let s := getAccountingSummary date_leb table userId startDate endDate in
    AccountingSummary.totalExpenses s
    == AccountingSummary.deductibleExpenses s
       + AccountingSummary.nonDeductibleExpenses s
    /\ AccountingSummary.netResult s
       == AccountingSummary.totalIncome s - AccountingSummary.totalExpenses s
    /\ AccountingSummary.totalIncome s + AccountingSummary.totalExpenses s
       == Qsum (map Transaction.amount rows)
    /\ (Forall (fun t => 0 <= Transaction.amount t) rows ->
        0 <= AccountingSummary.socialContributions s
        /\ AccountingSummary.socialContributions s
           <= AccountingSummary.totalExpenses s
        /\ AccountingSummary.netResult s <= AccountingSummary.totalIncome s).
Proof.
  intros date_leb table userId startDate endDate rows s.
  subst s. unfold getAccountingSummary. fold rows.
  destruct (summarize_fields rows) as (H1 & H2 & H3 & H4 & H5 & H6).
  cbv zeta in H1, H2, H3, H4, H5, H6.
  rewrite H1, H2, H3, H4, H5, H6.
  split; [exact (total_of_split is_expense
                   (fun t => truthy_bool (Transaction.is_deductible t)) rows)|].
  split; [reflexivity|].
  split.
  - clear. induction rows as [|t l IH].
    + unfold total_of, Qsum. simpl. ring.
    + rewrite !total_of_cons. cbn [map]. unfold Qsum in *. cbn [fold_right].
      rewrite <- IH. unfold is_income, is_expense.
      destruct (Transaction.type t); ring.
  - intros Hall.
    destruct (total_of_le is_expense is_social_charge rows) as [Hs0 Hs1];
      [unfold is_social_charge; intros t Ht;
       apply andb_true_iff in Ht; exact (proj1 Ht) | exact Hall |].
    destruct (total_of_le (fun _ => true) is_expense rows) as [He0 _];
      [reflexivity | exact Hall |].
    split; [exact Hs0|]. split; [exact Hs1 | lra].
Qed.

(** The sample table, user "u1", no date bound: income 1000, expenses 301
    of which 221 of social contributions. *)
Lemma getAccountingSummary_invariants_witness :
  let s := getAccountingSummary String.leb sample_transactions "u1" None None in
  AccountingSummary.totalIncome s == 1000
  /\ AccountingSummary.totalExpenses s == 301
  /\ 0 <= AccountingSummary.socialContributions s
  /\ AccountingSummary.socialContributions s
     <= AccountingSummary.totalExpenses s.
Proof.
  intros s.
  destruct (getAccountingSummary_invariants String.leb sample_transactions
              "u1" None None) as (_ & _ & _ & H).
  destruct H as (H0 & H1 & _).
  - repeat constructor; discriminate.
  - split; [reflexivity|]. split; [reflexivity|].
    split; [exact H0 | exact H1].
Defined.

Lemma select_transactions_app date_leb l1 l2 userId startDate endDate :
  select_transactions date_leb (l1 ++ l2) userId startDate endDate
  = (select_transactions date_leb l1 userId startDate endDate
     ++ select_transactions date_leb l2 userId startDate endDate)%list.
Proof. unfold select_transactions. apply filter_app. Qed.

Lemma select_transactions_one date_leb t userId startDate endDate :
  select_transactions date_leb [t] userId startDate endDate
  = if String.eqb (Transaction.user_id t) userId
       && in_period date_leb startDate endDate (Transaction.date t)
    then [t] else [].
Proof.
  unfold select_transactions, in_period. cbn [filter].
  rewrite <- andb_assoc. reflexivity.
Qed.

(** X17: a transaction recorded by [createTransaction] shows in the next
    [getAccountingSummary] of its user for any period that contains its
    date: an income raises the total income and the net result by its
    amount, an expense raises the total expenses and lowers the net result
    by its amount; the rows selected for any other user are unchanged. *)
Theorem createTransaction_then_summary :
  forall (date_leb : string -> string -> bool) (table : list Transaction.t)
         (userId : string) (data : TransactionFormData.t)
         (startDate endDate : option string),
    in_period date_leb startDate endDate (TransactionFormData.date data)
    = true ->
    let table' := snd (createTransaction table userId data) in
    let s := getAccountingSummary date_leb table userId startDate endDate in
    let s' := getAccountingSummary date_leb table' userId startDate endDate in
    let a := TransactionFormData.amount data in
    match TransactionFormData.type data with
    | income =>
        AccountingSummary.totalIncome s' == AccountingSummary.totalIncome s + a
        /\ AccountingSummary.totalExpenses s'
           == AccountingSummary.totalExpenses s
        /\ AccountingSummary.netResult s' == AccountingSummary.netResult s + a
    | expense =>
        AccountingSummary.totalIncome s' == AccountingSummary.totalIncome s
        /\ AccountingSummary.totalExpenses s'
           == AccountingSummary.totalExpenses s + a
        /\ AccountingSummary.netResult s' == AccountingSummary.netResult s - a
    end
    /\ (forall other : string,
           other <> userId ->
           select_transactions date_leb table' other startDate endDate
           = select_transactions date_leb table other startDate endDate).
Proof.
  intros date_leb table userId data startDate endDate Hin table' s s' a.
  subst s s' table'. unfold createTransaction. cbn [snd].
  split.
  - unfold getAccountingSummary.
    rewrite select_transactions_app, select_transactions_one.
    cbn [Transaction.user_id Transaction.date].
    rewrite String.eqb_refl, Hin. cbn [andb].
    set (rows := select_transactions date_leb table userId startDate endDate).
    match goal with
    | |- context [(rows ++ [?r])%list] => set (row := r)
    end.
    destruct (summarize_fields rows) as (H1 & H2 & H3 & _).
    destruct (summarize_fields (rows ++ [row])) as (H1' & H2' & H3' & _).
    cbv zeta in H1, H2, H3, H1', H2', H3'.
    rewrite (total_of_app is_income) in H1', H3'.
    rewrite (total_of_app is_expense) in H2', H3'.
    assert (Ei : total_of is_income [row]
                 == match TransactionFormData.type data with
                    | income => a
                    | expense => 0
                    end).
    { rewrite total_of_cons. unfold total_of, Qsum, is_income. subst row a.
      cbn [Transaction.amount Transaction.type filter map fold_right].
      destruct (TransactionFormData.type data); ring. }
    assert (Ee : total_of is_expense [row]
                 == match TransactionFormData.type data with
                    | income => 0
                    | expense => a
                    end).
    { rewrite total_of_cons. unfold total_of, Qsum, is_expense. subst row a.
      cbn [Transaction.amount Transaction.type filter map fold_right].
      destruct (TransactionFormData.type data); ring. }
    rewrite Ei in H1', H3'. rewrite Ee in H2', H3'.
    revert H1' H2' H3'.
    destruct (TransactionFormData.type data); intros H1' H2' H3';
      (split; [|split]); rewrite ?H1', ?H2', ?H3', ?H1, ?H2, ?H3; ring.
  - intros other Hother.
    rewrite select_transactions_app, select_transactions_one.
    cbn [Transaction.user_id].
    assert (Hne : String.eqb userId other = false)
      by (apply String.eqb_neq; congruence).
    rewrite Hne. cbn [andb]. apply app_nil_r.
Qed.

(** An invoice of 500 recorded for "u1" on 2024-04-02: the income of the
    sample table goes from 1000 to 1500. *)
Lemma createTransaction_then_summary_witness :
  let data :=
    {| TransactionFormData.type := income;
       TransactionFormData.category := "Consultation";
       TransactionFormData.subcategory := None;
       TransactionFormData.description := "Audit";
       TransactionFormData.amount := 500;
       TransactionFormData.vat_amount := None;
       TransactionFormData.date := "2024-04-02";
       TransactionFormData.payment_method := None;
       TransactionFormData.receipt_url := None;
       TransactionFormData.notes := None;
       TransactionFormData.is_deductible := None |} in
  let table' := snd (createTransaction sample_transactions "u1" data) in
  AccountingSummary.totalIncome
    (getAccountingSummary String.leb table' "u1"
       (Some "2024-01-01") (Some "2024-12-31"))%string
  == AccountingSummary.totalIncome
       (getAccountingSummary String.leb sample_transactions "u1"
          (Some "2024-01-01") (Some "2024-12-31"))%string
     + 500.
Proof.
  intros data table'.
  exact (proj1 (proj1 (createTransaction_then_summary String.leb
                         sample_transactions "u1" data
                         (Some "2024-01-01"%string)
                         (Some "2024-12-31"%string) eq_refl))).
Defined.

(** ** Monthly data *)

Lemma Qsum_map_plus {A : Type} (f g : A -> Q) l :
  Qsum (map (fun i => f i + g i) l) == Qsum (map f l) + Qsum (map g l).
Proof.
  unfold Qsum. induction l as [|x l IH]; simpl.
  - ring.
  - rewrite IH. ring.
Qed.

Lemma Qsum_map_opp {A : Type} (f : A -> Q) l :
  Qsum (map (fun i => - f i) l) == - Qsum (map f l).
Proof.
  unfold Qsum. induction l as [|x l IH]; simpl.
  - reflexivity.
  - rewrite IH. ring.
Qed.

Lemma Qsum_map_ext {A : Type} (f g : A -> Q) l :
  (forall i, In i l -> f i == g i) -> Qsum (map f l) == Qsum (map g l).
Proof.
  unfold Qsum. induction l as [|x l IH]; intros H; simpl.
  - reflexivity.
  - rewrite (H x (or_introl eq_refl)), IH; [reflexivity|].
    intros i Hi. apply H. right. exact Hi.
Qed.

Lemma Qsum_zero {A : Type} (l : list A) : Qsum (map (fun _ => 0) l) == 0.
Proof. unfold Qsum. induction l; simpl; [reflexivity | rewrite IHl; ring]. Qed.

(** An amount counted in month [m] only is counted once over the twelve
    months. *)
Lemma Qsum_indicator (m : Z) (a : Q) :
  (0 <= m <= 11)%Z ->
  Qsum (map (fun i => if (m =? Z.of_nat i)%Z then a else 0) (seq 0 12)) == a.
Proof.
  intros Hm.
  assert (Hc : (m = 0 \/ m = 1 \/ m = 2 \/ m = 3 \/ m = 4 \/ m = 5 \/ m = 6
          \/ m = 7 \/ m = 8 \/ m = 9 \/ m = 10 \/ m = 11)%Z) by lia.
  repeat (destruct Hc as [Hc | Hc]); subst m; unfold Qsum; simpl; ring.
Qed.

Lemma monthly_totals Date_parse tza p l :
  Qsum (map (fun i =>
               sum_amount
                 (filter p (filter (in_month Date_parse tza (Z.of_nat i)) l)))
            (seq 0 12))
  == total_of p (filter (has_valid_date Date_parse) l).
Proof.
  induction l as [|t l IH].
  - rewrite (Qsum_map_ext _ (fun _ => 0)) by reflexivity.
    rewrite Qsum_zero. reflexivity.
  - rewrite (Qsum_map_ext _
               (fun i =>
                  (if in_month Date_parse tza (Z.of_nat i) t && p t
                   then Transaction.amount t else 0)
                  + sum_amount
                      (filter p
                         (filter (in_month Date_parse tza (Z.of_nat i)) l)))).
    + rewrite Qsum_map_plus, IH.
      cbn [filter].
      destruct (Date_parse (Transaction.date t)) as [x|] eqn:Ex.
      * assert (Hv : has_valid_date Date_parse t = true)
          by (unfold has_valid_date; rewrite Ex; reflexivity).
        rewrite Hv, total_of_cons.
        rewrite (Qsum_map_ext _
                   (fun i => if (JsDate.MonthFromTime (JsDate.LocalTime tza x)
                                 =? Z.of_nat i)%Z
                             then (if p t then Transaction.amount t else 0)
                             else 0)).
        -- rewrite Qsum_indicator; [reflexivity|]. apply fields_valid.
        -- intros i _. unfold in_month. rewrite Ex.
           cbn [JsDate.getMonth option_map].
           destruct (_ =? _)%Z; destruct (p t); reflexivity.
      * assert (Hv : has_valid_date Date_parse t = false)
          by (unfold has_valid_date; rewrite Ex; reflexivity).
        rewrite Hv.
        rewrite (Qsum_map_ext _ (fun _ => 0)).
        -- rewrite Qsum_zero. ring.
        -- intros i _. unfold in_month. rewrite Ex. reflexivity.
    + intros i _. cbn [filter].
      destruct (in_month Date_parse tza (Z.of_nat i) t); cbn [andb filter].
      * destruct (p t).
        -- rewrite !sum_amount_total. cbn [map]. unfold Qsum. simpl. ring.
        -- ring.
      * ring.
Qed.

(** X18: [getMonthlyData] returns the twelve months of the year in order,
    January to December, whatever the table holds.  Over the twelve
    entries the incomes add up to the income of the year's rows whose date
    the platform parses, and so do the expenses and the net results: a row
    is counted in one month exactly, and a row with an unreadable date in
    none. *)
Theorem getMonthlyData_year_totals :
  forall (date_leb : string -> string -> bool)
         (Date_parse : string -> JsDate.Date) (tza : Z)
         (table : list Transaction.t) (userId : string) (year : Z),
    let data := getMonthlyData date_leb Date_parse tza table userId year in
    let rows := filter (has_valid_date Date_parse)
                  (year_transactions date_leb table userId year) in
    map MonthlyData.month data = months
    /\ Qsum (map MonthlyData.income data) == total_of is_income rows
    /\ Qsum (map MonthlyData.expenses data) == total_of is_expense rows
    /\ Qsum (map MonthlyData.netResult data)
       == total_of is_income rows - total_of is_expense rows.
Proof.
  intros date_leb Date_parse tza table userId year data rows.
  subst data rows. unfold getMonthlyData. cbv zeta.
  fold (year_transactions date_leb table userId year).
  set (l := year_transactions date_leb table userId year).
  rewrite !map_map. cbn [MonthlyData.month MonthlyData.income
                          MonthlyData.expenses MonthlyData.netResult].
  split; [reflexivity|].
  pose proof (monthly_totals Date_parse tza is_income l) as Hi.
  pose proof (monthly_totals Date_parse tza is_expense l) as He.
  split; [exact Hi|]. split; [exact He|].
  rewrite <- Hi, <- He.
  rewrite (Qsum_map_ext _
             (fun i => sum_amount (filter is_income
                          (filter (in_month Date_parse tza (Z.of_nat i)) l))
                       + (- sum_amount (filter is_expense
                          (filter (in_month Date_parse tza (Z.of_nat i)) l)))))
    by (intros; ring).
  rewrite Qsum_map_plus, Qsum_map_opp. ring.
Qed.

Section PreviousDay.
Import JsDate.
Local Open Scope Z_scope.

Lemma DaysInMonth_range leap m :
  0 <= m <= 11 -> 28 <= DaysInMonth leap m \/ DaysInMonth leap m = 28 + leap.
Proof.
  intros Hm.
  assert (Hc : m = 0 \/ m = 1 \/ m = 2 \/ m = 3 \/ m = 4 \/ m = 5 \/ m = 6
          \/ m = 7 \/ m = 8 \/ m = 9 \/ m = 10 \/ m = 11) by lia.
  repeat (destruct Hc as [Hc | Hc]); subst m;
    cbv beta iota delta [DaysInMonth]; lia.
Qed.

Lemma DaysBeforeMonth_succ leap m :
  1 <= m <= 11 ->
  DaysBeforeMonth leap m
  = DaysBeforeMonth leap (m - 1) + DaysInMonth leap (m - 1).
Proof.
  intros Hm.
  assert (Hc : m = 1 \/ m = 2 \/ m = 3 \/ m = 4 \/ m = 5 \/ m = 6
          \/ m = 7 \/ m = 8 \/ m = 9 \/ m = 10 \/ m = 11) by lia.
  repeat (destruct Hc as [Hc | Hc]); subst m;
    match goal with
    | |- context [Zpos ?p - 1] =>
        let v := eval vm_compute in (Zpos p - 1) in
        change (Zpos p - 1) with v
    end;
    cbv beta iota delta [DaysBeforeMonth DaysInMonth]; lia.
Qed.

(** [previous_day] names an existing day, whose day number is one less. *)
Lemma previous_day_spec y m d :
  0 <= m <= 11 ->
  1 <= d <= DaysInMonth (DaysInYear y - 365) m ->
  let '(y', m', d') := previous_day y m d in
  MakeDay y' m' d' = MakeDay y m d - 1
  /\ 0 <= m' <= 11
  /\ 1 <= d' <= DaysInMonth (DaysInYear y' - 365) m'.
Proof.
  intros Hm Hd. unfold previous_day.
  assert (Hl : DaysInYear y - 365 = 0 \/ DaysInYear y - 365 = 1)
    by (pose proof (DaysInYear_cases y); lia).
  destruct (Z.leb_spec 2 d).
  - rewrite !MakeDay_in_year by lia. lia.
  - destruct (Z.eqb_spec m 0) as [-> | Hm0].
    + rewrite !MakeDay_in_year by lia.
      replace (DayFromYear y) with (DayFromYear (y - 1 + 1)) by (f_equal; lia).
      rewrite DayFromYear_succ.
      assert (Hl' : DaysInYear (y - 1) - 365 = 0
                    \/ DaysInYear (y - 1) - 365 = 1)
        by (pose proof (DaysInYear_cases (y - 1)); lia).
      destruct Hl' as [E | E]; rewrite E;
        cbv beta iota delta [DaysBeforeMonth DaysInMonth]; lia.
    + rewrite !MakeDay_in_year by lia.
      rewrite (DaysBeforeMonth_succ _ m) by lia.
      pose proof (DaysInMonth_range (DaysInYear y - 365) (m - 1)).
      lia.
Qed.

End PreviousDay.

(** X19: the month in which [getMonthlyData] counts a transaction is the
    month of its date read in local time.  For a date the platform parses
    as a UTC midnight, that is the month of the date in a zone at or east
    of UTC, and the month of the day before in a zone west of UTC: there a
    transaction dated the first of a month is counted in the month before
    (one dated 1 January in December). *)
Theorem getMonthlyData_month_by_zone :
  forall (Date_parse : string -> JsDate.Date) (tza : Z) (t : Transaction.t)
         (y m d : Z),
    (0 <= m <= 11)%Z ->
    (1 <= d <= DaysInMonth (JsDate.DaysInYear y - 365) m)%Z ->
    Date_parse (Transaction.date t) = Some (utc_midnight y m d) ->
    forall i : Z,
      ((0 <= tza < JsDate.msPerDay)%Z ->
       in_month Date_parse tza i t = (m =? i)%Z)
      /\ ((- JsDate.msPerDay <= tza < 0)%Z ->
          in_month Date_parse tza i t
          = (snd (fst (previous_day y m d)) =? i)%Z).
Proof.
  intros Date_parse tza t y m d Hm Hd Hp i.
  unfold in_month. rewrite Hp. cbn [JsDate.getMonth option_map].
  unfold utc_midnight, JsDate.MakeDate, JsDate.LocalTime.
  rewrite Z.add_0_r.
  split; intros Hz.
  - assert (HD : JsDate.Day (JsDate.MakeDay y m d * JsDate.msPerDay + tza)
                 = JsDate.MakeDay y m d).
    { unfold JsDate.Day, JsDate.msPerDay in *. Z.div_mod_to_equations. lia. }
    destruct (fields_of_MakeDay _ y m d Hm Hd HD) as (_ & -> & _).
    reflexivity.
  - pose proof (previous_day_spec y m d Hm Hd) as Hprev.
    destruct (previous_day y m d) as [[y' m'] d'].
    destruct Hprev as (HM & Hm' & Hd').
    assert (HD : JsDate.Day (JsDate.MakeDay y m d * JsDate.msPerDay + tza)
                 = JsDate.MakeDay y' m' d').
    { rewrite HM. unfold JsDate.Day, JsDate.msPerDay in *.
      Z.div_mod_to_equations. lia. }
    destruct (fields_of_MakeDay _ y' m' d' Hm' Hd' HD) as (_ & -> & _).
    reflexivity.
Qed.

(** A transaction dated 2024-03-01, read five hours west of UTC, is
    counted in February. *)
Lemma getMonthlyData_month_by_zone_witness :
  let Date_parse := fun _ : string => Some (utc_midnight 2024 2 1) in
  let t := sample_row 0 "u1" income "Consultation" 100 "2024-03-01" false in
  in_month Date_parse (-18000000) 1 t = true.
Proof.
  intros Date_parse t.
  exact (proj2 (getMonthlyData_month_by_zone Date_parse (-18000000) t
                  2024 2 1 ltac:(lia) ltac:(vm_compute; split; discriminate)
                  eq_refl 1%Z)
               ltac:(unfold JsDate.msPerDay; lia)).
Defined.

(** ** Category breakdown *)

(** *** The map of [getCategoryBreakdown] *)

Lemma Map_get_Some m k v : Map_get m k = Some v -> In (k, v) m.
Proof.
  induction m as [|[k' v'] m IH]; simpl; [discriminate|].
  destruct (String.eqb_spec k' k) as [-> | Hne].
  - intros [= ->]. left. reflexivity.
  - intros H. right. apply IH, H.
Qed.

Lemma Map_get_None m k : Map_get m k = None -> ~ In k (map fst m).
Proof.
  induction m as [|[k' v'] m IH]; simpl; [tauto|].
  destruct (String.eqb_spec k' k) as [-> | Hne]; [discriminate|].
  intros H [E | Hin]; [congruence | exact (IH H Hin)].
Qed.

Lemma Map_set_keys m k v :
  map fst (Map_set m k v)
  = match Map_get m k with
    | Some _ => map fst m
    | None => (map fst m ++ [k])%list
    end.
Proof.
  induction m as [|[k' v'] m IH]; simpl; [reflexivity|].
  destruct (String.eqb_spec k' k) as [-> | Hne]; simpl; [reflexivity|].
  rewrite IH. destruct (Map_get m k); reflexivity.
Qed.

Lemma Map_set_In m k v k' v' :
  NoDup (map fst m) ->
  In (k', v') (Map_set m k v) ->
  (k' = k /\ v' = v) \/ (k' <> k /\ In (k', v') m).
Proof.
  induction m as [|[k0 v0] m IH]; simpl; intros Hnd Hin.
  - destruct Hin as [[= <- <-] | []]. left. split; reflexivity.
  - inversion Hnd as [|? ? Hk0 Hnd']; subst.
    destruct (String.eqb_spec k0 k) as [-> | Hne]; simpl in Hin.
    + destruct Hin as [[= <- <-] | Hin]; [left; split; reflexivity|].
      right. split; [|right; exact Hin].
      intros ->. apply Hk0. change k with (fst (k, v')). apply in_map, Hin.
    + destruct Hin as [[= <- <-] | Hin].
      * right. split; [exact Hne | left; reflexivity].
      * destruct (IH Hnd' Hin) as [H | [H1 H2]]; [left; exact H|].
        right. split; [exact H1 | right; exact H2].
Qed.

Lemma Map_set_amounts m k v :
  Qsum (map (fun e => fst (snd e)) (Map_set m k v))
  == Qsum (map (fun e => fst (snd e)) m) + fst v
     - match Map_get m k with
       | Some old => fst old
       | None => 0
       end.
Proof.
  unfold Qsum. induction m as [|[k' v'] m IH]; simpl; [ring|].
  destruct (String.eqb_spec k' k) as [-> | Hne]; simpl; [ring|].
  rewrite IH. ring.
Qed.

Lemma Map_set_counts m k v :
  (list_sum (map (fun e => snd (snd e)) (Map_set m k v)) 
   + match Map_get m k with
     | Some old => snd old
     | None => 0
     end
   = list_sum (map (fun e => snd (snd e)) m) + snd v)%nat.
Proof.
  induction m as [|[k' v'] m IH]; simpl; [lia|].
  destruct (String.eqb_spec k' k) as [-> | Hne]; simpl; lia.
Qed.

Lemma total_of_none p l :
  (forall t, In t l -> p t = false) ->
  total_of p l == 0 /\ count_of p l = 0%nat.
Proof.
  intros H. unfold total_of, count_of.
  induction l as [|t l IH]; simpl; [split; reflexivity|].
  rewrite (H t (or_introl eq_refl)). apply IH.
  intros t' Ht'. apply H. right. exact Ht'.
Qed.

Lemma count_of_app p l1 l2 :
  count_of p (l1 ++ l2) = (count_of p l1 + count_of p l2)%nat.
Proof. unfold count_of. rewrite filter_app. apply length_app. Qed.

Lemma aggregated_nil : aggregated [] 0 [].
Proof.
  unfold aggregated. simpl.
  split; [constructor|]. split; [intros ? ? ? []|].
  split; [tauto|]. split; [reflexivity|]. split; reflexivity.
Qed.

Lemma aggregated_step m tot txs t :
  aggregated m tot txs ->
  aggregated (fst (category_step (m, tot) t)) (snd (category_step (m, tot) t))
    (txs ++ [t]).
Proof.
  intros (Hnd & Hent & Hkeys & Hsum & Hcnt & Htot).
  unfold category_step. cbn [fst snd].
  set (c := Transaction.category t).
  assert (Hc : in_category c t = true) by apply String.eqb_refl.
  assert (Hother : forall k, k <> c -> in_category k t = false).
  { intros k Hk. apply String.eqb_neq. subst c. congruence. }
  assert (Hex :
            match Map_get m c with
            | Some v => In (c, v) m
            | None => forall t', In t' txs -> in_category c t' = false
            end).
  { destruct (Map_get m c) as [v|] eqn:E; [apply Map_get_Some, E|].
    intros t' Ht'. apply String.eqb_neq. intros Heq.
    apply (Map_get_None _ _ E). apply Hkeys. rewrite <- Heq.
    apply in_map, Ht'. }
  unfold aggregated.
  split; [|split; [|split; [|split; [|split]]]].
  - rewrite Map_set_keys. destruct (Map_get m c) eqn:E; [exact Hnd|].
    apply NoDup_app; [exact Hnd | repeat constructor; simpl; tauto|].
    intros k Hk [<- | []]. exact (Map_get_None _ _ E Hk).
  - intros k a n Hin.
    rewrite total_of_app, count_of_app, total_of_cons.
    change (total_of (in_category k) []) with 0.
    unfold count_of at 2. cbn [filter].
    apply Map_set_In in Hin; [|exact Hnd].
    destruct Hin as [[-> [= -> ->]] | [Hk Hin]].
    + rewrite Hc. cbn [List.length].
      destruct (Map_get m c) as [[a0 n0]|].
      * destruct (Hent _ _ _ Hex) as [Ha Hn]. cbn [fst snd].
        rewrite Ha, Hn. split; [ring | lia].
      * destruct (total_of_none _ _ Hex) as [Ha Hn]. cbn [fst snd].
        rewrite Ha, Hn. split; [ring | lia].
    + rewrite (Hother k Hk). cbn [List.length].
      destruct (Hent _ _ _ Hin) as [Ha Hn].
      rewrite Ha, Hn. split; [ring | lia].
  - intros k. rewrite Map_set_keys, map_app, in_app_iff. cbn [map In].
    fold c.
    destruct (Map_get m c) as [v|] eqn:E.
    + rewrite Hkeys. split; [tauto|].
      intros [H | [<- | []]]; [exact H|].
      apply Hkeys. change c with (fst (c, v)). apply in_map, Map_get_Some, E.
    + rewrite in_app_iff, Hkeys. simpl. tauto.
  - rewrite Map_set_amounts. cbn [fst].
    destruct (Map_get m c) as [[a0 n0]|]; cbn [fst]; rewrite Hsum; ring.
  - pose proof (Map_set_counts m c
                  (fst match Map_get m c with Some v => v | None => (0%Q, 0%nat) end
                   + Transaction.amount t,
                   (snd match Map_get m c with Some v => v | None => (0%Q, 0%nat) end
                    + 1)%nat)) as H.
    rewrite length_app. cbn [List.length snd] in H |- *.
    destruct (Map_get m c) as [[a0 n0]|]; cbn [snd] in H |- *; lia.
  - rewrite map_app, Qsum_app, Htot. unfold Qsum at 3. simpl. ring.
Qed.

Lemma aggregated_fold rest :
  forall m tot txs,
    aggregated m tot txs ->
    aggregated (fst (fold_left category_step rest (m, tot)))
               (snd (fold_left category_step rest (m, tot)))
               (txs ++ rest).
Proof.
  induction rest as [|t rest IH]; intros m tot txs H.
  - rewrite app_nil_r. exact H.
  - cbn [fold_left].
    replace (txs ++ t :: rest)%list with ((txs ++ [t]) ++ rest)%list
      by (rewrite <- app_assoc; reflexivity).
    pose proof (aggregated_step m tot txs t H) as Hs.
    destruct (category_step (m, tot) t) as [m' tot'].
    apply IH. exact Hs.
Qed.

(** *** The sort of [getCategoryBreakdown] *)

Lemma insert_by_amount_Permutation x l :
  Permutation (insert_by_amount x l) (x :: l).
Proof.
  induction l as [|y l IH]; simpl; [reflexivity|].
  destruct (Qle_bool (CategoryData.amount y) (CategoryData.amount x)).
  - reflexivity.
  - rewrite IH. apply perm_swap.
Qed.

Lemma sort_by_amount_Permutation l : Permutation (sort_by_amount l) l.
Proof.
  unfold sort_by_amount. induction l as [|x l IH]; simpl; [reflexivity|].
  rewrite insert_by_amount_Permutation. constructor. exact IH.
Qed.

Lemma insert_by_amount_sorted x l :
  StronglySorted by_decreasing_amount l ->
  StronglySorted by_decreasing_amount (insert_by_amount x l).
Proof.
  induction 1 as [|y l Hs IH Hy]; simpl.
  - repeat constructor.
  - destruct (Qle_bool (CategoryData.amount y) (CategoryData.amount x)) eqn:E.
    + apply Qle_bool_iff in E.
      constructor; [constructor; assumption|].
      constructor; [exact E|].
      eapply Forall_impl; [|exact Hy].
      intros z Hz. unfold by_decreasing_amount in *. lra.
    + assert (Hlt : CategoryData.amount x < CategoryData.amount y).
      { apply Qnot_le_lt. intros H. apply Qle_bool_iff in H. congruence. }
      constructor; [exact IH|].
      apply (Permutation_Forall
               (Permutation_sym (insert_by_amount_Permutation x l))).
      constructor; [unfold by_decreasing_amount; lra | exact Hy].
Qed.

Lemma sort_by_amount_sorted l :
  StronglySorted by_decreasing_amount (sort_by_amount l).
Proof.
  unfold sort_by_amount. induction l as [|x l IH]; simpl.
  - constructor.
  - apply insert_by_amount_sorted, IH.
Qed.

Lemma Qsum_Permutation l l' : Permutation l l' -> Qsum l == Qsum l'.
Proof.
  unfold Qsum. induction 1; simpl.
  - reflexivity.
  - rewrite IHPermutation. reflexivity.
  - ring.
  - rewrite IHPermutation1. exact IHPermutation2.
Qed.

Lemma list_sum_Permutation l l' : Permutation l l' -> list_sum l = list_sum l'.
Proof. induction 1; simpl; lia. Qed.

(** The rows of [getCategoryBreakdown] before the sort, from the state of
    the [forEach]. *)
Lemma category_rows_fields m tot :
  map CategoryData.category (category_rows m tot) = map fst m
  /\ map CategoryData.amount (category_rows m tot)
     = map (fun e => fst (snd e)) m
  /\ map CategoryData.transactions (category_rows m tot)
     = map (fun e => snd (snd e)) m
  /\ map CategoryData.percentage (category_rows m tot)
     = map (fun e => if Qgtb tot 0 then fst (snd e) / tot * 100 else 0) m.
Proof.
  unfold category_rows. rewrite !map_map.
  repeat split; apply map_ext; intros [k v]; reflexivity.
Qed.

Lemma categoryBreakdown_state transactions :
  exists m tot,
    aggregated m tot transactions
    /\ categoryBreakdown transactions = sort_by_amount (category_rows m tot).
Proof.
  unfold categoryBreakdown.
  pose proof (aggregated_fold transactions [] 0 [] aggregated_nil) as H.
  cbn [app] in H.
  exists (fst (fold_left category_step transactions ([], 0))),
         (snd (fold_left category_step transactions ([], 0))).
  split; [exact H|].
  destruct (fold_left category_step transactions ([], 0)) as [m tot].
  reflexivity.
Qed.

(** X20: [getCategoryBreakdown] builds one row per category met among the
    selected transactions and none for any other: the categories of the
    rows are distinct, a row carries the sum of the amounts and the number
    of the transactions of its category, and the rows are in decreasing
    order of amount. *)
Theorem categoryBreakdown_per_category :
  forall transactions : list Transaction.t,
    let rows := categoryBreakdown transactions in
    NoDup (map CategoryData.category rows)
    /\ (forall c : string,
           In c (map CategoryData.category rows)
           <-> In c (map Transaction.category transactions))
    /\ (forall r : CategoryData.t,
           In r rows ->
           CategoryData.amount r
           == total_of (in_category (CategoryData.category r)) transactions
           /\ CategoryData.transactions r
              = count_of (in_category (CategoryData.category r)) transactions)
    /\ StronglySorted by_decreasing_amount rows.
Proof.
  intros transactions rows. subst rows.
  destruct (categoryBreakdown_state transactions)
    as (m & tot & (Hnd & Hent & Hkeys & _) & ->).
  pose proof (sort_by_amount_Permutation (category_rows m tot)) as HP.
  destruct (category_rows_fields m tot) as (Hc & _).
  split; [|split; [|split]].
  - apply (Permutation_NoDup
             (Permutation_sym (Permutation_map CategoryData.category HP))).
    rewrite Hc. exact Hnd.
  - intros c. rewrite <- Hkeys, <- Hc.
    split; apply Permutation_in; [|apply Permutation_sym];
      apply Permutation_map, HP.
  - intros r Hr.
    apply (Permutation_in _ HP) in Hr.
    unfold category_rows in Hr. apply in_map_iff in Hr.
    destruct Hr as ([k [a n]] & <- & Hin).
    cbn [CategoryData.amount CategoryData.category CategoryData.transactions
         fst snd].
    apply Hent, Hin.
  - apply sort_by_amount_sorted.
Qed.

(** The four categories of the sample table: the first row, the largest,
    counts the transactions of its own category. *)
Lemma categoryBreakdown_per_category_witness :
  let rows := categoryBreakdown sample_transactions in
  let r := nth 0 rows (CategoryData.mk "" 0 0 0) in
  CategoryData.amount r
  == total_of (in_category (CategoryData.category r)) sample_transactions
  /\ CategoryData.transactions r
     = count_of (in_category (CategoryData.category r)) sample_transactions.
Proof.
  intros rows r.
  exact (proj1 (proj2 (proj2
                  (categoryBreakdown_per_category sample_transactions)))
               r ltac:(vm_compute; left; reflexivity)).
Defined.

(** X21: over the rows of [getCategoryBreakdown], the amounts add up to
    the total of the selected transactions and the counts to their number.
    When that total is positive the percentages add up to 100; when it is
    zero or negative (refunds entered as negative amounts) every
    percentage is 0, whatever the amounts. *)
Theorem categoryBreakdown_totals :
  forall transactions : list Transaction.t,
    let rows := categoryBreakdown transactions in
    let totalAmount := Qsum (map Transaction.amount transactions) in
    Qsum (map CategoryData.amount rows) == totalAmount
    /\ list_sum (map CategoryData.transactions rows)
       = List.length transactions
    /\ (0 < totalAmount -> Qsum (map CategoryData.percentage rows) == 100)
    /\ (totalAmount <= 0 ->
        forall r : CategoryData.t, In r rows -> CategoryData.percentage r = 0).
Proof.
  intros transactions rows totalAmount. subst rows totalAmount.
  destruct (categoryBreakdown_state transactions)
    as (m & tot & (_ & _ & _ & Hsum & Hcnt & Htot) & ->).
  pose proof (sort_by_amount_Permutation (category_rows m tot)) as HP.
  destruct (category_rows_fields m tot) as (_ & Ha & Hn & Hp).
  split; [|split; [|split]].
  - rewrite (Qsum_Permutation _ _ (Permutation_map CategoryData.amount HP)).
    rewrite Ha, Hsum. exact Htot.
  - rewrite (list_sum_Permutation _ _
               (Permutation_map CategoryData.transactions HP)).
    rewrite Hn. exact Hcnt.
  - intros Hpos. rewrite <- Htot in Hpos.
    rewrite (Qsum_Permutation _ _ (Permutation_map CategoryData.percentage HP)).
    rewrite Hp.
    assert (Hg : Qgtb tot 0 = true) by (apply Qgtb_true_iff; exact Hpos).
    rewrite Hg.
    assert (Hscale : forall l : CategoryMap,
               Qsum (map (fun e => fst (snd e) / tot * 100) l)
               == Qsum (map (fun e => fst (snd e)) l) / tot * 100).
    { intros l. unfold Qsum. induction l as [|e l IH]; simpl.
      - field. lra.
      - rewrite IH. field. lra. }
    rewrite Hscale, Hsum. field. lra.
  - intros Hle r Hr. rewrite <- Htot in Hle.
    apply (Permutation_in _ HP) in Hr.
    unfold category_rows in Hr. apply in_map_iff in Hr.
    destruct Hr as ([k [a n]] & <- & Hin).
    cbn [CategoryData.percentage].
    assert (Hg : Qgtb tot 0 = false) by (apply Qgtb_false_iff; exact Hle).
    rewrite Hg. reflexivity.
Qed.

(** The sample table totals 1801, so its percentages add up to 100. *)
Lemma categoryBreakdown_totals_witness :
  Qsum (map CategoryData.percentage (categoryBreakdown sample_transactions))
  == 100.
Proof.
  exact (proj1 (proj2 (proj2 (categoryBreakdown_totals sample_transactions)))
               ltac:(vm_compute; reflexivity)).
Defined.

(** ** Declarations over the store *)

Section LocalMidnight.
Import JsDate.
Local Open Scope Z_scope.

Lemma MakeDay_day_0 y m :
  1 <= m <= 12 -> MakeDay y m 0 = MakeDay y (m - 1) (month_length y (m - 1)).
Proof.
  intros Hm. unfold month_length.
  destruct (Z.eq_dec m 12) as [-> | Hne].
  - change (12 - 1) with 11. rewrite (MakeDay_in_year y 11) by lia.
    unfold MakeDay. change (12 / 12) with 1. change (12 mod 12) with 0.
    rewrite DayFromYear_succ.
    pose proof (DaysInYear_cases y) as Hl.
    pose proof (DaysInYear_cases (y + 1)) as Hl'.
    cbv beta iota delta [DaysBeforeMonth DaysInMonth]. lia.
  - rewrite !MakeDay_in_year by lia.
    rewrite (DaysBeforeMonth_succ _ m) by lia. lia.
Qed.

Lemma month_length_range y m : 0 <= m <= 11 -> 28 <= month_length y m <= 31.
Proof.
  intros Hm. unfold month_length.
  pose proof (DaysInYear_cases y) as Hl.
  assert (Hc : m = 0 \/ m = 1 \/ m = 2 \/ m = 3 \/ m = 4 \/ m = 5 \/ m = 6
          \/ m = 7 \/ m = 8 \/ m = 9 \/ m = 10 \/ m = 11) by lia.
  repeat (destruct Hc as [Hc | Hc]); subst m;
    cbv beta iota delta [DaysInMonth]; lia.
Qed.

(** The UTC calendar date of the local midnight [new Date(year, month,
    date)] that falls on day [d] of month [m] of year [y]: that day in a
    zone at or west of UTC, the day before in a zone east of UTC. *)
Lemma toISODate_local_midnight tza year month date y m d :
  ~ (0 <= year <= 99) ->
  -270000 <= y <= 270000 ->
  0 <= m <= 11 ->
  1 <= d <= DaysInMonth (DaysInYear y - 365) m ->
  MakeDay year month date = MakeDay y m d ->
  (- msPerDay < tza <= 0 ->
   toISODate (Date_ymd tza year month date) = Ok (iso_day (y, m, d)))
  /\ (0 < tza <= msPerDay ->
      toISODate (Date_ymd tza year month date)
      = Ok (iso_day (previous_day y m d))).
Proof.
  intros Hyear Hy Hm Hd HM.
  assert (Hl : DaysInYear y - 365 = 0 \/ DaysInYear y - 365 = 1)
    by (pose proof (DaysInYear_cases y); lia).
  pose proof (DaysBeforeMonth_within_year _ m d Hl Hm Hd) as Hwithin.
  assert (Hday : -99400000 <= MakeDay y m d <= 98000400).
  { rewrite MakeDay_in_year by exact Hm.
    pose proof (DayFromYear_range y ltac:(lia)). lia. }
  assert (Hvalid :
            - msPerDay <= tza <= msPerDay ->
            Date_ymd tza year month date
            = Some (MakeDay y m d * msPerDay - tza)).
  { intros Htza. rewrite <- HM.
    apply Date_ymd_time; [exact Hyear|].
    rewrite HM. unfold msPerDay, maxTime in *. lia. }
  split; intros Htza.
  - rewrite Hvalid by lia. unfold toISODate, iso_day.
    set (t := MakeDay y m d * msPerDay - tza).
    assert (HD : Day t = MakeDay y m d).
    { subst t. unfold Day, msPerDay in *. Z.div_mod_to_equations. lia. }
    destruct (fields_of_MakeDay t y m d Hm Hd HD) as (HY & HMo & HDa).
    rewrite HY, HMo, HDa. reflexivity.
  - rewrite Hvalid by lia. unfold toISODate, iso_day.
    set (t := MakeDay y m d * msPerDay - tza).
    pose proof (previous_day_spec y m d Hm Hd) as Hprev.
    destruct (previous_day y m d) as [[y' m'] d'].
    destruct Hprev as (HM' & Hm' & Hd').
    assert (HD : Day t = MakeDay y' m' d').
    { rewrite HM'. subst t. unfold Day, msPerDay in *.
      Z.div_mod_to_equations. lia. }
    destruct (fields_of_MakeDay t y' m' d' Hm' Hd' HD) as (HY & HMo & HDa).
    rewrite HY, HMo, HDa. reflexivity.
Qed.

(** The first and the last day of a month, from [new Date(year, m, 1)] and
    [new Date(year, m + 1, 0)]. *)
Lemma toISODate_first_day tza year m :
  ~ (0 <= year <= 99) ->
  -270000 <= year <= 270000 ->
  0 <= m <= 11 ->
  (- msPerDay < tza <= 0 ->
   toISODate (Date_ymd tza year m 1) = Ok (iso_day (year, m, 1)))
  /\ (0 < tza <= msPerDay ->
      toISODate (Date_ymd tza year m 1)
      = Ok (iso_day (previous_day year m 1))).
Proof.
  intros Hyear Hy Hm.
  apply toISODate_local_midnight; try assumption; [|reflexivity].
  pose proof (month_length_range year m Hm). unfold month_length in *. lia.
Qed.

Lemma toISODate_last_day tza year m :
  ~ (0 <= year <= 99) ->
  -270000 <= year <= 270000 ->
  0 <= m <= 11 ->
  (- msPerDay < tza <= 0 ->
   toISODate (Date_ymd tza year (m + 1) 0)
   = Ok (iso_day (year, m, month_length year m)))
  /\ (0 < tza <= msPerDay ->
      toISODate (Date_ymd tza year (m + 1) 0)
      = Ok (iso_day (previous_day year m (month_length year m)))).
Proof.
  intros Hyear Hy Hm.
  apply toISODate_local_midnight; try assumption.
  - pose proof (month_length_range year m Hm). unfold month_length in *. lia.
  - rewrite MakeDay_day_0 by lia.
    replace (m + 1 - 1) with m by lia. reflexivity.
Qed.

End LocalMidnight.

Lemma quarter_months quarter :
  In quarter [1; 2; 3; 4]%Z ->
  (0 <= (quarter - 1) * 3 <= 11 /\ 0 <= quarter * 3 - 1 <= 11)%Z.
Proof. simpl. intros [<- | [<- | [<- | [<- | []]]]]; lia. Qed.

Lemma calculateQuarterlyContributions_bounds
    date_leb env table userId year quarter activityType s e :
  JsDate.toISODate
    (JsDate.Date_ymd (LocalTZA env) year ((quarter - 1) * 3) 1) = Ok s ->
  JsDate.toISODate
    (JsDate.Date_ymd (LocalTZA env) year (quarter * 3 - 1 + 1) 0) = Ok e ->
  calculateQuarterlyContributions date_leb env table userId year quarter
    activityType
  = calculateSocialContributions env
      (sum_amount
         (filter is_income
            (select_transactions date_leb table userId (Some s) (Some e))))
      activityType (Some year).
Proof.
  intros Hs He. unfold calculateQuarterlyContributions. cbv zeta.
  replace ((quarter - 1) * 3)%Z with ((quarter - 1) * 3 + 1 - 1)%Z in Hs
    by lia.
  replace (quarter * 3 - 1 + 1)%Z with (quarter * 3)%Z in He by lia.
  rewrite Hs, He. reflexivity.
Qed.

(** X22: over the supported years, the revenue on which
    [calculateQuarterlyContributions] computes the contributions of a
    quarter is the income between two bounds that depend on the time zone:
    the first and the last day of the quarter in a zone at or west of UTC,
    both one day earlier in a zone east of UTC.  Months are counted from 0
    in the triples. *)
Theorem calculateQuarterlyContributions_period :
  forall (date_leb : string -> string -> bool) (env : Env)
         (table : list Transaction.t) (userId : string) (year quarter : Z)
         (activityType : ActivityType),
    In quarter [1; 2; 3; 4]%Z ->
    ~ (0 <= year <= 99)%Z ->
    (-270000 <= year <= 270000)%Z ->
    let first := ((quarter - 1) * 3)%Z in
    let last := (quarter * 3 - 1)%Z in
    let revenue_between (s e : Z * Z * Z) :=
      sum_amount
        (filter is_income
           (select_transactions date_leb table userId
              (Some (iso_day s)) (Some (iso_day e)))) in
    ((- JsDate.msPerDay < LocalTZA env <= 0)%Z ->
     calculateQuarterlyContributions date_leb env table userId year quarter
       activityType
     = calculateSocialContributions env
         (revenue_between (year, first, 1%Z)
            (year, last, month_length year last))
         activityType (Some year))
    /\ ((0 < LocalTZA env <= JsDate.msPerDay)%Z ->
        calculateQuarterlyContributions date_leb env table userId year quarter
          activityType
        = calculateSocialContributions env
            (revenue_between (previous_day year first 1)
               (previous_day year last (month_length year last)))
            activityType (Some year)).
Proof.
  intros date_leb env table userId year quarter activityType Hq Hyear Hrange
    first last revenue_between.
  destruct (quarter_months quarter Hq) as [Hf Hl].
  destruct (toISODate_first_day (LocalTZA env) year first Hyear Hrange Hf)
    as [Hfw Hfe].
  destruct (toISODate_last_day (LocalTZA env) year last Hyear Hrange Hl)
    as [Hlw Hle].
  split; intros Hz.
  - apply calculateQuarterlyContributions_bounds; [apply Hfw | apply Hlw];
      exact Hz.
  - apply calculateQuarterlyContributions_bounds; [apply Hfe | apply Hle];
      exact Hz.
Qed.

(** In the Europe/Paris zone the first quarter of 2024 runs from
    2023-12-31 to 2024-03-30. *)
Lemma calculateQuarterlyContributions_period_witness :
  calculateQuarterlyContributions String.leb env_paris_winter
    sample_transactions "u1" 2024 1 services
  = calculateSocialContributions env_paris_winter
      (sum_amount
         (filter is_income
            (select_transactions String.leb sample_transactions "u1"
               (Some "2023-12-31"%string) (Some "2024-03-30"%string))))
      services (Some 2024%Z).
Proof.
  exact (proj2 (calculateQuarterlyContributions_period String.leb
                  env_paris_winter sample_transactions "u1" 2024 1 services
                  ltac:(simpl; tauto) ltac:(lia) ltac:(lia))
               ltac:(unfold JsDate.msPerDay; simpl; lia)).
Defined.

Lemma calculateQuarterlyContributions_revenue
    date_leb env table userId year quarter activityType :
  In quarter [1; 2; 3; 4]%Z ->
  ~ (0 <= year <= 99)%Z ->
  (-270000 <= year <= 270000)%Z ->
  (- JsDate.msPerDay < LocalTZA env <= JsDate.msPerDay)%Z ->
  calculateQuarterlyContributions date_leb env table userId year quarter
    activityType
  = calculateSocialContributions env
      (quarter_revenue date_leb (LocalTZA env) table userId year quarter)
      activityType (Some year).
Proof.
  intros Hq Hyear Hrange Hz.
  destruct (quarter_months quarter Hq) as [Hf Hl].
  destruct (toISODate_first_day (LocalTZA env) year _ Hyear Hrange Hf)
    as [Hfw Hfe].
  destruct (toISODate_last_day (LocalTZA env) year _ Hyear Hrange Hl)
    as [Hlw Hle].
  unfold quarter_revenue, quarter_bounds, period_bounds.
  destruct (Z.ltb_spec 0 (LocalTZA env)); cbn [fst snd];
    apply calculateQuarterlyContributions_bounds;
    first [apply Hfw | apply Hfe | apply Hlw | apply Hle]; lia.
Qed.

(** In the supported range [saveQuarterlyDeclaration] succeeds and appends
    one draft row that carries the figures of the calculation. *)
Lemma saveQuarterlyDeclaration_row env table userId year quarter calculation :
  In quarter [1; 2; 3; 4]%Z ->
  ~ (0 <= year <= 99)%Z ->
  (-270000 <= year <= 270000)%Z ->
  (- JsDate.msPerDay < LocalTZA env <= JsDate.msPerDay)%Z ->
  exists row,
    saveQuarterlyDeclaration env table userId year quarter calculation
    = Ok (List.length table, (table ++ [row])%list)
    /\ QuarterlyDeclaration.user_id row = userId
    /\ QuarterlyDeclaration.year row = year
    /\ QuarterlyDeclaration.quarter row = quarter
    /\ QuarterlyDeclaration.revenue row
       = SocialContributionCalculation.revenue calculation
    /\ QuarterlyDeclaration.contributions row
       = total (SocialContributionCalculation.contributions calculation)
    /\ QuarterlyDeclaration.status row = draft.
Proof.
  intros Hq Hyear Hrange Hz.
  destruct (spec_quarterly_due_date year quarter) as [[y m] d] eqn:E.
  destruct (quarterly_due_date_by_zone (LocalTZA env) year quarter y m d
              Hq Hyear Hrange E) as [Hwest Heast].
  cbv zeta in Hwest, Heast.
  unfold saveQuarterlyDeclaration. cbv zeta.
  destruct (Z.ltb_spec 0 (LocalTZA env)).
  - rewrite Heast by lia. unfold bind.
    eexists. split; [reflexivity|]. repeat split.
  - rewrite Hwest by lia. unfold bind.
    eexists. split; [reflexivity|]. repeat split.
Qed.

Section GenerateAnnualDeclarations.

Variable date_leb : string -> string -> bool.
Variables (env : Env) (table : list Transaction.t) (userId : string)
          (year : Z) (activityType : ActivityType).
Hypothesis Hyear : ~ (0 <= year <= 99)%Z.
Hypothesis Hrange : (-270000 <= year <= 270000)%Z.
Hypothesis Hzone : (- JsDate.msPerDay < LocalTZA env <= JsDate.msPerDay)%Z.

Lemma generateAnnualDeclarations_from_outcome quarters :
  let revenue := quarter_revenue date_leb (LocalTZA env) table userId year in
  let threshold := FRANCHISE_THRESHOLDS_2024 activityType in
  let within q := Qle_bool (revenue q) threshold in
  Forall (fun q => In q [1; 2; 3; 4]%Z) quarters ->
  forall declarations,
  exists rows,
    generateAnnualDeclarations_from date_leb env table userId year
      activityType quarters declarations
    = (if forallb within quarters then Ok tt
       else Err (FranchiseExceeded threshold activityType),
       (declarations ++ rows)%list)
    /\ map QuarterlyDeclaration.quarter rows
       = filter (fun q => Qgtb (revenue q) 0) (quarters_reached within quarters)
    /\ Forall (fun r =>
                 QuarterlyDeclaration.user_id r = userId
                 /\ QuarterlyDeclaration.year r = year
                 /\ QuarterlyDeclaration.status r = draft
                 /\ QuarterlyDeclaration.revenue r
                    = revenue (QuarterlyDeclaration.quarter r)
                 /\ QuarterlyDeclaration.contributions r
                    = revenue (QuarterlyDeclaration.quarter r)
                      * total (SOCIAL_CONTRIBUTION_RATES_2024 activityType))
              rows.
Proof.
  intros revenue threshold within.
  induction 1 as [|q rest Hq _ IH]; intros declarations.
  - exists []. cbn. rewrite app_nil_r. repeat split. constructor.
  - cbn [generateAnnualDeclarations_from forallb quarters_reached].
    rewrite (calculateQuarterlyContributions_revenue date_leb env table userId
               year q activityType Hq Hyear Hrange Hzone).
    fold (revenue q). 
    destruct (within q) eqn:Hw; cbn [andb].
    + assert (Hle : revenue q <= threshold) by (apply Qle_bool_iff, Hw).
      destruct (calculateSocialContributions_within env (revenue q)
                  activityType (Some year) Hle)
        as (c & -> & Hrev & _ & _ & Hcon & _).
      rewrite Hrev. cbn [filter].
      destruct (Qgtb (revenue q) 0) eqn:Hpos.
      * destruct (saveQuarterlyDeclaration_row env declarations userId year q
                    c Hq Hyear Hrange Hzone)
          as (row & -> & Hu & Hy & Hqr & Hr & Hc & Hs).
        destruct (IH (declarations ++ [row])%list)
          as (rows & -> & Hquarters & Hrows).
        exists (row :: rows). rewrite <- app_assoc. cbn [app map].
        split; [reflexivity|]. split; [rewrite Hqr, Hquarters; reflexivity|].
        constructor; [|exact Hrows].
        rewrite Hu, Hy, Hs, Hr, Hc, Hqr, Hrev, Hcon. repeat split.
      * destruct (IH declarations) as (rows & -> & Hquarters & Hrows).
        exists rows. split; [reflexivity|]. split; assumption.
    + assert (Hgt : threshold < revenue q).
      { apply Qnot_le_lt. intros Hle. apply Qle_bool_iff in Hle.
        unfold within in Hw. congruence. }
      rewrite (calculateSocialContributions_exceeded env (revenue q)
                 activityType (Some year) Hgt).
      exists []. rewrite app_nil_r. cbn. repeat split. constructor.
Qed.

End GenerateAnnualDeclarations.

(** X23: [generateAnnualDeclarations] goes through the four quarters in
    order and stops with the franchise error at the first whose revenue
    exceeds the threshold; the declarations saved before that stay in the
    table.  It only appends rows: one draft row for each quarter reached
    whose revenue is positive, holding that revenue and, as contributions,
    the revenue times the total rate; a quarter without revenue gets no
    row. *)
Theorem generateAnnualDeclarations_outcome :
  forall (date_leb : string -> string -> bool) (env : Env)
         (table : list Transaction.t) (userId : string) (year : Z)
         (activityType : ActivityType)
         (declarations : list QuarterlyDeclaration.t),
    ~ (0 <= year <= 99)%Z ->
    (-270000 <= year <= 270000)%Z ->
    (- JsDate.msPerDay < LocalTZA env <= JsDate.msPerDay)%Z ->
    let revenue := quarter_revenue date_leb (LocalTZA env) table userId year in
    let threshold := FRANCHISE_THRESHOLDS_2024 activityType in
    let within q := Qle_bool (revenue q) threshold in
    exists rows : list QuarterlyDeclaration.t,
      generateAnnualDeclarations date_leb env table userId year activityType
        declarations
      = (if forallb within [1; 2; 3; 4]%Z then Ok tt
         else Err (FranchiseExceeded threshold activityType),
         (declarations ++ rows)%list)
      /\ map QuarterlyDeclaration.quarter rows
         = filter (fun q => Qgtb (revenue q) 0)
             (quarters_reached within [1; 2; 3; 4]%Z)
      /\ Forall (fun r =>
                   QuarterlyDeclaration.user_id r = userId
                   /\ QuarterlyDeclaration.year r = year
                   /\ QuarterlyDeclaration.status r = draft
                   /\ QuarterlyDeclaration.revenue r
                      = revenue (QuarterlyDeclaration.quarter r)
                   /\ QuarterlyDeclaration.contributions r
                      = revenue (QuarterlyDeclaration.quarter r)
                        * total (SOCIAL_CONTRIBUTION_RATES_2024 activityType))
                rows.
Proof.
  intros date_leb env table userId year activityType declarations
    Hyear Hrange Hzone revenue threshold within.
  apply (generateAnnualDeclarations_from_outcome date_leb env table userId
           year activityType Hyear Hrange Hzone [1; 2; 3; 4]%Z).
  repeat constructor; simpl; tauto.
Qed.

(** The sample table in the Europe/Paris zone: the only income of "u1"
    falls in the first quarter of 2024, which is the only one declared. *)
Lemma generateAnnualDeclarations_outcome_witness :
  exists rows : list QuarterlyDeclaration.t,
    generateAnnualDeclarations String.leb env_paris_winter sample_transactions
      "u1" 2024 services []
    = (Ok tt, rows)
    /\ map QuarterlyDeclaration.quarter rows = [1%Z].
Proof.
  destruct (generateAnnualDeclarations_outcome String.leb env_paris_winter
              sample_transactions "u1" 2024 services []
              ltac:(lia) ltac:(lia)
              ltac:(unfold JsDate.msPerDay; simpl; lia))
    as (rows & Hgen & Hq & _).
  exists rows. split; [exact Hgen | exact Hq].
Defined.

Lemma toISODate_period tza year first last :
  ~ (0 <= year <= 99)%Z ->
  (-270000 <= year <= 270000)%Z ->
  (0 <= first <= 11)%Z ->
  (0 <= last <= 11)%Z ->
  (- JsDate.msPerDay < tza <= JsDate.msPerDay)%Z ->
  JsDate.toISODate (JsDate.Date_ymd tza year first 1)
  = Ok (fst (period_bounds tza year first last))
  /\ JsDate.toISODate (JsDate.Date_ymd tza year (last + 1) 0)
     = Ok (snd (period_bounds tza year first last)).
Proof.
  intros Hyear Hrange Hf Hl Hz.
  destruct (toISODate_first_day tza year first Hyear Hrange Hf) as [Hfw Hfe].
  destruct (toISODate_last_day tza year last Hyear Hrange Hl) as [Hlw Hle].
  unfold period_bounds.
  destruct (Z.ltb_spec 0 tza); cbn [fst snd]; split;
    first [apply Hfw | apply Hfe | apply Hlw | apply Hle]; lia.
Qed.

(** The outcome of [prepareURSSAFDeclaration] on a month of the supported
    range, from the income that the summary of the month returns. *)
Lemma prepareURSSAFDeclaration_cases
    date_leb env table userId year month activityType isACRE acreYear :
  (1 <= month <= 12)%Z ->
  ~ (0 <= year <= 99)%Z ->
  (-270000 <= year <= 270000)%Z ->
  (- JsDate.msPerDay < LocalTZA env <= JsDate.msPerDay)%Z ->
  let bounds := period_bounds (LocalTZA env) year (month - 1) (month - 1) in
  let revenue :=
    AccountingSummary.totalIncome
      (getAccountingSummary date_leb table userId
         (Some (fst bounds)) (Some (snd bounds))) in
  let threshold := FRANCHISE_THRESHOLDS_2024 activityType in
  JsDate.toISODate (JsDate.Date_ymd (LocalTZA env) year month 0)
  = Ok (snd bounds)
  /\ (revenue <= threshold ->
      exists d : URSSAFDeclarationData.t,
        prepareURSSAFDeclaration date_leb env table userId year month
          activityType isACRE acreYear = Ok d
        /\ URSSAFDeclarationData.revenue d = revenue
        /\ URSSAFDeclarationData.contributions d
           = contributionsOf revenue
               (SOCIAL_CONTRIBUTION_RATES_2024 activityType)
        /\ URSSAFDeclarationData.is_acre d = isACRE
        /\ URSSAFDeclarationData.acre_year d = acreYear)
  /\ (threshold < revenue ->
      prepareURSSAFDeclaration date_leb env table userId year month
        activityType isACRE acreYear
      = Err (FranchiseExceeded threshold activityType)).
Proof.
  intros Hm Hyear Hrange Hz bounds revenue threshold.
  destruct (toISODate_period (LocalTZA env) year (month - 1) (month - 1)
              Hyear Hrange ltac:(lia) ltac:(lia) Hz) as [Hs He].
  replace (month - 1 + 1)%Z with month in He by lia.
  fold bounds in Hs, He.
  split; [exact He|].
  unfold prepareURSSAFDeclaration. cbv zeta.
  rewrite Hs, He. cbn [bind]. fold revenue.
  split; intros H.
  - destruct (calculateSocialContributions_within env revenue activityType
                (Some year) H) as (c & -> & _ & _ & _ & Hcon & _).
    cbn [bind]. eexists. split; [reflexivity|].
    cbn [URSSAFDeclarationData.revenue URSSAFDeclarationData.contributions
         URSSAFDeclarationData.is_acre URSSAFDeclarationData.acre_year].
    repeat split. exact Hcon.
  - rewrite (calculateSocialContributions_exceeded env revenue activityType
               (Some year) H).
    reflexivity.
Qed.

(** X24: [prepareURSSAFDeclaration] never applies the ACRE reduction.  For
    a month whose income is within the franchise threshold it returns that
    income and the contributions at the standard rates, whatever [isACRE]
    and [acreYear], which are only copied to the result; above the
    threshold it raises the franchise error.  The income is the one
    between the bounds of the month as the time zone renders them. *)
Theorem prepareURSSAFDeclaration_standard_rates :
  forall (date_leb : string -> string -> bool) (env : Env)
         (table : list Transaction.t) (userId : string) (year month : Z)
         (activityType : ActivityType) (isACRE : bool) (acreYear : option Z),
    (1 <= month <= 12)%Z ->
    ~ (0 <= year <= 99)%Z ->
    (-270000 <= year <= 270000)%Z ->
    (- JsDate.msPerDay < LocalTZA env <= JsDate.msPerDay)%Z ->
    let bounds := period_bounds (LocalTZA env) year (month - 1) (month - 1) in
    let revenue :=
      AccountingSummary.totalIncome
        (getAccountingSummary date_leb table userId
           (Some (fst bounds)) (Some (snd bounds))) in
    let threshold := FRANCHISE_THRESHOLDS_2024 activityType in
    (revenue <= threshold ->
     exists d : URSSAFDeclarationData.t,
       prepareURSSAFDeclaration date_leb env table userId year month
         activityType isACRE acreYear = Ok d
       /\ URSSAFDeclarationData.revenue d = revenue
       /\ URSSAFDeclarationData.contributions d
          = contributionsOf revenue (SOCIAL_CONTRIBUTION_RATES_2024 activityType)
       /\ URSSAFDeclarationData.is_acre d = isACRE
       /\ URSSAFDeclarationData.acre_year d = acreYear)
    /\ (threshold < revenue ->
        prepareURSSAFDeclaration date_leb env table userId year month
          activityType isACRE acreYear
        = Err (FranchiseExceeded threshold activityType)).
Proof.
  intros date_leb env table userId year month activityType isACRE acreYear
    Hm Hyear Hrange Hz.
  exact (proj2 (prepareURSSAFDeclaration_cases date_leb env table userId year
                  month activityType isACRE acreYear Hm Hyear Hrange Hz)).
Qed.

(** February 2024 of the sample table, with ACRE asked for its first
    year: the contributions on the 1000 of income are the standard 221. *)
Lemma prepareURSSAFDeclaration_standard_rates_witness :
  exists d : URSSAFDeclarationData.t,
    prepareURSSAFDeclaration String.leb env_paris_winter sample_transactions
      "u1" 2024 2 services true (Some 1%Z) = Ok d
    /\ SocialContributionRates.total (URSSAFDeclarationData.contributions d)
       == 221.
Proof.
  destruct (proj1 (prepareURSSAFDeclaration_standard_rates String.leb
                     env_paris_winter sample_transactions "u1" 2024 2
                     services true (Some 1%Z)
                     ltac:(lia) ltac:(lia) ltac:(lia)
                     ltac:(unfold JsDate.msPerDay; simpl; lia))
                  ltac:(vm_compute; discriminate))
    as (d & Hd & _ & Hc & _).
  exists d. split; [exact Hd|]. rewrite Hc. vm_compute. reflexivity.
Defined.

Lemma Forall2_map_eq {A B C : Type} (P : A -> B -> Prop) (f : B -> C)
    (g : A -> C) l l' :
  Forall2 P l l' -> (forall x y, P x y -> f y = g x) -> map f l' = map g l.
Proof.
  intros H HP. induction H as [|x y l l' Hxy _ IH]; [reflexivity|].
  cbn [map]. rewrite (HP x y Hxy), IH. reflexivity.
Qed.

Lemma Forall2_Forall_r {A B : Type} (P : A -> B -> Prop) (R : B -> Prop)
    l l' :
  Forall2 P l l' -> (forall x y, P x y -> R y) -> Forall R l'.
Proof.
  intros H HP. induction H as [|x y l l' Hxy _ IH]; constructor.
  - exact (HP x y Hxy).
  - exact IH.
Qed.

Lemma filter_all {A : Type} (p : A -> bool) l :
  Forall (fun x => p x = true) l -> filter p l = l.
Proof.
  induction 1 as [|x l Hx _ IH]; [reflexivity|].
  cbn [filter]. rewrite Hx, IH. reflexivity.
Qed.

Lemma filter_none {A : Type} (p : A -> bool) l :
  Forall (fun x => p x = false) l -> filter p l = [].
Proof.
  induction 1 as [|x l Hx _ IH]; [reflexivity|].
  cbn [filter]. rewrite Hx, IH. reflexivity.
Qed.

Lemma Qsum_map_scale {A : Type} (f : A -> Q) (c : Q) l :
  Qsum (map (fun x => f x * c) l) == Qsum (map f l) * c.
Proof.
  unfold Qsum. induction l as [|x l IH]; simpl.
  - ring.
  - rewrite IH. ring.
Qed.

Lemma mapM_cases {A B : Type} (f : A -> result B) (w : A -> bool)
    (e : Error) (P : A -> B -> Prop) l :
  (forall x, In x l ->
             if w x then exists y, f x = Ok y /\ P x y else f x = Err e) ->
  if forallb w l then exists ys, mapM f l = Ok ys /\ Forall2 P l ys
  else mapM f l = Err e.
Proof.
  induction l as [|x l IH]; intros H.
  - cbn. exists []. split; [reflexivity | constructor].
  - cbn [forallb mapM].
    pose proof (H x (or_introl eq_refl)) as Hx.
    destruct (w x); cbn [andb].
    + destruct Hx as (y & -> & Hy). cbn [bind].
      specialize (IH (fun z Hz => H z (or_intror Hz))).
      destruct (forallb w l).
      * destruct IH as (ys & -> & Hys). cbn [bind].
        exists (y :: ys). split; [reflexivity | constructor; assumption].
      * rewrite IH. reflexivity.
    + rewrite Hx. reflexivity.
Qed.

Lemma Qle_bool_cases a b :
  (Qle_bool a b = true /\ a <= b) \/ (Qle_bool a b = false /\ b < a).
Proof.
  destruct (Qle_bool a b) eqn:E.
  - left. split; [reflexivity | apply Qle_bool_iff, E].
  - right. split; [reflexivity|].
    apply Qnot_le_lt. intros H. apply Qle_bool_iff in H. congruence.
Qed.

Section GenerateAnnualTaxDeclarations.

Variable date_leb : string -> string -> bool.
Variables (env : Env) (table : list Transaction.t) (userId : string)
          (year : Z) (activityType : ActivityType).
Hypothesis Hyear : ~ (0 <= year <= 99)%Z.
Hypothesis Hrange : (-270000 <= year <= 270000)%Z.
Hypothesis Hzone : (- JsDate.msPerDay < LocalTZA env <= JsDate.msPerDay)%Z.

Lemma monthly_declaration_cases entry :
  In entry TAX_CALENDAR_2024.monthly_urssaf ->
  let n := fst (fst entry) in
  let revenue :=
    urssaf_revenue date_leb (LocalTZA env) table userId year monthly n in
  let threshold := FRANCHISE_THRESHOLDS_2024 activityType in
  if Qle_bool revenue threshold then
    exists r,
      monthly_declaration date_leb env table userId year activityType entry
      = Ok r
      /\ urssaf_row_of userId year activityType entry revenue
           (snd (urssaf_period (LocalTZA env) year monthly n)) r
  else
    monthly_declaration date_leb env table userId year activityType entry
    = Err (FranchiseExceeded threshold activityType).
Proof.
  intros Hin n revenue threshold.
  assert (Hn : (1 <= n <= 12)%Z).
  { subst n. unfold TAX_CALENDAR_2024.monthly_urssaf in Hin. simpl in Hin.
    repeat (destruct Hin as [<- | Hin]; [simpl; lia|]). destruct Hin. }
  destruct entry as [[month due] desc]. cbn [fst] in n. subst n.
  destruct (prepareURSSAFDeclaration_cases date_leb env table userId year
              month activityType false None Hn Hyear Hrange Hzone)
    as (Hend & Hok & Herr).
  cbv zeta in Hend, Hok, Herr.
  unfold monthly_declaration.
  fold (urssaf_period (LocalTZA env) year monthly month) in Hend, Hok, Herr.
  fold (urssaf_revenue date_leb (LocalTZA env) table userId year monthly month)
    in Hok, Herr.
  fold revenue in Hok, Herr. fold threshold in Hok, Herr.
  destruct (Qle_bool_cases revenue threshold) as [[-> H] | [-> H]].
  - destruct (Hok H) as (d & -> & Hr & Hc & _). cbn [bind].
    rewrite Hend. cbn [bind].
    eexists. split; [reflexivity|].
    unfold urssaf_row_of.
    cbn [TaxDeclarationData.user_id TaxDeclarationData.year
         TaxDeclarationData.declaration_type TaxDeclarationData.status
         TaxDeclarationData.due_date TaxDeclarationData.period_end
         TaxDeclarationData.revenue TaxDeclarationData.expenses
         TaxDeclarationData.net_result TaxDeclarationData.tax_amount fst snd].
    rewrite Hr, Hc. repeat split.
  - rewrite (Herr H). reflexivity.
Qed.

Lemma quarterly_declaration_cases entry :
  In entry TAX_CALENDAR_2024.quarterly_urssaf ->
  let n := fst (fst entry) in
  let revenue :=
    urssaf_revenue date_leb (LocalTZA env) table userId year quarterly n in
  let threshold := FRANCHISE_THRESHOLDS_2024 activityType in
  if Qle_bool revenue threshold then
    exists r,
      quarterly_declaration date_leb env table userId year activityType entry
      = Ok r
      /\ urssaf_row_of userId year activityType entry revenue
           (snd (urssaf_period (LocalTZA env) year quarterly n)) r
  else
    quarterly_declaration date_leb env table userId year activityType entry
    = Err (FranchiseExceeded threshold activityType).
Proof.
  intros Hin n revenue threshold.
  assert (Hn : In n [1; 2; 3; 4]%Z).
  { subst n. unfold TAX_CALENDAR_2024.quarterly_urssaf in Hin. simpl in Hin.
    repeat (destruct Hin as [<- | Hin]; [simpl; tauto|]). destruct Hin. }
  destruct entry as [[quarter due] desc]. cbn [fst] in n. subst n.
  destruct (quarter_months quarter Hn) as [Hf Hl].
  destruct (toISODate_period (LocalTZA env) year ((quarter - 1) * 3)
              (quarter * 3 - 1) Hyear Hrange Hf Hl Hzone) as [_ He].
  replace (quarter * 3 - 1 + 1)%Z with (quarter * 3)%Z in He by lia.
  unfold quarterly_declaration. cbv zeta. rewrite He. cbn [bind].
  change (AccountingSummary.totalIncome _) with revenue.
  destruct (Qle_bool_cases revenue threshold) as [[-> H] | [-> H]].
  - destruct (calculateSocialContributions_within env revenue activityType
                (Some year) H) as (c & -> & _ & _ & _ & Hcon & _).
    cbn [bind]. eexists. split; [reflexivity|].
    unfold urssaf_row_of.
    cbn [TaxDeclarationData.user_id TaxDeclarationData.year
         TaxDeclarationData.declaration_type TaxDeclarationData.status
         TaxDeclarationData.due_date TaxDeclarationData.period_end
         TaxDeclarationData.revenue TaxDeclarationData.expenses
         TaxDeclarationData.net_result TaxDeclarationData.tax_amount fst snd].
    rewrite Hcon. repeat split.
  - rewrite (calculateSocialContributions_exceeded env revenue activityType
               (Some year) H).
    reflexivity.
Qed.

End GenerateAnnualTaxDeclarations.

Lemma generateAnnualTaxDeclarations_cases
    date_leb env table userId year activityType frequency tax_declarations :
  ~ (0 <= year <= 99)%Z ->
  (-270000 <= year <= 270000)%Z ->
  (- JsDate.msPerDay < LocalTZA env <= JsDate.msPerDay)%Z ->
  let entries := urssaf_calendar frequency in
  let revenue :=
    urssaf_revenue date_leb (LocalTZA env) table userId year frequency in
  let threshold := FRANCHISE_THRESHOLDS_2024 activityType in
  if forallb (fun entry => Qle_bool (revenue (fst (fst entry))) threshold)
       entries
  then
    exists rows : list TaxDeclarationData.t,
      generateAnnualTaxDeclarations date_leb env table userId year
        activityType frequency tax_declarations
      = (Ok tt,
         (tax_declarations ++ rows
          ++ annual_declarations date_leb table userId year activityType)%list)
      /\ Forall2
           (fun entry r =>
              urssaf_row_of userId year activityType entry
                (revenue (fst (fst entry)))
                (snd (urssaf_period (LocalTZA env) year frequency
                        (fst (fst entry))))
                r)
           entries rows
  else
    generateAnnualTaxDeclarations date_leb env table userId year
      activityType frequency tax_declarations
    = (Err (FranchiseExceeded threshold activityType), tax_declarations).
Proof.
  intros Hyear Hrange Hzone entries revenue threshold.
  subst entries revenue. unfold generateAnnualTaxDeclarations.
  destruct frequency; cbn [urssaf_calendar].
  - pose proof (mapM_cases
                  (monthly_declaration date_leb env table userId year
                     activityType)
                  (fun entry =>
                     Qle_bool
                       (urssaf_revenue date_leb (LocalTZA env) table userId
                          year monthly (fst (fst entry))) threshold)
                  (FranchiseExceeded threshold activityType)
                  (fun entry r =>
                     urssaf_row_of userId year activityType entry
                       (urssaf_revenue date_leb (LocalTZA env) table userId
                          year monthly (fst (fst entry)))
                       (snd (urssaf_period (LocalTZA env) year monthly
                               (fst (fst entry))))
                       r)
                  TAX_CALENDAR_2024.monthly_urssaf
                  (monthly_declaration_cases date_leb env table userId year
                     activityType Hyear Hrange Hzone)) as H.
    destruct (forallb _ TAX_CALENDAR_2024.monthly_urssaf).
    + destruct H as (rows & -> & HF). exists rows. split; [reflexivity|].
      exact HF.
    + rewrite H. reflexivity.
  - pose proof (mapM_cases
                  (quarterly_declaration date_leb env table userId year
                     activityType)
                  (fun entry =>
                     Qle_bool
                       (urssaf_revenue date_leb (LocalTZA env) table userId
                          year quarterly (fst (fst entry))) threshold)
                  (FranchiseExceeded threshold activityType)
                  (fun entry r =>
                     urssaf_row_of userId year activityType entry
                       (urssaf_revenue date_leb (LocalTZA env) table userId
                          year quarterly (fst (fst entry)))
                       (snd (urssaf_period (LocalTZA env) year quarterly
                               (fst (fst entry))))
                       r)
                  TAX_CALENDAR_2024.quarterly_urssaf
                  (quarterly_declaration_cases date_leb env table userId year
                     activityType Hyear Hrange Hzone)) as H.
    destruct (forallb _ TAX_CALENDAR_2024.quarterly_urssaf).
    + destruct H as (rows & -> & HF). exists rows. split; [reflexivity|].
      exact HF.
    + rewrite H. reflexivity.
Qed.

(** X25: [generateAnnualTaxDeclarations] is all or nothing.  If the income
    of one period of the URSSAF calendar exceeds the franchise threshold
    it raises the franchise error and the table is unchanged.  Otherwise
    it appends one URSSAF row per period, then the income tax row and the
    CFE row, 14 rows for the monthly frequency and 6 for the quarterly
    one.  An URSSAF row is a draft with no expenses, a net result equal to
    the revenue, the revenue times the total rate as tax, and the due date
    of [TAX_CALENDAR_2024], whatever the year; the income tax row is due
    on 31 May of the following year and the CFE row on 15 December. *)
Theorem generateAnnualTaxDeclarations_outcome :
  forall (date_leb : string -> string -> bool) (env : Env)
         (table : list Transaction.t) (userId : string) (year : Z)
         (activityType : ActivityType) (frequency : DeclarationFrequency)
         (tax_declarations : list TaxDeclarationData.t),
    ~ (0 <= year <= 99)%Z ->
    (-270000 <= year <= 270000)%Z ->
    (- JsDate.msPerDay < LocalTZA env <= JsDate.msPerDay)%Z ->
    let entries := urssaf_calendar frequency in
    let revenue :=
      urssaf_revenue date_leb (LocalTZA env) table userId year frequency in
    let threshold := FRANCHISE_THRESHOLDS_2024 activityType in
    if forallb (fun entry => Qle_bool (revenue (fst (fst entry))) threshold)
         entries
    then
      exists rows : list TaxDeclarationData.t,
        generateAnnualTaxDeclarations date_leb env table userId year
          activityType frequency tax_declarations
        = (Ok tt,
           (tax_declarations ++ rows
            ++ annual_declarations date_leb table userId year
                 activityType)%list)
        /\ Forall2
             (fun entry r =>
                urssaf_row_of userId year activityType entry
                  (revenue (fst (fst entry)))
                  (snd (urssaf_period (LocalTZA env) year frequency
                          (fst (fst entry))))
                  r)
             entries rows
        /\ List.length
             (rows ++ annual_declarations date_leb table userId year
                        activityType)
           = match frequency with
             | monthly => 14%nat
             | quarterly => 6%nat
             end
        /\ map (fun r => (TaxDeclarationData.declaration_type r,
                          TaxDeclarationData.due_date r))
               (annual_declarations date_leb table userId year activityType)
           = [ (income_tax, (Z_toString (year + 1) ++ "-05-31")%string);
               (cfe, (Z_toString year ++ "-12-15")%string) ]
    else
      generateAnnualTaxDeclarations date_leb env table userId year
        activityType frequency tax_declarations
      = (Err (FranchiseExceeded threshold activityType), tax_declarations).
Proof.
  intros date_leb env table userId year activityType frequency
    tax_declarations Hyear Hrange Hzone entries revenue threshold.
  pose proof (generateAnnualTaxDeclarations_cases date_leb env table userId
                year activityType frequency tax_declarations
                Hyear Hrange Hzone) as H.
  cbv zeta in H. subst entries revenue threshold.
  destruct (forallb _ (urssaf_calendar frequency)); [|exact H].
  destruct H as (rows & Hgen & HF).
  exists rows. split; [exact Hgen|]. split; [exact HF|].
  split; [|reflexivity].
  rewrite length_app. apply Forall2_length in HF. rewrite <- HF.
  destruct frequency; reflexivity.
Qed.

(** The quarterly declarations of 2025 are due on the dates of the 2024
    calendar. *)
Lemma generateAnnualTaxDeclarations_outcome_witness :
  exists rows : list TaxDeclarationData.t,
    generateAnnualTaxDeclarations String.leb env_paris_winter
      sample_transactions "u1" 2025 services quarterly []
    = (Ok tt,
       (rows ++ annual_declarations String.leb sample_transactions "u1" 2025
                  services)%list)
    /\ map TaxDeclarationData.due_date rows
       = [ "2024-04-30"; "2024-07-31"; "2024-10-31"; "2025-01-31" ]%string.
Proof.
  pose proof (generateAnnualTaxDeclarations_outcome String.leb
                env_paris_winter sample_transactions "u1" 2025 services
                quarterly []
                ltac:(lia) ltac:(lia)
                ltac:(unfold JsDate.msPerDay; simpl; lia)) as H.
  cbv zeta in H.
  match type of H with
  | if ?b then _ else _ => change b with true in H
  end.
  cbv iota in H. destruct H as (rows & Hgen & HF & _).
  exists rows. split; [exact Hgen|].
  change [ "2024-04-30"; "2024-07-31"; "2024-10-31"; "2025-01-31" ]%string
    with (map (fun e : Z * string * string => snd (fst e))
              (urssaf_calendar quarterly)).
  apply (Forall2_map_eq _ _ _ _ _ HF).
  intros e r (_ & _ & _ & _ & Hdue & _). exact Hdue.
Defined.

Lemma tax_of_cons ty d l :
  tax_of ty (d :: l)
  == (if has_type ty d then TaxDeclarationData.tax_amount d else 0)
     + tax_of ty l.
Proof.
  unfold tax_of, Qsum. cbn [filter]. destruct (has_type ty d); simpl; ring.
Qed.

(** What the [forEach] of [getAnnualTaxSummary] adds to each field. *)
Lemma fold_tax_summary_step l :
  forall s,
    let s' := fold_left tax_summary_step l s in
    AnnualTaxSummary.total_revenue s'
    == AnnualTaxSummary.total_revenue s
       + Qsum (map TaxDeclarationData.revenue l)
    /\ AnnualTaxSummary.total_tax s'
       == AnnualTaxSummary.total_tax s
          + Qsum (map TaxDeclarationData.tax_amount l)
    /\ AnnualTaxSummary.urssaf_contributions s'
       == AnnualTaxSummary.urssaf_contributions s + tax_of urssaf l
    /\ AnnualTaxSummary.income_tax s'
       == AnnualTaxSummary.income_tax s + tax_of income_tax l
    /\ AnnualTaxSummary.cfe_tax s'
       == AnnualTaxSummary.cfe_tax s + tax_of cfe l
    /\ AnnualTaxSummary.declarations_count s'
       = AnnualTaxSummary.declarations_count s
    /\ AnnualTaxSummary.pending_declarations s'
       = AnnualTaxSummary.pending_declarations s
    /\ AnnualTaxSummary.submitted_declarations s'
       = AnnualTaxSummary.submitted_declarations s
    /\ AnnualTaxSummary.paid_declarations s'
       = AnnualTaxSummary.paid_declarations s.
Proof.
  induction l as [|d l IH]; intros s; cbv zeta.
  - unfold tax_of, Qsum. simpl. repeat split; ring.
  - cbn [fold_left].
    destruct (IH (tax_summary_step s d))
      as (H1 & H2 & H3 & H4 & H5 & H6 & H7 & H8 & H9).
    cbv zeta in H1, H2, H3, H4, H5, H6, H7, H8, H9.
    rewrite H1, H2, H3, H4, H5, H6, H7, H8, H9, !tax_of_cons.
    unfold tax_summary_step, has_type, Qsum. cbn [map fold_right].
    destruct (TaxDeclarationData.declaration_type d);
      cbn [AnnualTaxSummary.total_revenue AnnualTaxSummary.total_tax
           AnnualTaxSummary.urssaf_contributions AnnualTaxSummary.income_tax
           AnnualTaxSummary.cfe_tax AnnualTaxSummary.declarations_count
           AnnualTaxSummary.pending_declarations
           AnnualTaxSummary.submitted_declarations
           AnnualTaxSummary.paid_declarations];
      repeat split; ring.
Qed.

Lemma tax_by_type l :
  Qsum (map TaxDeclarationData.tax_amount l)
  == tax_of urssaf l + tax_of income_tax l + tax_of cfe l + tax_of vat l.
Proof.
  induction l as [|d l IH].
  - unfold tax_of, Qsum. simpl. ring.
  - rewrite !tax_of_cons. unfold Qsum in *. cbn [map fold_right].
    rewrite IH. unfold has_type.
    destruct (TaxDeclarationData.declaration_type d); ring.
Qed.

Lemma count_by_status (l : list TaxDeclarationData.t) :
  List.length l
  = (List.length (filter (has_status draft) l)
     + List.length (filter (has_status submitted) l)
     + List.length (filter (has_status paid) l))%nat.
Proof.
  induction l as [|d l IH]; [reflexivity|].
  cbn [filter].
  assert (H : forall st,
             has_status st d
             = match TaxDeclarationData.status d, st with
               | draft, draft | submitted, submitted | paid, paid => true
               | _, _ => false
               end) by reflexivity.
  rewrite !H.
  destruct (TaxDeclarationData.status d); cbn [List.length]; lia.
Qed.

Lemma getAnnualTaxSummary_fields tax_declarations userId year :
  let declarations := getUserTaxDeclarations tax_declarations userId year in
  let s := getAnnualTaxSummary tax_declarations userId year in
  AnnualTaxSummary.total_revenue s
  == Qsum (map TaxDeclarationData.revenue declarations)
  /\ AnnualTaxSummary.total_tax s
     == Qsum (map TaxDeclarationData.tax_amount declarations)
  /\ AnnualTaxSummary.urssaf_contributions s == tax_of urssaf declarations
  /\ AnnualTaxSummary.income_tax s == tax_of income_tax declarations
  /\ AnnualTaxSummary.cfe_tax s == tax_of cfe declarations
  /\ AnnualTaxSummary.declarations_count s = List.length declarations
  /\ AnnualTaxSummary.pending_declarations s
     = List.length (filter (has_status draft) declarations)
  /\ AnnualTaxSummary.submitted_declarations s
     = List.length (filter (has_status submitted) declarations)
  /\ AnnualTaxSummary.paid_declarations s
     = List.length (filter (has_status paid) declarations).
Proof.
  cbv zeta. unfold getAnnualTaxSummary. cbv zeta.
  set (l := getUserTaxDeclarations tax_declarations userId year).
  match goal with
  | |- context [fold_left tax_summary_step l ?s0] =>
      destruct (fold_tax_summary_step l s0)
        as (H1 & H2 & H3 & H4 & H5 & H6 & H7 & H8 & H9)
  end.
  cbv zeta in H1, H2, H3, H4, H5, H6, H7, H8, H9.
  cbn [AnnualTaxSummary.total_revenue AnnualTaxSummary.total_tax
       AnnualTaxSummary.urssaf_contributions AnnualTaxSummary.income_tax
       AnnualTaxSummary.cfe_tax AnnualTaxSummary.declarations_count
       AnnualTaxSummary.pending_declarations
       AnnualTaxSummary.submitted_declarations
       AnnualTaxSummary.paid_declarations] in H1, H2, H3, H4, H5, H6, H7, H8, H9.
  rewrite H1, H2, H3, H4, H5, H6, H7, H8, H9.
  repeat split; ring.
Qed.

(** X26: in the summary of [getAnnualTaxSummary] the number of
    declarations is the sum of the pending, submitted and paid ones, the
    total revenue adds the revenue of every declaration, and the total tax
    is the sum of the URSSAF, income tax and CFE amounts plus the tax of
    the VAT declarations, which no other field shows.  For the year 0 the
    year filter is off: the declarations of all years are read. *)
Theorem getAnnualTaxSummary_invariants :
  forall (tax_declarations : list TaxDeclarationData.t) (userId : string)
         (year : Z),
    let declarations := getUserTaxDeclarations tax_declarations userId year in
    let s := getAnnualTaxSummary tax_declarations userId year in
    AnnualTaxSummary.declarations_count s
    = (AnnualTaxSummary.pending_declarations s
       + AnnualTaxSummary.submitted_declarations s
       + AnnualTaxSummary.paid_declarations s)%nat
    /\ AnnualTaxSummary.total_revenue s
       == Qsum (map TaxDeclarationData.revenue declarations)
    /\ AnnualTaxSummary.total_tax s
       == AnnualTaxSummary.urssaf_contributions s
          + AnnualTaxSummary.income_tax s
          + AnnualTaxSummary.cfe_tax s
          + tax_of vat declarations
    /\ getUserTaxDeclarations tax_declarations userId 0
       = filter (fun d => String.eqb (TaxDeclarationData.user_id d) userId)
           tax_declarations.
Proof.
  intros tax_declarations userId year declarations s.
  destruct (getAnnualTaxSummary_fields tax_declarations userId year)
    as (H1 & H2 & H3 & H4 & H5 & H6 & H7 & H8 & H9).
  cbv zeta in H1, H2, H3, H4, H5, H6, H7, H8, H9.
  fold declarations in H1, H2, H3, H4, H5, H6, H7, H8, H9.
  fold s in H1, H2, H3, H4, H5, H6, H7, H8, H9.
  split; [|split; [|split]].
  - rewrite H6, H7, H8, H9. apply count_by_status.
  - exact H1.
  - rewrite H2, H3, H4, H5. apply tax_by_type.
  - unfold getUserTaxDeclarations. apply filter_ext. intros d.
    cbn. apply andb_true_r.
Qed.

Lemma tax_of_app ty l1 l2 : tax_of ty (l1 ++ l2) == tax_of ty l1 + tax_of ty l2.
Proof. unfold tax_of. rewrite filter_app, map_app. apply Qsum_app. Qed.

(** X27: for a user without earlier declarations, the summary read after a
    successful [generateAnnualTaxDeclarations] counts 14 or 6 declarations,
    all pending; its URSSAF amount is the total rate applied to the sum of
    the periods' revenues, its income tax and CFE are those of the
    calculators on the income of the year, and the total tax is the sum of
    the three.  Its total revenue counts the income of the year twice over
    and above the revenues of the periods, once for the income tax row and
    once for the CFE row. *)
Theorem getAnnualTaxSummary_after_generation :
  forall (date_leb : string -> string -> bool) (env : Env)
         (table : list Transaction.t) (userId : string) (year : Z)
         (activityType : ActivityType) (frequency : DeclarationFrequency)
         (tax_declarations : list TaxDeclarationData.t),
    ~ (0 <= year <= 99)%Z ->
    (-270000 <= year <= 270000)%Z ->
    (- JsDate.msPerDay < LocalTZA env <= JsDate.msPerDay)%Z ->
    Forall (fun d => String.eqb (TaxDeclarationData.user_id d) userId = false)
      tax_declarations ->
    fst (generateAnnualTaxDeclarations date_leb env table userId year
           activityType frequency tax_declarations) = Ok tt ->
    let s :=
      getAnnualTaxSummary
        (snd (generateAnnualTaxDeclarations date_leb env table userId year
                activityType frequency tax_declarations))
        userId year in
    let annual :=
      AccountingSummary.totalIncome
        (getAccountingSummary date_leb table userId
           (Some (Z_toString year ++ "-01-01")%string)
           (Some (Z_toString year ++ "-12-31")%string)) in
    let periods :=
      map (fun entry =>
             urssaf_revenue date_leb (LocalTZA env) table userId year
               frequency (fst (fst entry)))
          (urssaf_calendar frequency) in
    AnnualTaxSummary.declarations_count s
    = match frequency with
      | monthly => 14%nat
      | quarterly => 6%nat
      end
    /\ AnnualTaxSummary.pending_declarations s
       = AnnualTaxSummary.declarations_count s
    /\ AnnualTaxSummary.total_revenue s == Qsum periods + 2 * annual
    /\ AnnualTaxSummary.urssaf_contributions s
       == Qsum periods * total (SOCIAL_CONTRIBUTION_RATES_2024 activityType)
    /\ AnnualTaxSummary.income_tax s
       == IncomeTaxData.total_tax (calculateIncomeTax annual activityType 1)
    /\ AnnualTaxSummary.cfe_tax s
       == CFEData.total_cfe (calculateCFE annual activityType "Paris" None)
    /\ AnnualTaxSummary.total_tax s
       == AnnualTaxSummary.urssaf_contributions s
          + AnnualTaxSummary.income_tax s
          + AnnualTaxSummary.cfe_tax s.
Proof.
  intros date_leb env table userId year activityType frequency
    tax_declarations Hyear Hrange Hzone Hother Hok s annual periods.
  pose proof (generateAnnualTaxDeclarations_cases date_leb env table userId
                year activityType frequency tax_declarations
                Hyear Hrange Hzone) as H.
  cbv zeta in H.
  destruct (forallb _ (urssaf_calendar frequency));
    [|rewrite H in Hok; discriminate Hok].
  destruct H as (rows & Hgen & HF).
  subst s. rewrite Hgen. cbn [snd]. clear Hgen Hok.
  set (anns := annual_declarations date_leb table userId year activityType).
  assert (Hy0 : (year =? 0)%Z = false) by (apply Z.eqb_neq; lia).
  assert (Hsel : forall d,
             TaxDeclarationData.user_id d = userId ->
             TaxDeclarationData.year d = year ->
             String.eqb (TaxDeclarationData.user_id d) userId
             && (if (year =? 0)%Z then true
                 else (TaxDeclarationData.year d =? year)%Z) = true).
  { intros d -> ->. rewrite String.eqb_refl, Hy0, Z.eqb_refl. reflexivity. }
  assert (Hrows : Forall (fun r =>
                            TaxDeclarationData.user_id r = userId
                            /\ TaxDeclarationData.year r = year
                            /\ TaxDeclarationData.declaration_type r = urssaf
                            /\ TaxDeclarationData.status r = draft) rows).
  { apply (Forall2_Forall_r _ _ _ _ HF).
    intros entry r (H1 & H2 & H3 & H4 & _). repeat split; assumption. }
  assert (Hanns : Forall (fun r =>
                            TaxDeclarationData.user_id r = userId
                            /\ TaxDeclarationData.year r = year
                            /\ TaxDeclarationData.status r = draft) anns).
  { subst anns. unfold annual_declarations. repeat constructor. }
  assert (Hdecl : getUserTaxDeclarations (tax_declarations ++ rows ++ anns)
                    userId year = (rows ++ anns)%list).
  { unfold getUserTaxDeclarations. rewrite !filter_app.
    rewrite (filter_none _ tax_declarations).
    - rewrite !filter_all; [reflexivity | |].
      + eapply Forall_impl; [|exact Hanns].
        intros d (H1 & H2 & _). apply Hsel; assumption.
      + eapply Forall_impl; [|exact Hrows].
        intros d (H1 & H2 & _). apply Hsel; assumption.
    - eapply Forall_impl; [|exact Hother].
      intros d Hd. cbv beta. rewrite Hd. reflexivity. }
  destruct (getAnnualTaxSummary_fields (tax_declarations ++ rows ++ anns)
              userId year) as (H1 & H2 & H3 & H4 & H5 & H6 & H7 & _).
  cbv zeta in H1, H2, H3, H4, H5, H6, H7.
  rewrite Hdecl in H1, H2, H3, H4, H5, H6, H7.
  assert (Hrev : map TaxDeclarationData.revenue rows = periods).
  { subst periods. apply (Forall2_map_eq _ _ _ _ _ HF).
    intros entry r (_ & _ & _ & _ & _ & _ & Hr & _). exact Hr. }
  assert (Htax : map TaxDeclarationData.tax_amount rows
                 = map (fun entry =>
                          urssaf_revenue date_leb (LocalTZA env) table userId
                            year frequency (fst (fst entry))
                          * total (SOCIAL_CONTRIBUTION_RATES_2024 activityType))
                       (urssaf_calendar frequency)).
  { apply (Forall2_map_eq _ _ _ _ _ HF).
    intros entry r (_ & _ & _ & _ & _ & _ & _ & _ & _ & Ht). exact Ht. }
  assert (Hu : forall ty,
             tax_of ty rows
             == match ty with
                | urssaf => Qsum (map TaxDeclarationData.tax_amount rows)
                | _ => 0
                end).
  { intros ty. clear - Hrows. induction Hrows as [|r rows Hr _ IH].
    - destruct ty; reflexivity.
    - rewrite tax_of_cons, IH. destruct Hr as (_ & _ & Ht & _).
      unfold has_type. rewrite Ht. unfold Qsum.
      destruct ty; cbn [map fold_right]; ring. }
  assert (Hlen : List.length (rows ++ anns)
                 = match frequency with
                   | monthly => 14%nat
                   | quarterly => 6%nat
                   end).
  { rewrite length_app. apply Forall2_length in HF. rewrite <- HF.
    destruct frequency; reflexivity. }
  assert (Hdraft : filter (has_status draft) (rows ++ anns)
                   = (rows ++ anns)%list).
  { apply filter_all. apply Forall_app. split.
    - eapply Forall_impl; [|exact Hrows].
      intros d (_ & _ & _ & Hs). unfold has_status. rewrite Hs. reflexivity.
    - eapply Forall_impl; [|exact Hanns].
      intros d (_ & _ & Hs). unfold has_status. rewrite Hs. reflexivity. }
  assert (Eu : AnnualTaxSummary.urssaf_contributions
                 (getAnnualTaxSummary (tax_declarations ++ rows ++ anns)
                    userId year)
               == Qsum periods
                  * total (SOCIAL_CONTRIBUTION_RATES_2024 activityType)).
  { rewrite H3, tax_of_app, (Hu urssaf), Htax, Qsum_map_scale.
    subst periods. unfold tax_of, Qsum. cbn. ring. }
  assert (Ei : AnnualTaxSummary.income_tax
                 (getAnnualTaxSummary (tax_declarations ++ rows ++ anns)
                    userId year)
               == IncomeTaxData.total_tax
                    (calculateIncomeTax annual activityType 1)).
  { rewrite H4, tax_of_app, (Hu income_tax).
    unfold tax_of, Qsum. cbn. ring. }
  assert (Ec : AnnualTaxSummary.cfe_tax
                 (getAnnualTaxSummary (tax_declarations ++ rows ++ anns)
                    userId year)
               == CFEData.total_cfe
                    (calculateCFE annual activityType "Paris" None)).
  { rewrite H5, tax_of_app, (Hu cfe).
    unfold tax_of, Qsum. cbn. ring. }
  split; [rewrite H6; exact Hlen|].
  split; [rewrite H7, H6, Hdraft; reflexivity|].
  split.
  { rewrite H1, map_app, Qsum_app, Hrev. unfold Qsum. cbn. ring. }
  split; [exact Eu|]. split; [exact Ei|]. split; [exact Ec|].
  rewrite Eu, Ei, Ec, H2, map_app, Qsum_app, Htax, Qsum_map_scale.
  subst periods. unfold Qsum. cbn. ring.
Qed.

(** The sample table, quarterly frequency: six declarations, all
    pending. *)
Lemma getAnnualTaxSummary_after_generation_witness :
  let s :=
    getAnnualTaxSummary
      (snd (generateAnnualTaxDeclarations String.leb env_paris_winter
              sample_transactions "u1" 2024 services quarterly []))
      "u1" 2024 in
  AnnualTaxSummary.declarations_count s = 6%nat
  /\ AnnualTaxSummary.pending_declarations s = 6%nat.
Proof.
  intros s.
  destruct (getAnnualTaxSummary_after_generation String.leb env_paris_winter
              sample_transactions "u1" 2024 services quarterly []
              ltac:(lia) ltac:(lia)
              ltac:(unfold JsDate.msPerDay; simpl; lia)
              (Forall_nil _)
              ltac:(vm_compute; reflexivity))
    as (Hc & Hp & _).
  fold s in Hc, Hp. split; [exact Hc | rewrite Hp; exact Hc].
Defined.
